(** * firejail: D-Bus proxy mediation ([src/firejail/dbus.c])

    A shallow embedding of [dbus.c] and the properties of its
    specification.

    Modelling conventions.
    - A C string is modelled by the [string] of its bytes; the
      terminating NUL is the end of the Rocq string.  A buffer holding a
      NUL before its end is read by C only up to that NUL ([c_str]).
    - [int], [pid_t], [uid_t], descriptors and [mode_t] values are [Z].
    - Everything the code asks of the operating system or of the rest of
      firejail is a [syscall]; a C function is a [prog], a finite tree of
      such calls, and an environment is a [handler] answering them. *)

From Stdlib Require Import ZArith List Bool Lia.
From Stdlib Require Import Strings.String Strings.Ascii Numbers.DecimalString.
Import ListNotations.

Local Open Scope string_scope.
Local Open Scope Z_scope.

(** ** C strings *)

Module CString.

Definition NUL : ascii := "000"%char.

Definition is_nul (c : ascii) : bool := Ascii.eqb c NUL.

(** What C reads from a buffer: the bytes before the first NUL. *)
Fixpoint c_str (s : string) : string :=
  match s with
  | EmptyString => EmptyString
  | String c rest => if is_nul c then EmptyString else String c (c_str rest)
  end.

(** The buffer holds no NUL byte: it is the C string it denotes. *)
Fixpoint c_string (s : string) : Prop :=
  match s with
  | EmptyString => True
  | String c rest => is_nul c = false /\ c_string rest
  end.

Fixpoint strlen (s : string) : Z :=
  match s with
  | EmptyString => 0
  | String c rest => if is_nul c then 0 else 1 + strlen rest
  end.

(** [strncmp(s1, s2, n) == 0]. *)
Fixpoint strncmp_eq0 (s1 s2 : string) (n : nat) : bool :=
  match n with
  | O => true
  | S n' =>
      match s1, s2 with
      | EmptyString, EmptyString => true
      | EmptyString, String c2 _ => is_nul c2
      | String c1 _, EmptyString => is_nul c1
      | String c1 r1, String c2 r2 =>
          if Ascii.eqb c1 c2
          then (if is_nul c1 then true else strncmp_eq0 r1 r2 n')
          else false
      end
  end.

(** [strcmp(s1, s2) == 0]. *)
Definition strcmp_eq0 (s1 s2 : string) : bool := String.eqb (c_str s1) (c_str s2).

(** [s + n] for [n <= strlen s]. *)
Fixpoint advance (n : nat) (s : string) : string :=
  match n, s with
  | O, _ => s
  | S n', String _ rest => advance n' rest
  | S _, EmptyString => EmptyString
  end.

(** The first [n] bytes of [s] (the [%.*s] conversion). *)
Fixpoint take (n : nat) (s : string) : string :=
  match n, s with
  | O, _ => EmptyString
  | S n', String c rest => if is_nul c then EmptyString else String c (take n' rest)
  | S _, EmptyString => EmptyString
  end.

End CString.
Import CString.

(** ** NameGrammar: [dbus_check_name] *)

Definition DBUS_MAX_NAME_LENGTH : Z := 255.

Definition is_lower (c : ascii) : bool := (("a" <=? c) && (c <=? "z"))%char.
Definition is_upper (c : ascii) : bool := (("A" <=? c) && (c <=? "Z"))%char.

(** The [while] loop over the bytes at [p], which ends at the NUL, and
    the final [return in_segment && segments >= 2]. *)
Fixpoint dbus_check_name_loop (p : string) (segments : Z) (in_segment : bool) : bool :=
  match p with
  | EmptyString => in_segment && (2 <=? segments)
  | String c rest =>
      if is_nul c then in_segment && (2 <=? segments) else
      let alpha := is_lower c || is_upper c in
      let digit := (("0" <=? c) && (c <=? "9"))%char in
      if in_segment then
        if Ascii.eqb c "." then dbus_check_name_loop rest (segments + 1) false
        else if negb alpha && negb digit && negb (Ascii.eqb c "_") && negb (Ascii.eqb c "-")
             then false
             else dbus_check_name_loop rest segments true
      else
        if Ascii.eqb c "*"
        then match rest with
             | EmptyString => true
             | String c' _ => is_nul c'
             end
        else if negb alpha && negb (Ascii.eqb c "_") && negb (Ascii.eqb c "-")
             then false
             else dbus_check_name_loop rest segments true
  end.

Definition dbus_check_name (name : string) : bool :=
  let length := strlen name in
  if (length =? 0) || (DBUS_MAX_NAME_LENGTH <? length) then false
  else dbus_check_name_loop name 1 false.

(** *** The grammar, in the words of the specification *)

Module NameGrammar.

Definition is_letter (c : ascii) : bool := is_lower c || is_upper c.
Definition is_digit (c : ascii) : bool := (("0" <=? c) && (c <=? "9"))%char.

(** First character of a segment: [[A-Za-z_-]]. *)
Definition first_ok (c : ascii) : bool :=
  is_letter c || Ascii.eqb c "_" || Ascii.eqb c "-".

(** Subsequent characters of a segment: [[A-Za-z0-9_-]]. *)
Definition rest_ok (c : ascii) : bool :=
  is_letter c || is_digit c || Ascii.eqb c "_" || Ascii.eqb c "-".

Fixpoint all_chars (f : ascii -> bool) (s : string) : bool :=
  match s with
  | EmptyString => true
  | String c rest => f c && all_chars f rest
  end.

Definition valid_segment (seg : string) : bool :=
  match seg with
  | EmptyString => false
  | String c rest => first_ok c && all_chars rest_ok rest
  end.

(** Segments written one after the other with a dot between them. *)
Fixpoint join_dots (segs : list string) : string :=
  match segs with
  | [] => EmptyString
  | [seg] => seg
  | seg :: more => seg ++ "." ++ join_dots more
  end.

(** Segments each followed by a dot: the part before a wildcard. *)
Fixpoint dotted (segs : list string) : string :=
  match segs with
  | [] => EmptyString
  | seg :: more => seg ++ "." ++ dotted more
  end.

Definition length_ok (s : string) : Prop :=
  (1 <= String.length s <= 255)%nat.

(** (a) at least two dot-separated segments, each well formed. *)
Definition plain_name (s : string) : Prop :=
  length_ok s /\
  exists segs, s = join_dots segs /\ (2 <= List.length segs)%nat /\
               Forall (fun seg => valid_segment seg = true) segs.

(** (b) a final [*] standing where a segment would start, after zero or
    more completed well-formed segments. *)
Definition wildcard_name (s : string) : Prop :=
  length_ok s /\
  exists segs, s = dotted segs ++ "*" /\
               Forall (fun seg => valid_segment seg = true) segs.

End NameGrammar.
Import NameGrammar.


(** ** Formatted output

    The conversions [dbus.c] uses: [%d], [%s], [%.*s] and [%%].  A
    conversion with no argument of its type left, or any other conversion,
    is undefined behaviour ([None]). *)

Inductive printf_arg : Type :=
| ArgInt (z : Z)
| ArgStr (s : string).

(** A value converted to [int]. *)
Definition int_cast (z : Z) : Z := (z + 2 ^ 31) mod 2 ^ 32 - 2 ^ 31.

Definition Z_to_string (z : Z) : string := NilEmpty.string_of_int (Z.to_int z).

Fixpoint vasprintf (format : string) (ap : list printf_arg) : option string :=
  match format with
  | EmptyString => Some EmptyString
  | String c rest =>
      if negb (Ascii.eqb c "%") then option_map (String c) (vasprintf rest ap)
      else
        match rest with
        | EmptyString => None
        | String c1 rest1 =>
            if Ascii.eqb c1 "%" then option_map (String "%") (vasprintf rest1 ap)
            else if Ascii.eqb c1 "d" then
              match ap with
              | ArgInt z :: ap' =>
                  option_map (String.append (Z_to_string (int_cast z)))
                    (vasprintf rest1 ap')
              | _ => None
              end
            else if Ascii.eqb c1 "s" then
              match ap with
              | ArgStr s :: ap' =>
                  option_map (String.append (c_str s)) (vasprintf rest1 ap')
              | _ => None
              end
            else if Ascii.eqb c1 "." then
              match rest1, ap with
              | String c2 (String c3 rest3), ArgInt n :: ArgStr s :: ap' =>
                  if Ascii.eqb c2 "*" && Ascii.eqb c3 "s" then
                    option_map
                      (String.append (if n <? 0 then c_str s else take (Z.to_nat n) s))
                      (vasprintf rest3 ap')
                  else None
              | _, _ => None
              end
            else None
        end
  end.

(** [strstr(hay, needle) != NULL]. *)
Fixpoint strstr (hay needle : string) : bool :=
  String.prefix needle hay ||
  match hay with
  | EmptyString => false
  | String _ rest => strstr rest needle
  end.

(** ** Effects

    What a C function of [dbus.c] asks of its environment, what ends the
    process, and programs as finite trees of calls. *)

Record stat_t : Type := { st_mode : Z; st_uid : Z; st_gid : Z }.

(** The calls, each with the type of its answer.  [set_perms],
    [safe_fd], [disable_file_or_dir], [checkcfg(CFG_DBUS)],
    [any_bridge_configured] and [EUID_ROOT] are functions and a macro of
    firejail outside [dbus.c]: what they do is the environment's.  The
    three [out_] calls are the output of [printf], of [fprintf(stderr)]
    and of [fwarning]; [allocate] is the allocation inside [asprintf] and
    [vasprintf], which may fail. *)
Inductive syscall : Type -> Type :=
| stat (path : string) : syscall (option stat_t)
| mkdir (path : string) (mode : Z) : syscall (Z * Z)       (* result, errno *)
| set_perms (path : string) (uid gid mode : Z) : syscall Z
| pipe : syscall (option (N * N))       (* read end, write end: never negative *)
| fork : syscall Z
| close (fd : Z) : syscall Z
| getenv (name : string) : syscall (option string)
| setenv (name value : string) (overwrite : Z) : syscall Z
| write (fd : Z) (buf : string) : syscall Z
| read (fd : Z) (count : Z) : syscall Z
| waitpid (pid : Z) : syscall (Z * Z)                      (* result, status *)
| safe_fd (path : string) (flags : Z) : syscall Z
| fstat (fd : Z) : syscall (option stat_t)
| mount (source target : string) (flags : Z) : syscall Z
| disable_file_or_dir (path : string) : syscall unit
| checkcfg_dbus : syscall Z
| any_bridge_configured : syscall Z
| out_stdout (msg : string) : syscall unit
| out_stderr (msg : string) : syscall unit
| out_warning (msg : string) : syscall unit
| allocate (s : string) : syscall bool                     (* room for [s] found *)
| EUID_ROOT : syscall unit.

Inductive halt : Type :=
| Exit (status : Z)
| ErrExit (msg : string)
| AssertFailed
| Undefined
| Exec (flags : list string) (argv : list string).

Inductive prog (A : Type) : Type :=
| Ret (a : A)
| Halt (h : halt)
| Call {R : Type} (c : syscall R) (k : R -> prog A).

Arguments Ret {A} a.
Arguments Halt {A} h.
Arguments Call {A R} c k.

Fixpoint bind {A B : Type} (p : prog A) (f : A -> prog B) : prog B :=
  match p with
  | Ret a => f a
  | Halt h => Halt h
  | Call c k => Call c (fun r => bind (k r) f)
  end.

Definition call {R : Type} (c : syscall R) : prog R := Call c Ret.

Declare Scope prog_scope.
Delimit Scope prog_scope with prog.
Bind Scope prog_scope with prog.
Notation "x <- p ;; q" := (bind p (fun x => q))
  (at level 61, p at next level, right associativity) : prog_scope.
Notation "p ;; q" := (bind p (fun _ => q))
  (at level 61, right associativity) : prog_scope.
Local Open Scope prog_scope.

Definition when (b : bool) (p : prog unit) : prog unit :=
  if b then p else Ret tt.

Inductive event : Type :=
| Ev {R : Type} (c : syscall R) (r : R).

Inductive outcome (A : Type) : Type :=
| Done (a : A)
| Halted (h : halt).

Arguments Done {A} a.
Arguments Halted {A} h.

(** An environment: a state and an answer to every call. *)
Definition handler (S : Type) : Type := forall R : Type, syscall R -> S -> R * S.

Record run (S A : Type) : Type := Run {
  trace : list (S * event);      (* each call with the state it was made in *)
  result : outcome A;
  final : S
}.

Arguments Run {S A} trace result final.
Arguments trace {S A} r.
Arguments result {S A} r.
Arguments final {S A} r.

Fixpoint interp {S A : Type} (h : handler S) (p : prog A) (s : S) : run S A :=
  match p with
  | Ret a => Run [] (Done a) s
  | Halt x => Run [] (Halted x) s
  | Call c k =>
      let rs := h _ c s in
      let r := interp h (k (fst rs)) (snd rs) in
      Run ((s, Ev c (fst rs)) :: trace r) (result r) (final r)
  end.

Definition events {S A : Type} (r : run S A) : list event := map snd (trace r).

(** *** Reading a trace *)

(** The buffers handed to [write], with their descriptor, in order. *)
Definition write_of (e : event) : list (Z * string) :=
  match e with
  | Ev c _ => match c with write fd buf => [(fd, buf)] | _ => [] end
  end.

Definition writes (t : list event) : list (Z * string) := flat_map write_of t.

(** The results of the calls of [read], with descriptor and count. *)
Definition read_of (e : event) : list (Z * Z * Z) :=
  match e with
  | Ev c r =>
      match c in syscall R return R -> list (Z * Z * Z) with
      | read fd count => fun n => [(fd, count, n)]
      | _ => fun _ => []
      end r
  end.

Definition reads (t : list event) : list (Z * Z * Z) := flat_map read_of t.

(** The pipes made: read end and write end. *)
Definition pipe_of (e : event) : list (N * N) :=
  match e with
  | Ev c r =>
      match c in syscall R return R -> list (N * N) with
      | pipe => fun p => match p with Some fds => [fds] | None => [] end
      | _ => fun _ => []
      end r
  end.

Definition pipes (t : list event) : list (N * N) := flat_map pipe_of t.

(** What each [fork] returned. *)
Definition fork_of (e : event) : list Z :=
  match e with
  | Ev c r =>
      match c in syscall R return R -> list Z with
      | fork => fun pid => [pid]
      | _ => fun _ => []
      end r
  end.

Definition forks (t : list event) : list Z := flat_map fork_of t.

(** The descriptors closed and what [close] returned. *)
Definition close_of (e : event) : list (Z * Z) :=
  match e with
  | Ev c r =>
      match c in syscall R return R -> list (Z * Z) with
      | close fd => fun n => [(fd, n)]
      | _ => fun _ => []
      end r
  end.

Definition closes (t : list event) : list (Z * Z) := flat_map close_of t.

(** What each [getenv] returned. *)
Definition getenv_of (e : event) : list (option string) :=
  match e with
  | Ev c r =>
      match c in syscall R return R -> list (option string) with
      | getenv _ => fun v => [v]
      | _ => fun _ => []
      end r
  end.

Definition getenvs (t : list event) : list (option string) := flat_map getenv_of t.

(** The bind mounts asked for: source and target. *)
Definition mount_of (e : event) : list (string * string) :=
  match e with
  | Ev c _ => match c with mount source target _ => [(source, target)] | _ => [] end
  end.

Definition mounts (t : list event) : list (string * string) := flat_map mount_of t.

(** A class of calls, and programs that make calls of that class only. *)
Definition call_class : Type := forall R : Type, syscall R -> bool.

Fixpoint only_calls {A : Type} (P : call_class) (p : prog A) : Prop :=
  match p with
  | Ret _ => True
  | Halt _ => True
  | Call c k => P _ c = true /\ forall r, only_calls P (k r)
  end.

(** A projection of the trace sees nothing of a class of calls. *)
Definition silent_on {X : Type} (P : call_class) (f : event -> list X) : Prop :=
  forall R (c : syscall R) r, P R c = true -> f (Ev c r) = [].

Definition event_class (P : call_class) (e : event) : bool :=
  match e with Ev c _ => P _ c end.

(** The calls of the directory set-up. *)
Definition dir_call : call_class := fun R c =>
  match c with
  | allocate _ | out_stdout _ | stat _ | mkdir _ _ | set_perms _ _ _ _ => true
  | _ => false
  end.

(** The calls of [write_arg] and of [asprintf]. *)
Definition output_call : call_class := fun R c =>
  match c with
  | allocate _ | out_stdout _ | write _ _ => true
  | _ => false
  end.

(** The calls of the configuration of one bus. *)
Definition config_call : call_class := fun R c =>
  match c with
  | allocate _ | out_stdout _ | write _ _ | getenv _ => true
  | _ => false
  end.

(** Every call but [fork]. *)
Definition no_fork : call_class := fun R c =>
  match c with
  | fork => false
  | _ => true
  end.

(** The calls of the child before it executes the proxy. *)
Definition child_call : call_class := fun R c =>
  match c with
  | allocate _ | out_stdout _ | close _ => true
  | _ => false
  end.

Definition is_fork (e : event) : bool :=
  match e with Ev c _ => match c with fork => true | _ => false end end.


Definition is_read (e : event) : bool :=
  match e with Ev c _ => match c with read _ _ => true | _ => false end end.

Definition warning_of (e : event) : list string :=
  match e with
  | Ev c _ => match c with out_warning msg => [msg] | _ => [] end
  end.

Definition warnings (t : list event) : list string := flat_map warning_of t.

(** What was put on the diagnostic stream, warnings included. *)
Definition diagnostic_of (e : event) : list string :=
  match e with
  | Ev c _ => match c with
              | out_warning msg => [msg]
              | out_stderr msg => [msg]
              | _ => []
              end
  end.

Definition diagnostics (t : list event) : list string := flat_map diagnostic_of t.

Definition S_IFMT : Z := 0xF000.      (* 0170000 *)
Definition S_IFSOCK : Z := 0xC000.    (* 0140000 *)
Definition S_IFDIR : Z := 0x4000.     (* 0040000 *)
Definition S_ISSOCK (m : Z) : bool := Z.land m S_IFMT =? S_IFSOCK.
Definition S_ISDIR (m : Z) : bool := Z.land m S_IFMT =? S_IFDIR.

(** What each [fstat] reported. *)
Definition fstat_of (e : event) : list (option stat_t) :=
  match e with
  | Ev c r =>
      match c in syscall R return R -> list (option stat_t) with
      | fstat _ => fun st => [st]
      | _ => fun _ => []
      end r
  end.

Definition fstats (t : list event) : list (option stat_t) := flat_map fstat_of t.

Definition is_socket (st : option stat_t) : bool :=
  match st with
  | Some s => S_ISSOCK (st_mode s)
  | None => false
  end.

(** An [fstat] of the trace reported a socket. *)
Definition verified_socket (t : list event) : bool := existsb is_socket (fstats t).


(** ** Constants *)

Definition dquote : ascii := "034"%char.
Definition nl : string := String "010"%char EmptyString.

Definition DBUS_SOCKET_PATH_PREFIX : string := "unix:path=".
Definition DBUS_USER_SOCKET_FORMAT : string := "/run/user/%d/bus".
Definition DBUS_USER_SOCKET_PATH_FORMAT : string :=
  DBUS_SOCKET_PATH_PREFIX ++ DBUS_USER_SOCKET_FORMAT.
Definition DBUS_SYSTEM_SOCKET : string := "/run/dbus/system_bus_socket".
Definition DBUS_SYSTEM_SOCKET_PATH : string :=
  DBUS_SOCKET_PATH_PREFIX ++ DBUS_SYSTEM_SOCKET.
Definition DBUS_SESSION_BUS_ADDRESS_ENV : string := "DBUS_SESSION_BUS_ADDRESS".

Definition O_PATH : Z := 0x200000.      (* 010000000 *)
Definition O_NOFOLLOW : Z := 0x20000.   (* 0400000 *)
Definition O_CLOEXEC : Z := 0x80000.    (* 02000000 *)
Definition MS_BIND : Z := 4096.
Definition MS_REC : Z := 16384.
Definition EEXIST : Z := 17.

Definition WIFEXITED (status : Z) : bool := Z.land status 0x7f =? 0.
Definition WEXITSTATUS (status : Z) : Z := Z.shiftr (Z.land status 0xff00) 8.

(** ** An operating system

    A small model of the kernel and of the rest of firejail, answering
    every call: a file system of objects by path, the objects held by open
    descriptors, the environment, the child process, and what another
    process does to the file system while the program runs. *)

Record inode : Type := { i_ino : Z; i_stat : stat_t }.

Record OS : Type := {
  os_fs : string -> option inode;
  os_open : Z -> option inode;          (* what each open descriptor refers to *)
  os_next_fd : N;
  os_next_ino : Z;
  os_euid : Z;
  os_egid : Z;
  os_env : string -> option string;
  os_child : Z;                         (* what [fork] returns *)
  os_ready : Z;                         (* what reading the status pipe returns *)
  os_status : Z;                        (* the wait status of the child *)
  os_rival : list (string * option inode);
                                        (* the changes another process makes to
                                           the file system once the program has
                                           looked at a descriptor with [fstat] *)
  os_mounts : list (string * inode)     (* target and the object bound over it *)
}.

Definition update {V : Type} (f : string -> V) (k : string) (v : V) : string -> V :=
  fun k' => if String.eqb k' k then v else f k'.

Definition updateZ {V : Type} (f : Z -> V) (k : Z) (v : V) : Z -> V :=
  fun k' => if k' =? k then v else f k'.

Definition os_with_fs (os : OS) (fs : string -> option inode) (next_ino : Z) : OS :=
  {| os_fs := fs; os_open := os_open os; os_next_fd := os_next_fd os;
     os_next_ino := next_ino; os_euid := os_euid os; os_egid := os_egid os;
     os_env := os_env os; os_child := os_child os; os_ready := os_ready os;
     os_status := os_status os; os_rival := os_rival os;
     os_mounts := os_mounts os |}.

Definition os_with_open (os : OS) (open : Z -> option inode) (next_fd : N) : OS :=
  {| os_fs := os_fs os; os_open := open; os_next_fd := next_fd;
     os_next_ino := os_next_ino os; os_euid := os_euid os; os_egid := os_egid os;
     os_env := os_env os; os_child := os_child os; os_ready := os_ready os;
     os_status := os_status os; os_rival := os_rival os;
     os_mounts := os_mounts os |}.

Definition os_with_env (os : OS) (env : string -> option string) : OS :=
  {| os_fs := os_fs os; os_open := os_open os; os_next_fd := os_next_fd os;
     os_next_ino := os_next_ino os; os_euid := os_euid os; os_egid := os_egid os;
     os_env := env; os_child := os_child os; os_ready := os_ready os;
     os_status := os_status os; os_rival := os_rival os;
     os_mounts := os_mounts os |}.

Definition os_after_rival (os : OS) : OS :=
  {| os_fs := fold_left (fun fs kv => update fs (fst kv) (snd kv)) (os_rival os) (os_fs os);
     os_open := os_open os; os_next_fd := os_next_fd os;
     os_next_ino := os_next_ino os; os_euid := os_euid os; os_egid := os_egid os;
     os_env := os_env os; os_child := os_child os; os_ready := os_ready os;
     os_status := os_status os; os_rival := [];
     os_mounts := os_mounts os |}.

Definition os_with_mount (os : OS) (target : string) (i : inode) : OS :=
  {| os_fs := os_fs os; os_open := os_open os; os_next_fd := os_next_fd os;
     os_next_ino := os_next_ino os; os_euid := os_euid os; os_egid := os_egid os;
     os_env := os_env os; os_child := os_child os; os_ready := os_ready os;
     os_status := os_status os; os_rival := os_rival os;
     os_mounts := (target, i) :: os_mounts os |}.

Definition new_directory (os : OS) (mode : Z) : inode :=
  {| i_ino := os_next_ino os;
     i_stat := {| st_mode := Z.lor S_IFDIR mode; st_uid := os_euid os;
                  st_gid := os_egid os |} |}.

Definition with_perms (i : inode) (uid gid mode : Z) : inode :=
  {| i_ino := i_ino i;
     i_stat := {| st_mode := Z.lor (Z.land (st_mode (i_stat i)) S_IFMT) mode;
                  st_uid := uid; st_gid := gid |} |}.

Definition os_handler : handler OS := fun R c =>
  match c in syscall R return OS -> R * OS with
  | stat path => fun os => (option_map i_stat (os_fs os path), os)
  | mkdir path mode => fun os =>
      match os_fs os path with
      | Some _ => ((-1, EEXIST), os)
      | None =>
          ((0, 0),
           os_with_fs os (update (os_fs os) path (Some (new_directory os mode)))
             (os_next_ino os + 1))
      end
  | set_perms path uid gid mode => fun os =>
      match os_fs os path with
      | Some i =>
          (0, os_with_fs os (update (os_fs os) path (Some (with_perms i uid gid mode)))
                (os_next_ino os))
      | None => (1, os)
      end
  | pipe => fun os =>
      (Some (os_next_fd os, (os_next_fd os + 1)%N),
       os_with_open os (os_open os) (os_next_fd os + 2)%N)
  | fork => fun os => (os_child os, os)
  | close _ => fun os => (0, os)
  | getenv name => fun os => (os_env os name, os)
  | setenv name value _ => fun os =>
      (0, os_with_env os (update (os_env os) name (Some value)))
  | write _ buf => fun os => (Z.of_nat (String.length buf), os)
  | read _ _ => fun os => (os_ready os, os)
  | waitpid pid => fun os => ((pid, os_status os), os)
  | safe_fd path _ => fun os =>
      match os_fs os path with
      | Some i =>
          (Z.of_N (os_next_fd os),
           os_with_open os (updateZ (os_open os) (Z.of_N (os_next_fd os)) (Some i))
             (os_next_fd os + 1)%N)
      | None => (-1, os)
      end
  | fstat fd => fun os => (option_map i_stat (os_open os fd), os_after_rival os)
  | mount source target _ => fun os =>
      match os_fs os source with
      | Some i => (0, os_with_mount os target i)
      | None => (-1, os)
      end
  | disable_file_or_dir _ => fun os => (tt, os)
  | checkcfg_dbus => fun os => (1, os)
  | any_bridge_configured => fun os => (0, os)
  | out_stdout _ => fun os => (tt, os)
  | out_stderr _ => fun os => (tt, os)
  | out_warning _ => fun os => (tt, os)
  | allocate _ => fun os => (true, os)
  | EUID_ROOT => fun os => (tt, os)
  end.

(** *** Environments that keep a file system

    The calls [dbus_proxy_start] makes before its [fork] that cannot
    change what is at a path. *)
Definition leaves_files : call_class := fun R c =>
  match c with
  | stat _ | allocate _ | out_stdout _ | pipe => true
  | _ => false
  end.

(** The environment [h] keeps a file system, which [fs] shows in each of
    its states, and nothing but the calls of the program changes it.
    [stat] reports what is at the path.  [mkdir] at a path where nothing
    is either fails, and not with [EEXIST], or leaves a directory there.
    A [set_perms] that succeeds leaves the object at the path what it
    was, directory or not.  [mkdir], [set_perms], [pipe], [fork] and
    every allocation may fail. *)
Record keeps_files {St : Type} (h : handler St)
    (fs : St -> string -> option inode) : Prop := {
  stat_shows : forall path s,
    fst (h _ (stat path) s) = option_map i_stat (fs s path);
  mkdir_makes : forall path mode s,
    Z.land mode S_IFMT = 0 ->
    fs s path = None ->
    (fst (fst (h _ (mkdir path mode) s)) = -1 /\
     snd (fst (h _ (mkdir path mode) s)) <> EEXIST) \/
    (exists i, fs (snd (h _ (mkdir path mode) s)) path = Some i /\
               S_ISDIR (st_mode (i_stat i)) = true);
  set_perms_keeps : forall path uid gid mode s i,
    Z.land mode S_IFMT = 0 ->
    fs s path = Some i ->
    fst (h _ (set_perms path uid gid mode) s) = 0 ->
    exists i', fs (snd (h _ (set_perms path uid gid mode) s)) path = Some i' /\
               S_ISDIR (st_mode (i_stat i')) = S_ISDIR (st_mode (i_stat i));
  others_leave : forall R (c : syscall R) s path,
    leaves_files R c = true -> fs (snd (h R c s)) path = fs s path
}.

(** ** The globals of [dbus.c] and of the rest of firejail *)

(** Modelled from the spec: [DbusPolicy] (an enumeration of
    [firejail.h], which is not among these sources) is the "tagged variant {Allow, Filter,
    Block}"; with these three values the [default] branch of the switch
    in [dbus_check_bus_profile] is never taken. *)
Inductive DbusPolicy : Type :=
| DBUS_POLICY_ALLOW
| DBUS_POLICY_FILTER
| DBUS_POLICY_BLOCK.

Definition policy_eqb (a b : DbusPolicy) : bool :=
  match a, b with
  | DBUS_POLICY_ALLOW, DBUS_POLICY_ALLOW
  | DBUS_POLICY_FILTER, DBUS_POLICY_FILTER
  | DBUS_POLICY_BLOCK, DBUS_POLICY_BLOCK => true
  | _, _ => false
  end.

(** What the rest of firejail has set when [dbus.c] runs; [getuid],
    [getgid] and [getpid] do not change while it runs. *)
Record Config : Type := {
  cfg_profile : list string;          (* cfg.profile, the [data] of each entry *)
  cfg_homedir : string;
  cfg_protocol : option string;       (* [None] is the null pointer *)
  arg_dbus_user : DbusPolicy;
  arg_dbus_system : DbusPolicy;
  arg_debug : bool;
  arg_nonetwork : bool;
  getuid : Z;
  getgid : Z;
  getpid : Z
}.

(** A [char *] variable owning a heap string: null, pointing to a live
    string, or left pointing to a string that was freed. *)
Inductive c_ptr : Type :=
| NULL
| Alloc (s : string)
| Freed.

Definition is_null (p : c_ptr) : bool :=
  match p with NULL => true | _ => false end.

(** The four static variables of [dbus.c]. *)
Record ProxyHandle : Type := {
  dbus_proxy_pid : Z;
  dbus_proxy_status_fd : Z;
  dbus_user_proxy_socket : c_ptr;
  dbus_system_proxy_socket : c_ptr
}.

Definition initial_handle : ProxyHandle :=
  {| dbus_proxy_pid := 0; dbus_proxy_status_fd := -1;
     dbus_user_proxy_socket := NULL; dbus_system_proxy_socket := NULL |}.

Definition set_pid (hd : ProxyHandle) (pid : Z) : ProxyHandle :=
  {| dbus_proxy_pid := pid;
     dbus_proxy_status_fd := dbus_proxy_status_fd hd;
     dbus_user_proxy_socket := dbus_user_proxy_socket hd;
     dbus_system_proxy_socket := dbus_system_proxy_socket hd |}.

Definition set_status_fd (hd : ProxyHandle) (fd : Z) : ProxyHandle :=
  {| dbus_proxy_pid := dbus_proxy_pid hd;
     dbus_proxy_status_fd := fd;
     dbus_user_proxy_socket := dbus_user_proxy_socket hd;
     dbus_system_proxy_socket := dbus_system_proxy_socket hd |}.

Definition set_user_socket (hd : ProxyHandle) (p : c_ptr) : ProxyHandle :=
  {| dbus_proxy_pid := dbus_proxy_pid hd;
     dbus_proxy_status_fd := dbus_proxy_status_fd hd;
     dbus_user_proxy_socket := p;
     dbus_system_proxy_socket := dbus_system_proxy_socket hd |}.

Definition set_system_socket (hd : ProxyHandle) (p : c_ptr) : ProxyHandle :=
  {| dbus_proxy_pid := dbus_proxy_pid hd;
     dbus_proxy_status_fd := dbus_proxy_status_fd hd;
     dbus_user_proxy_socket := dbus_user_proxy_socket hd;
     dbus_system_proxy_socket := p |}.

(** *** The specification's words, for comparison with the code *)

(** [line] without its leading [prefix], when it starts with it. *)
Fixpoint strip_prefix (prefix line : string) : option string :=
  match prefix, line with
  | EmptyString, _ => Some line
  | String a prefix', String b line' =>
      if Ascii.eqb a b then strip_prefix prefix' line' else None
  | String _ _, EmptyString => None
  end.

(** The text before the first space and the text after it. *)
Fixpoint split_space (s : string) : option (string * string) :=
  match s with
  | EmptyString => None
  | String c rest =>
      if Ascii.eqb c " " then Some (EmptyString, rest)
      else match split_space rest with
           | Some (name, value) => Some (String c name, value)
           | None => None
           end
  end.

(** [collect_arguments]: one [--<name>=<value>] for each line that
    starts with the prefix and a dot and has a space after that. *)
Definition collect_argument (prefix line : string) : list string :=
  match strip_prefix (prefix ++ ".") line with
  | None => []
  | Some rest =>
      match split_space rest with
      | None => []
      | Some (name, value) => ["--" ++ name ++ "=" ++ value]
      end
  end.

Definition collect_arguments (prefix : string) (lines : list string) : list string :=
  flat_map (collect_argument prefix) lines.

Definition nul_terminated (s : string) : string := s ++ String NUL EmptyString.

Fixpoint no_percent (s : string) : bool :=
  match s with
  | EmptyString => true
  | String c rest => negb (Ascii.eqb c "%") && no_percent rest
  end.

Fixpoint no_dquote (s : string) : bool :=
  match s with
  | EmptyString => true
  | String c rest => negb (Ascii.eqb c dquote) && no_dquote rest
  end.

(** The messages of [dbus_check_bus_profile]. *)
Definition allow_error_message (prefix : string) : string :=
  "Error: " ++ prefix ++ " filter rule configured, but the bus is not set to filter." ++ nl.

Definition blocked_message (prefix : string) : string :=
  prefix ++ " filter rule configured, but the bus is blocked." ++ nl.

Definition ignoring_message (data prefix : string) : string :=
  "Ignoring " ++ String dquote (data ++ String dquote
    (" and any other " ++ prefix ++ " filter rules." ++ nl)).

(** The message names the rule: it holds the rule's text in quotes. *)
Definition names_rule (rule msg : string) : bool :=
  strstr msg (String dquote (rule ++ String dquote EmptyString)).

(** *** A configuration and a machine to run it on *)

Module Sample.

Definition regular_socket : inode :=
  {| i_ino := 7;
     i_stat := {| st_mode := Z.lor S_IFSOCK 0x1C0; st_uid := 1000; st_gid := 1000 |} |}.

Definition cfg : Config :=
  {| cfg_profile := ["dbus-user.talk org.foo"; "dbus-user.own"; "other.rule x"];
     cfg_homedir := "/home/user";
     cfg_protocol := None;
     arg_dbus_user := DBUS_POLICY_FILTER;
     arg_dbus_system := DBUS_POLICY_BLOCK;
     arg_debug := false;
     arg_nonetwork := false;
     getuid := 1000;
     getgid := 1000;
     getpid := 4242 |}.

(** A machine on which nothing fails: no staging directory yet, no
    session-bus address in the environment, a proxy that reports ready. *)
Definition os : OS :=
  {| os_fs := fun _ => None;
     os_open := fun _ => None;
     os_next_fd := 3;
     os_next_ino := 100;
     os_euid := 0;
     os_egid := 0;
     os_env := fun _ => None;
     os_child := 4243;
     os_ready := 1;
     os_status := 0;
     os_rival := [];
     os_mounts := [] |}.

Definition RUN_FIREJAIL_DBUS_DIR : string := "/run/firejail/dbus".
Definition FIREJAIL_MAX_FD : Z := 20.
Definition HAVE_SECCOMP : bool := true.

Definition session_bus : string := "/run/user/1000/bus".
Definition user_proxy_socket : string := "/run/firejail/dbus/1000/4242-user".
Definition staging : string := "/run/firejail/dbus/1000".

Definition with_file (os : OS) (path : string) (i : inode) : OS :=
  os_with_fs os (update (os_fs os) path (Some i)) (os_next_ino os).

(** The same machine with the directory of the proxy sockets there and
    nothing in it: mode 0755, owned by root. *)
Definition sockets_directory : inode :=
  {| i_ino := 5;
     i_stat := {| st_mode := Z.lor S_IFDIR 0x1ED; st_uid := 0; st_gid := 0 |} |}.

Definition os_booted : OS := with_file os RUN_FIREJAIL_DBUS_DIR sockets_directory.

(** That machine with the staging directory already there, made by
    someone else: mode 0755, owned by root. *)
Definition public_directory : inode :=
  {| i_ino := 8;
     i_stat := {| st_mode := Z.lor S_IFDIR 0x1ED; st_uid := 0; st_gid := 0 |} |}.

Definition os_public : OS := with_file os_booted staging public_directory.

(** The same machine with a session-bus variable that holds no bus
    address at all. *)
Definition malformed_address : string := "not-a-bus-address".

Definition os_malformed : OS :=
  os_with_env os
    (update (os_env os) DBUS_SESSION_BUS_ADDRESS_ENV (Some malformed_address)).

(** The same machine once the proxy has made its socket. *)
Definition os_proxied : OS := with_file os user_proxy_socket regular_socket.

(** The same machine with a proxy that later exits with status 1. *)
Definition os_failing : OS :=
  {| os_fs := os_fs os;
     os_open := os_open os;
     os_next_fd := os_next_fd os;
     os_next_ino := os_next_ino os;
     os_euid := os_euid os;
     os_egid := os_egid os;
     os_env := os_env os;
     os_child := os_child os;
     os_ready := os_ready os;
     os_status := 256;
     os_rival := [];
     os_mounts := [] |}.

(** A file of another user, and a machine on which another process puts
    it at the path of the proxy socket once the program has examined the
    descriptor it opened there. *)
Definition rival_file : inode :=
  {| i_ino := 666;
     i_stat := {| st_mode := Z.lor 0x8000 0x1A4; st_uid := 1001; st_gid := 1001 |} |}.

Definition os_racy : OS :=
  {| os_fs := os_fs os_proxied;
     os_open := os_open os_proxied;
     os_next_fd := os_next_fd os_proxied;
     os_next_ino := os_next_ino os_proxied;
     os_euid := os_euid os_proxied;
     os_egid := os_egid os_proxied;
     os_env := os_env os_proxied;
     os_child := os_child os_proxied;
     os_ready := os_ready os_proxied;
     os_status := os_status os_proxied;
     os_rival := [(user_proxy_socket, Some rival_file)];
     os_mounts := [] |}.

End Sample.

(** The trace [t] is that of a parent that has closed the write end of
    the arguments pipe: [pre] holds the two pipes, the [fork] that gave
    the child's [pid], and the two closes of the child's ends; then comes
    the close of [args_w], which returned [c], and [rest] follows. *)
Definition parent_closed_arguments_pipe (t pre : list event)
    (status_r args_w : N) (pid c : Z) (rest : list event) : Prop :=
  t = (pre ++ Ev (close (Z.of_N args_w)) c :: rest)%list /\
  (exists status_w args_r, pipes pre = [(status_r, status_w); (args_r, args_w)]) /\
  forks pre = [pid] /\ pid <> 0 /\ pid <> -1 /\
  List.length (closes pre) = 2%nat /\ c <> -1.

(** The invariant of the handle: the process id is zero exactly when
    both socket paths are unset and the status descriptor is invalid. *)
Definition handle_invariant (hd : ProxyHandle) : Prop :=
  dbus_proxy_pid hd = 0 <->
  (dbus_user_proxy_socket hd = NULL /\ dbus_system_proxy_socket hd = NULL /\
   dbus_proxy_status_fd hd < 0).

(** The pointer holds a socket path. *)
Definition socket_set (p : c_ptr) : Prop := exists path, p = Alloc path.

(** *** More machines and handles *)

Module Machines.

Import Sample.

(** The sample machine as the child sees it: [fork] returned 0. *)
Definition os_in_child : OS :=
  {| os_fs := os_fs os;
     os_open := os_open os;
     os_next_fd := os_next_fd os;
     os_next_ino := os_next_ino os;
     os_euid := os_euid os;
     os_egid := os_egid os;
     os_env := os_env os;
     os_child := 0;
     os_ready := os_ready os;
     os_status := os_status os;
     os_rival := [];
     os_mounts := [] |}.

(** The machine with the directory of the proxy sockets, and in it a
    regular file of the user, mode 0700, at the path of the staging
    directory. *)
Definition private_file : inode :=
  {| i_ino := 9;
     i_stat := {| st_mode := Z.lor 0x8000 0x1C0; st_uid := 1000; st_gid := 1000 |} |}.

Definition os_occupied : OS := with_file os_booted staging private_file.

(** A session-bus address that holds a conversion. *)
Definition format_address : string := "unix:path=/tmp/bus-%s".

Definition os_format : OS :=
  os_with_env os (update (os_env os) DBUS_SESSION_BUS_ADDRESS_ENV (Some format_address)).

(** The handle as [dbus_proxy_start] leaves it on the sample machine, and
    as [dbus_apply_policy] leaves it after that. *)
Definition started_handle : ProxyHandle :=
  {| dbus_proxy_pid := 4243; dbus_proxy_status_fd := 3;
     dbus_user_proxy_socket := Alloc user_proxy_socket;
     dbus_system_proxy_socket := NULL |}.

Definition applied_handle : ProxyHandle :=
  {| dbus_proxy_pid := 4243; dbus_proxy_status_fd := 3;
     dbus_user_proxy_socket := Freed;
     dbus_system_proxy_socket := NULL |}.

(** The sample machine once the proxy runs.  The socket of the proxy is
    there with the directories above it; the socket of the user bus is
    at its default path; the session-bus address of the environment
    names another socket, with an option after the path; and descriptor
    3, the read end of the status pipe, is in use. *)
Definition staging_directory_inode : inode :=
  {| i_ino := 10;
     i_stat := {| st_mode := Z.lor S_IFDIR 0x1C0; st_uid := 1000; st_gid := 1000 |} |}.

Definition default_bus_socket : inode :=
  {| i_ino := 11;
     i_stat := {| st_mode := Z.lor S_IFSOCK 0x1B6; st_uid := 1000; st_gid := 1000 |} |}.

Definition custom_bus_socket : inode :=
  {| i_ino := 12;
     i_stat := {| st_mode := Z.lor S_IFSOCK 0x1B6; st_uid := 1000; st_gid := 1000 |} |}.

Definition custom_address : string := "unix:path=/tmp/custom-bus,guid=abc".

Definition os_running_files : OS :=
  with_file
    (with_file
       (with_file (with_file os_booted staging staging_directory_inode)
          user_proxy_socket regular_socket)
       session_bus default_bus_socket)
    "/tmp/custom-bus" custom_bus_socket.

Definition os_running : OS :=
  os_with_open
    (os_with_env os_running_files
       (update (os_env os) DBUS_SESSION_BUS_ADDRESS_ENV (Some custom_address)))
    (os_open os) 4.

End Machines.

(** Modelled from the spec: [errExit] (a macro of firejail's common
    header, which is not among these sources) reports the failing operation on the diagnostic
    stream and terminates the process with a non-zero status. *)
Definition errExit {A : Type} (msg : string) : prog A := Halt (ErrExit msg).

(** A halt is an abort of the process with a non-zero status. *)
Definition fatal (h : halt) : bool :=
  match h with
  | Exit status => negb (status mod 256 =? 0)
  | ErrExit _ => true
  | AssertFailed => true
  | Undefined => false
  | Exec _ _ => false
  end.

Definition printf (format : string) (ap : list printf_arg) : prog unit :=
  match vasprintf format ap with
  | Some msg => call (out_stdout msg)
  | None => Halt Undefined
  end.

Definition fprintf_stderr (format : string) (ap : list printf_arg) : prog unit :=
  match vasprintf format ap with
  | Some msg => call (out_stderr msg)
  | None => Halt Undefined
  end.

(** Modelled from the spec: [fwarning] (a function of firejail's
    [util.c], which is not among these sources) formats its arguments as [printf] does and
    emits the result as one warning. *)
Definition fwarning (format : string) (ap : list printf_arg) : prog unit :=
  match vasprintf format ap with
  | Some msg => call (out_warning msg)
  | None => Halt Undefined
  end.

Definition asprintf (format : string) (ap : list printf_arg) : prog string :=
  match vasprintf format ap with
  | None => Halt Undefined
  | Some s =>
      ok <- call (allocate s) ;;
      if ok then Ret s else errExit "asprintf"
  end.

(** [free(p)]: nothing for a null pointer, undefined for a pointer
    already freed. *)
Definition free (p : c_ptr) : prog unit :=
  match p with
  | Freed => Halt Undefined
  | _ => Ret tt
  end.

(** A pointer variable after [free] of it with no assignment. *)
Definition after_free (p : c_ptr) : c_ptr :=
  match p with
  | NULL => NULL
  | _ => Freed
  end.

(** Modelled from the spec: [ASSERT_PERMS] (a macro of [firejail.h],
    which is not among these sources) checks that the file has the given
    owner, group and permission bits; here the staging directory, "mode
    0700, owned by the current user". *)
Definition ASSERT_PERMS (file : string) (uid gid mode : Z) : prog unit :=
  s <- call (stat file) ;;
  match s with
  | None => errExit "stat"
  | Some s =>
      if (st_uid s =? uid) && (st_gid s =? gid)
         && (Z.land (st_mode s) 0xFFF =? mode)
      then Ret tt
      else Halt AssertFailed
  end.

Section Dbus.

(** Constants of [firejail.h], which is not among these sources. *)
Variable RUN_FIREJAIL_DBUS_DIR : string.
Variable FIREJAIL_MAX_FD : Z.
Variable HAVE_SECCOMP : bool.

Variable cfg : Config.

Definition DBUS_USER_DIR_FORMAT : string := RUN_FIREJAIL_DBUS_DIR ++ "/%d".
Definition DBUS_USER_PROXY_SOCKET_FORMAT : string := DBUS_USER_DIR_FORMAT ++ "/%d-user".
Definition DBUS_SYSTEM_PROXY_SOCKET_FORMAT : string := DBUS_USER_DIR_FORMAT ++ "/%d-system".

(** *** RuleExtractor *)

Fixpoint dbus_check_bus_profile_from (it : list string) (prefix : string)
    (policy : DbusPolicy) : prog unit :=
  match it with
  | [] => Ret tt
  | data :: next =>
      if strncmp_eq0 prefix data (Z.to_nat (strlen prefix)) then
        match policy with
        | DBUS_POLICY_ALLOW =>
            fprintf_stderr
              ("Error: %s filter rule configured, but the bus is not set to filter." ++ nl)
              [ArgStr prefix] ;;
            Halt (Exit 1)
        | DBUS_POLICY_FILTER => Ret tt
        | DBUS_POLICY_BLOCK =>
            fwarning ("%s filter rule configured, but the bus is blocked." ++ nl)
              [ArgStr prefix] ;;
            fwarning ("Ignoring " ++ String dquote ("%s" ++ String dquote
                        (" and any other %s filter rules." ++ nl)))
              [ArgStr data; ArgStr prefix]
        end
      else dbus_check_bus_profile_from next prefix policy
  end.

Definition dbus_check_bus_profile (prefix : string) (policy : DbusPolicy) : prog unit :=
  dbus_check_bus_profile_from (cfg_profile cfg) prefix policy.

Definition dbus_check_profile : prog unit :=
  dbus_check_bus_profile "dbus-user" (arg_dbus_user cfg) ;;
  dbus_check_bus_profile "dbus-system" (arg_dbus_system cfg).

Definition write_arg (fd : Z) (format : string) (ap : list printf_arg) : prog unit :=
  match vasprintf format ap with
  | None => Halt Undefined
  | Some arg =>
      ok <- call (allocate arg) ;;
      if negb ok then errExit "vasprintf" else
      let length := strlen arg + 1 in
      when (arg_debug cfg) (printf ("xdg-dbus-proxy arg: %s" ++ nl) [ArgStr arg]) ;;
      n <- call (write fd (arg ++ String NUL EmptyString)) ;;
      if n =? length then Ret tt else errExit "write"
  end.

(** The bytes of [data] before its first space or its end. *)
Fixpoint scan_arg (data : string) : nat :=
  match data with
  | EmptyString => O
  | String c rest => if is_nul c || Ascii.eqb c " " then O else S (scan_arg rest)
  end.

(** [data[i]], for [i] up to the position of the NUL. *)
Definition char_at (data : string) (i : nat) : ascii :=
  match String.get i data with
  | Some c => c
  | None => NUL
  end.

Fixpoint write_profile_from (it : list string) (fd : Z) (prefix : string) : prog unit :=
  match it with
  | [] => Ret tt
  | data :: next =>
      let prefix_length := Z.to_nat (strlen prefix) in
      if negb (strncmp_eq0 prefix data prefix_length)
      then write_profile_from next fd prefix
      else
        let data := advance prefix_length data in
        let arg_length := scan_arg data in
        if negb (Ascii.eqb (char_at data arg_length) " ")
        then write_profile_from next fd prefix
        else
          write_arg fd "--%.*s=%s"
            [ArgInt (Z.of_nat arg_length); ArgStr data;
             ArgStr (advance (arg_length + 1) data)] ;;
          write_profile_from next fd prefix
  end.

Definition write_profile (fd : Z) (prefix : string) : prog unit :=
  write_profile_from (cfg_profile cfg) fd prefix.

(** *** ProxyProcess *)

Definition dbus_create_user_dir : prog unit :=
  path <- asprintf DBUS_USER_DIR_FORMAT [ArgInt (getuid cfg)] ;;
  let mode := 0x1C0 in                (* 0700 *)
  let uid := getuid cfg in
  let gid := getgid cfg in
  s <- call (stat path) ;;
  match s with
  | Some _ => Ret tt
  | None =>
      when (arg_debug cfg)
        (printf ("Creating %s directory for DBus proxy sockets" ++ nl) [ArgStr path]) ;;
      r <- call (mkdir path mode) ;;
      if (fst r =? -1) && negb (snd r =? EEXIST) then errExit "mkdir" else
      r <- call (set_perms path uid gid mode) ;;
      if negb (r =? 0) then errExit "set_perms" else
      ASSERT_PERMS path uid gid mode
  end.

(** The child's loop over the descriptors from [i] on. *)
Fixpoint close_open_files (n : nat) (i keep1 keep2 : Z) : prog unit :=
  match n with
  | O => Ret tt
  | S n' =>
      when (negb (i =? keep1) && negb (i =? keep2))
        (_ <- call (close i) ;; Ret tt) ;;
      close_open_files n' (i + 1) keep1 keep2
  end.

(** Modelled from the spec: [sbox_exec_v] (a function of firejail's
    [sbox.c], which is not among these sources) executes the binary under the restricted
    privilege profile named by its flags and does not return. *)
Definition sbox_exec_v {A : Type} (flags argv : list string) : prog A :=
  Halt (Exec flags argv).

(** The child after [fork]. *)
Definition dbus_proxy_start_child {A : Type} (status_w args_r : Z) : prog A :=
  close_open_files (Z.to_nat (FIREJAIL_MAX_FD - 3)) 3 status_w args_r ;;
  a1 <- asprintf "--fd=%d" [ArgInt status_w] ;;
  a2 <- asprintf "--args=%d" [ArgInt args_r] ;;
  when (arg_debug cfg) (printf ("starting xdg-dbus-proxy" ++ nl) []) ;;
  sbox_exec_v ["SBOX_USER"; "SBOX_SECCOMP"; "SBOX_CAPS_NONE"; "SBOX_KEEP_FDS"]
    ["/usr/bin/xdg-dbus-proxy"; a1; a2].

(** The parent's configuration of the user bus. *)
Definition dbus_proxy_start_user (hd : ProxyHandle) (args_w : Z) : prog ProxyHandle :=
  if policy_eqb (arg_dbus_user cfg) DBUS_POLICY_FILTER then
    dbus_user_path_env <- call (getenv DBUS_SESSION_BUS_ADDRESS_ENV) ;;
    match dbus_user_path_env with
    | None => write_arg args_w DBUS_USER_SOCKET_PATH_FORMAT [ArgInt (getuid cfg)]
    | Some env => write_arg args_w env []
    end ;;
    socket <- asprintf DBUS_USER_PROXY_SOCKET_FORMAT
                [ArgInt (getuid cfg); ArgInt (getpid cfg)] ;;
    let hd := set_user_socket hd (Alloc socket) in
    write_arg args_w socket [] ;;
    write_arg args_w "--filter" [] ;;
    write_profile args_w "dbus-user." ;;
    Ret hd
  else Ret hd.

(** The parent's configuration of the system bus. *)
Definition dbus_proxy_start_system (hd : ProxyHandle) (args_w : Z) : prog ProxyHandle :=
  if policy_eqb (arg_dbus_system cfg) DBUS_POLICY_FILTER then
    write_arg args_w DBUS_SYSTEM_SOCKET_PATH [] ;;
    socket <- asprintf DBUS_SYSTEM_PROXY_SOCKET_FORMAT
                [ArgInt (getuid cfg); ArgInt (getpid cfg)] ;;
    let hd := set_system_socket hd (Alloc socket) in
    write_arg args_w socket [] ;;
    write_arg args_w "--filter" [] ;;
    write_profile args_w "dbus-system." ;;
    Ret hd
  else Ret hd.

(** The parent's wait for the proxy: the [read] and the [switch]. *)
Definition dbus_proxy_start_wait (hd : ProxyHandle) (status_r : Z) : prog ProxyHandle :=
  read_bytes <- call (read status_r 1) ;;
  if read_bytes =? -1 then errExit "read"
  else if read_bytes =? 0 then
    fprintf_stderr ("xdg-dbus-proxy closed pipe unexpectedly" ++ nl) [] ;;
    _ <- call (waitpid (dbus_proxy_pid hd)) ;;
    Halt (Exit (-1))
  else if read_bytes =? 1 then
    when (arg_debug cfg) (printf ("xdg-dbus-proxy initialized" ++ nl) []) ;;
    Ret hd
  else Halt AssertFailed.

(** The parent after [fork], up to the closing of the arguments pipe. *)
Definition dbus_proxy_start_configure (hd : ProxyHandle)
    (status_w args_r args_w : Z) : prog ProxyHandle :=
  r <- call (close status_w) ;;
  if r =? -1 then errExit "close" else
  r <- call (close args_r) ;;
  if r =? -1 then errExit "close" else
  hd <- dbus_proxy_start_user hd args_w ;;
  hd <- dbus_proxy_start_system hd args_w ;;
  r <- call (close args_w) ;;
  if r =? -1 then errExit "close" else
  Ret hd.

Definition dbus_proxy_start (hd : ProxyHandle) : prog ProxyHandle :=
  dbus_create_user_dir ;;
  status_pipe <- call pipe ;;
  match status_pipe with
  | None => errExit "pipe"
  | Some (status_r, status_w) =>
      let hd := set_status_fd hd (Z.of_N status_r) in
      args_pipe <- call pipe ;;
      match args_pipe with
      | None => errExit "pipe"
      | Some (args_r, args_w) =>
          pid <- call fork ;;
          let hd := set_pid hd pid in
          if pid =? -1 then errExit "fork"
          else if pid =? 0
          then dbus_proxy_start_child (Z.of_N status_w) (Z.of_N args_r)
          else
            hd <- dbus_proxy_start_configure hd
                    (Z.of_N status_w) (Z.of_N args_r) (Z.of_N args_w) ;;
            dbus_proxy_start_wait hd (Z.of_N status_r)
      end
  end.

Definition dbus_proxy_stop (hd : ProxyHandle) : prog ProxyHandle :=
  if dbus_proxy_pid hd =? 0 then Ret hd else
  if negb (0 <=? dbus_proxy_status_fd hd) then Halt AssertFailed else
  r <- call (close (dbus_proxy_status_fd hd)) ;;
  if r =? -1 then errExit "close" else
  w <- call (waitpid (dbus_proxy_pid hd)) ;;
  if fst w =? -1 then errExit "waitpid" else
  let status := snd w in
  when (WIFEXITED status && negb (WEXITSTATUS status =? 0))
    (fwarning ("xdg-dbus-proxy returned %s" ++ nl) [ArgInt (WEXITSTATUS status)]) ;;
  let hd := set_status_fd (set_pid hd 0) (-1) in
  hd <- (if negb (is_null (dbus_user_proxy_socket hd))
         then free (dbus_user_proxy_socket hd) ;; Ret (set_user_socket hd NULL)
         else Ret hd) ;;
  if negb (is_null (dbus_system_proxy_socket hd))
  then free (dbus_system_proxy_socket hd) ;; Ret (set_system_socket hd NULL)
  else Ret hd.

(** *** SocketOverlay *)

Definition socket_overlay (socket_path proxy_path : string) : prog unit :=
  fd <- call (safe_fd proxy_path (Z.lor (Z.lor O_PATH O_NOFOLLOW) O_CLOEXEC)) ;;
  if fd =? -1 then errExit "opening DBus proxy socket" else
  s <- call (fstat fd) ;;
  match s with
  | None => errExit "fstat"
  | Some s =>
      if negb (S_ISSOCK (st_mode s)) then errExit "mounting DBus proxy socket" else
      proxy_fd_path <- asprintf "/proc/self/fd/%d" [ArgInt fd] ;;
      r <- call (mount proxy_path socket_path (Z.lor MS_BIND MS_REC)) ;;
      if r =? -1 then errExit "mount bind" else
      _ <- call (close fd) ;;
      Ret tt
  end.

(** [socket_overlay] on the string a pointer variable holds. *)
Definition socket_overlay_ptr (socket_path : string) (proxy_path : c_ptr) : prog unit :=
  match proxy_path with
  | Alloc path => socket_overlay socket_path path
  | _ => Halt Undefined
  end.

(** *** PolicyOrchestrator *)

Definition disable_socket_dir : prog unit :=
  s <- call (stat RUN_FIREJAIL_DBUS_DIR) ;;
  match s with
  | Some _ => call (disable_file_or_dir RUN_FIREJAIL_DBUS_DIR)
  | None => Ret tt
  end.

Definition abstract_socket_warning : string :=
  "An abstract unix socket for session D-BUS might still be available. "
  ++ "Use --net or remove unix from --protocol set." ++ nl.

Definition dbus_apply_policy (hd : ProxyHandle) : prog ProxyHandle :=
  call EUID_ROOT ;;
  if policy_eqb (arg_dbus_user cfg) DBUS_POLICY_ALLOW
     && policy_eqb (arg_dbus_system cfg) DBUS_POLICY_ALLOW
  then disable_socket_dir ;; Ret hd
  else
  enabled <- call checkcfg_dbus ;;
  if enabled =? 0 then
    disable_socket_dir ;;
    fwarning ("D-Bus handling is disabled in Firejail configuration file" ++ nl) [] ;;
    Ret hd
  else
  dbus_new_user_socket_path <-
    asprintf DBUS_USER_SOCKET_PATH_FORMAT [ArgInt (getuid cfg)] ;;
  let prefix_length := Z.to_nat (strlen DBUS_SOCKET_PATH_PREFIX) in
  let dbus_new_user_socket := advance prefix_length dbus_new_user_socket_path in
  dbus_user_path_env <- call (getenv DBUS_SESSION_BUS_ADDRESS_ENV) ;;
  let dbus_orig_user_socket_path :=
    match dbus_user_path_env with
    | Some env =>
        if strncmp_eq0 DBUS_SOCKET_PATH_PREFIX env prefix_length
        then env else dbus_new_user_socket_path
    | None => dbus_new_user_socket_path
    end in
  let dbus_orig_user_socket := advance prefix_length dbus_orig_user_socket_path in
  hd <- (if negb (policy_eqb (arg_dbus_user cfg) DBUS_POLICY_ALLOW) then
           hd <- (if policy_eqb (arg_dbus_user cfg) DBUS_POLICY_FILTER then
                    if is_null (dbus_user_proxy_socket hd) then Halt AssertFailed else
                    socket_overlay_ptr dbus_new_user_socket (dbus_user_proxy_socket hd) ;;
                    free (dbus_user_proxy_socket hd) ;;
                    Ret (set_user_socket hd (after_free (dbus_user_proxy_socket hd)))
                  else
                    call (disable_file_or_dir dbus_new_user_socket) ;;
                    Ret hd) ;;
           when (negb (strcmp_eq0 dbus_orig_user_socket dbus_new_user_socket))
             (call (disable_file_or_dir dbus_orig_user_socket)) ;;
           r <- call (setenv DBUS_SESSION_BUS_ADDRESS_ENV dbus_new_user_socket_path 1) ;;
           if r =? -1 then
             fprintf_stderr
               ("Error: cannot modify DBUS_SESSION_BUS_ADDRESS required by --dbus-user" ++ nl)
               [] ;;
             Halt (Exit 1)
           else
           path <- asprintf "%s/.dbus" [ArgStr (cfg_homedir cfg)] ;;
           call (disable_file_or_dir path) ;;
           Ret hd
         else Ret hd) ;;
  hd <- (if policy_eqb (arg_dbus_system cfg) DBUS_POLICY_FILTER then
           if is_null (dbus_system_proxy_socket hd) then Halt AssertFailed else
           socket_overlay_ptr DBUS_SYSTEM_SOCKET (dbus_system_proxy_socket hd) ;;
           free (dbus_system_proxy_socket hd) ;;
           Ret (set_system_socket hd (after_free (dbus_system_proxy_socket hd)))
         else if policy_eqb (arg_dbus_system cfg) DBUS_POLICY_BLOCK then
           call (disable_file_or_dir DBUS_SYSTEM_SOCKET) ;;
           Ret hd
         else Ret hd) ;;
  disable_socket_dir ;;
  if arg_nonetwork cfg then Ret hd else
  bridge <- call any_bridge_configured ;;
  if negb (bridge =? 0) then Ret hd else
  if HAVE_SECCOMP
     && match cfg_protocol cfg with
        | Some protocol => negb (strstr protocol "unix")
        | None => false
        end
  then Ret hd
  else
    fwarning abstract_socket_warning [] ;;
    Ret hd.

(** *** Sequences of the three operations on the handle *)

Inductive operation : Type :=
| op_start
| op_apply
| op_stop.

Definition perform (o : operation) (hd : ProxyHandle) : prog ProxyHandle :=
  match o with
  | op_start => dbus_proxy_start hd
  | op_apply => dbus_apply_policy hd
  | op_stop => dbus_proxy_stop hd
  end.

Fixpoint perform_all (ops : list operation) (hd : ProxyHandle) : prog ProxyHandle :=
  match ops with
  | [] => Ret hd
  | o :: more => hd <- perform o hd ;; perform_all more hd
  end.


(** *** The specification's words about this configuration *)

(** What holds of the handle after every sequence of operations: the
    invariant, in a form that each operation preserves. *)
Definition reachable_handle (hd : ProxyHandle) : Prop :=
  (dbus_proxy_pid hd = 0 ->
   dbus_user_proxy_socket hd = NULL /\ dbus_system_proxy_socket hd = NULL /\
   dbus_proxy_status_fd hd = -1) /\
  (dbus_proxy_pid hd <> 0 -> 0 <= dbus_proxy_status_fd hd) /\
  (dbus_user_proxy_socket hd <> NULL -> arg_dbus_user cfg = DBUS_POLICY_FILTER) /\
  (dbus_system_proxy_socket hd <> NULL -> arg_dbus_system cfg = DBUS_POLICY_FILTER).


Definition decimal (z : Z) : string := Z_to_string (int_cast z).

(** The address of the real user bus as [dbus_proxy_start] takes it: the
    session-bus address of the environment when there is one, else the
    default for the user. *)
Definition user_bus_address (env : option string) : string :=
  match env with
  | Some address => address
  | None => "unix:path=/run/user/" ++ decimal (getuid cfg) ++ "/bus"
  end.

(** The test [dbus_apply_policy] makes of a session-bus address. *)
Definition well_formed_address (address : string) : bool :=
  strncmp_eq0 DBUS_SOCKET_PATH_PREFIX address
    (Z.to_nat (strlen DBUS_SOCKET_PATH_PREFIX)).

(** The address of the real user bus in the words of the specification:
    the environment's address "if present and well-formed". *)
Definition claimed_user_bus_address (env : option string) : string :=
  match env with
  | Some address =>
      if well_formed_address address then address else user_bus_address None
  | None => user_bus_address None
  end.

Definition user_proxy_socket_path : string :=
  RUN_FIREJAIL_DBUS_DIR ++ "/" ++ decimal (getuid cfg) ++ "/"
    ++ decimal (getpid cfg) ++ "-user".

Definition system_proxy_socket_path : string :=
  RUN_FIREJAIL_DBUS_DIR ++ "/" ++ decimal (getuid cfg) ++ "/"
    ++ decimal (getpid cfg) ++ "-system".

(** The strings for the arguments pipe, given the address of the user
    bus. *)
Definition arguments_with (user_address : string) : list string :=
  ((if policy_eqb (arg_dbus_user cfg) DBUS_POLICY_FILTER
    then [user_address; user_proxy_socket_path; "--filter"]
           ++ collect_arguments "dbus-user" (cfg_profile cfg)
    else []) ++
   (if policy_eqb (arg_dbus_system cfg) DBUS_POLICY_FILTER
    then [DBUS_SYSTEM_SOCKET_PATH; system_proxy_socket_path; "--filter"]
           ++ collect_arguments "dbus-system" (cfg_profile cfg)
    else []))%list.

Definition start_arguments (env : option string) : list string :=
  arguments_with (user_bus_address env).

Definition claimed_start_arguments (env : option string) : list string :=
  arguments_with (claimed_user_bus_address env).

(** The session-bus address the run was given by [getenv], if it asked. *)
Definition session_address (t : list event) : option string :=
  match getenvs t with
  | v :: _ => v
  | [] => None
  end.

(** Every session-bus address the run was given is free of [%]. *)
Definition plain_addresses (t : list event) : Prop :=
  forall address, In (Some address) (getenvs t) -> no_percent address = true.

Definition staging_directory : string :=
  RUN_FIREJAIL_DBUS_DIR ++ "/" ++ decimal (getuid cfg).

(** What is at the path is the staging directory as it should be: a
    directory, with mode 0700 and owned by the invoking user and group. *)
Definition private_directory (o : option inode) : bool :=
  match o with
  | Some i =>
      S_ISDIR (st_mode (i_stat i))
      && (Z.land (st_mode (i_stat i)) 0xFFF =? 0x1C0)
      && (st_uid (i_stat i) =? getuid cfg)
      && (st_gid (i_stat i) =? getgid cfg)
  | None => false
  end.

(** At every [fork] of the trace the staging directory is private, in
    the file system that [fs] shows. *)
Definition forks_with_private_directory {St : Type}
    (fs : St -> string -> option inode) (t : list (St * event)) : bool :=
  forallb (fun se => negb (is_fork (snd se))
                     || private_directory (fs (fst se) staging_directory)) t.

(** *** More of what a trace shows *)

(** The paths examined with [stat] and what was found there. *)
Definition stat_of (e : event) : list (string * option stat_t) :=
  match e with
  | Ev c r =>
      match c in syscall R return R -> list (string * option stat_t) with
      | stat path => fun st => [(path, st)]
      | _ => fun _ => []
      end r
  end.

Definition stats (t : list event) : list (string * option stat_t) := flat_map stat_of t.

(** The calls of [mkdir]: path, mode, and the result with [errno]. *)
Definition mkdir_of (e : event) : list (string * Z * (Z * Z)) :=
  match e with
  | Ev c r =>
      match c in syscall R return R -> list (string * Z * (Z * Z)) with
      | mkdir path mode => fun res => [(path, mode, res)]
      | _ => fun _ => []
      end r
  end.

Definition mkdirs (t : list event) : list (string * Z * (Z * Z)) := flat_map mkdir_of t.

(** The calls of [set_perms]: path, owner, group and mode. *)
Definition set_perms_of (e : event) : list (string * Z * Z * Z) :=
  match e with
  | Ev c _ =>
      match c with
      | set_perms path uid gid mode => [(path, uid, gid, mode)]
      | _ => []
      end
  end.

Definition perms_set (t : list event) : list (string * Z * Z * Z) :=
  flat_map set_perms_of t.

(** The paths handed to [disable_file_or_dir]. *)
Definition disable_of (e : event) : list string :=
  match e with
  | Ev c _ => match c with disable_file_or_dir path => [path] | _ => [] end
  end.

Definition hidden (t : list event) : list string := flat_map disable_of t.

(** The calls of [setenv]: name, value and the overwrite flag. *)
Definition setenv_of (e : event) : list (string * string * Z) :=
  match e with
  | Ev c _ =>
      match c with
      | setenv name value overwrite => [(name, value, overwrite)]
      | _ => []
      end
  end.

Definition setenvs (t : list event) : list (string * string * Z) := flat_map setenv_of t.

(** The processes waited for. *)
Definition waitpid_of (e : event) : list Z :=
  match e with
  | Ev c _ => match c with waitpid pid => [pid] | _ => [] end
  end.

Definition waitpids (t : list event) : list Z := flat_map waitpid_of t.

(** Each [write] with the count it returned. *)
Definition written_of (e : event) : list (Z * string * Z) :=
  match e with
  | Ev c r =>
      match c in syscall R return R -> list (Z * string * Z) with
      | write fd buf => fun n => [(fd, buf, n)]
      | _ => fun _ => []
      end r
  end.

Definition written (t : list event) : list (Z * string * Z) := flat_map written_of t.

(** What [checkcfg(CFG_DBUS)] answered. *)
Definition checkcfg_of (e : event) : list Z :=
  match e with
  | Ev c r =>
      match c in syscall R return R -> list Z with
      | checkcfg_dbus => fun v => [v]
      | _ => fun _ => []
      end r
  end.

Definition checkcfgs (t : list event) : list Z := flat_map checkcfg_of t.

(** What [any_bridge_configured] answered. *)
Definition bridge_of (e : event) : list Z :=
  match e with
  | Ev c r =>
      match c in syscall R return R -> list Z with
      | any_bridge_configured => fun v => [v]
      | _ => fun _ => []
      end r
  end.

Definition bridges (t : list event) : list Z := flat_map bridge_of t.

Definition is_stat (e : event) : bool :=
  match e with Ev c _ => match c with stat _ => true | _ => false end end.

(** The events after the first [stat]. *)
Fixpoint after_first_stat (t : list event) : list event :=
  match t with
  | [] => []
  | e :: t' => if is_stat e then t' else after_first_stat t'
  end.

(** The descriptors [i], [i + 1], ... : [n] of them. *)
Fixpoint descriptors_from (n : nat) (i : Z) : list Z :=
  match n with
  | O => []
  | S n' => i :: descriptors_from n' (i + 1)
  end.

(** The calls that put something out and do nothing else. *)
Definition message_call : call_class := fun R c =>
  match c with
  | out_stdout _ | out_stderr _ | out_warning _ => true
  | _ => false
  end.

(** A byte of the names [dbus_check_name] accepts. *)
Definition name_byte (c : ascii) : bool :=
  is_lower c || is_upper c || (("0" <=? c) && (c <=? "9"))%char
  || Ascii.eqb c "_" || Ascii.eqb c "-" || Ascii.eqb c "." || Ascii.eqb c "*".

(** A byte that may open a segment: the test of the loop when no segment
    is open. *)
Definition segment_opener (c : ascii) : bool :=
  is_lower c || is_upper c || Ascii.eqb c "_" || Ascii.eqb c "-".

(** The first conversion of the format, [%%] apart, is [%d] or [%s]: a
    conversion that takes an argument. *)
Fixpoint asks_for_argument (format : string) : bool :=
  match format with
  | EmptyString => false
  | String c rest =>
      if negb (Ascii.eqb c "%") then asks_for_argument rest
      else
        match rest with
        | EmptyString => false
        | String c1 rest1 =>
            if Ascii.eqb c1 "%" then asks_for_argument rest1
            else Ascii.eqb c1 "d" || Ascii.eqb c1 "s"
        end
  end.

(** The string holds no [*]. *)
Fixpoint no_star (s : string) : bool :=
  match s with
  | EmptyString => true
  | String c rest => negb (Ascii.eqb c "*") && no_star rest
  end.

(** *** The policy as [dbus_apply_policy] enforces it *)

(** The address [dbus_apply_policy] gives the sandbox for the user bus, and
    the socket behind it. *)
Definition sandbox_user_address : string :=
  "unix:path=/run/user/" ++ decimal (getuid cfg) ++ "/bus".

Definition sandbox_user_socket : string :=
  "/run/user/" ++ decimal (getuid cfg) ++ "/bus".

(** What [dbus_apply_policy] takes for the socket of the user bus outside
    the sandbox: when the session-bus address starts with [unix:path=],
    all that follows that prefix, taken whole, with whatever options
    follow the path in the address ([,guid=] and the like); else the
    default for the user. *)
Definition outside_user_socket (env : option string) : string :=
  match env with
  | Some address =>
      if strncmp_eq0 DBUS_SOCKET_PATH_PREFIX address
           (Z.to_nat (strlen DBUS_SOCKET_PATH_PREFIX))
      then advance (Z.to_nat (strlen DBUS_SOCKET_PATH_PREFIX)) address
      else sandbox_user_socket
  | None => sandbox_user_socket
  end.

(** No policy to enforce: both buses are allowed. *)
Definition both_allowed : bool :=
  policy_eqb (arg_dbus_user cfg) DBUS_POLICY_ALLOW
  && policy_eqb (arg_dbus_system cfg) DBUS_POLICY_ALLOW.

(** The run found D-Bus handling switched off in firejail's
    configuration file. *)
Definition handling_disabled (t : list event) : bool :=
  existsb (fun enabled => enabled =? 0) (checkcfgs t).

(** The run went on to enforce the policy. *)
Definition enforced (t : list event) : bool :=
  negb both_allowed && negb (handling_disabled t).

(** The run found the directory of the proxy sockets. *)
Definition staging_found (t : list event) : bool :=
  existsb (fun x => match snd x with Some _ => true | None => false end) (stats t).

(** The run found a bridge configured for the sandbox. *)
Definition bridge_found (t : list event) : bool :=
  existsb (fun bridge => negb (bridge =? 0)) (bridges t).

(** The path a pointer variable holds. *)
Definition path_of (p : c_ptr) : list string :=
  match p with
  | Alloc path => [path]
  | _ => []
  end.

Definition is_filter (p : DbusPolicy) : bool := policy_eqb p DBUS_POLICY_FILTER.
Definition is_block (p : DbusPolicy) : bool := policy_eqb p DBUS_POLICY_BLOCK.
Definition is_allow (p : DbusPolicy) : bool := policy_eqb p DBUS_POLICY_ALLOW.

(** The protocol filter leaves no [unix] sockets. *)
Definition protocol_without_unix : bool :=
  HAVE_SECCOMP
  && match cfg_protocol cfg with
     | Some protocol => negb (strstr protocol "unix")
     | None => false
     end.

(** The directory of [dbus-launch] in the home directory. *)
Definition dbus_launch_directory : string := c_str (cfg_homedir cfg) ++ "/.dbus".

(** What [dbus_apply_policy] hides for the user bus when it enforces a
    policy for it: the socket of the bus in the sandbox when the bus is
    blocked, what it takes for the socket outside when [strcmp] finds
    that another string, and the directory of [dbus-launch] in the home
    directory. *)
Definition user_hidden (env : option string) : list string :=
  if is_allow (arg_dbus_user cfg) then []
  else
    ((if is_block (arg_dbus_user cfg) then [sandbox_user_socket] else []) ++
     (if strcmp_eq0 (outside_user_socket env) sandbox_user_socket
      then [] else [outside_user_socket env]) ++
     [dbus_launch_directory])%list.

(** What it hides for the system bus. *)
Definition system_hidden : list string :=
  if is_block (arg_dbus_system cfg) then [DBUS_SYSTEM_SOCKET] else [].

Definition disabled_warning : string :=
  "D-Bus handling is disabled in Firejail configuration file" ++ nl.

(** What is to be shown of a run, kept apart from the steps that lead to
    it. *)
Definition at_end (P : Prop) : Prop := P.

(** *** What holds of every run

    [every_run p Q]: whatever the environment answers, the calls that [p]
    makes and the way it ends satisfy [Q]. *)
Fixpoint every_run {A : Type} (p : prog A) (Q : list event -> outcome A -> Prop) : Prop :=
  match p with
  | Ret a => Q [] (Done a)
  | Halt x => Q [] (Halted x)
  | Call c k => forall r, every_run (k r) (fun t o => Q (Ev c r :: t) o)
  end.

(** The profile holds a line that starts with [prefix]. *)
Definition has_rule (prefix : string) : bool :=
  existsb (String.prefix prefix) (cfg_profile cfg).

(** * Properties *)

(** ** C strings *)

Lemma c_str_id s : c_string s -> c_str s = s.
Proof.
  induction s as [|c s IH]; simpl; [reflexivity|].
  intros [Hc Hs]. rewrite Hc, IH by assumption. reflexivity.
Qed.

Lemma strlen_length s : c_string s -> strlen s = Z.of_nat (String.length s).
Proof.
  induction s as [|c s IH]; cbn [strlen String.length c_string]; [reflexivity|].
  intros [Hc Hs]. rewrite Hc, IH, Nat2Z.inj_succ by assumption. lia.
Qed.

Lemma c_string_app s t : c_string (s ++ t) <-> c_string s /\ c_string t.
Proof.
  induction s as [|c s IH]; simpl; tauto.
Qed.


(** ** NameGrammar *)

Example check_name_ex1 : dbus_check_name "org.freedesktop.DBus" = true.
Proof. reflexivity. Qed.
Example check_name_ex2 : dbus_check_name "org.*" = true.
Proof. reflexivity. Qed.
Example check_name_ex3 : dbus_check_name "org" = false.
Proof. reflexivity. Qed.
Example check_name_ex4 : dbus_check_name "org..Bus" = false.
Proof. reflexivity. Qed.
Example check_name_ex5 : dbus_check_name "org.Bus*" = false.
Proof. reflexivity. Qed.

Lemma dbus_check_name_too_long (name : string) :
  DBUS_MAX_NAME_LENGTH < strlen name -> dbus_check_name name = false.
Proof.
  intros H. unfold dbus_check_name. apply Z.ltb_lt in H. rewrite H.
  now rewrite orb_true_r.
Qed.

Section NameGrammarFacts.

Lemma first_ok_facts c :
  first_ok c = true ->
  is_nul c = false /\ Ascii.eqb c "*" = false /\ Ascii.eqb c "." = false /\
  rest_ok c = true.
Proof.
  destruct c as [[] [] [] [] [] [] [] []]; vm_compute; intuition congruence.
Qed.

Lemma rest_ok_facts c :
  rest_ok c = true -> is_nul c = false /\ Ascii.eqb c "." = false.
Proof.
  destruct c as [[] [] [] [] [] [] [] []]; vm_compute; intuition congruence.
Qed.

Lemma loop_in_segment c rest n :
  is_nul c = false ->
  dbus_check_name_loop (String c rest) n true =
  if Ascii.eqb c "." then dbus_check_name_loop rest (n + 1) false
  else if rest_ok c then dbus_check_name_loop rest n true else false.
Proof.
  intros Hc. cbn [dbus_check_name_loop]. rewrite Hc.
  destruct (Ascii.eqb c "."); [reflexivity|].
  unfold rest_ok, is_letter, is_digit.
  destruct (is_lower c || is_upper c), (("0" <=? c) && (c <=? "9"))%char,
    (Ascii.eqb c "_"), (Ascii.eqb c "-"); reflexivity.
Qed.

Lemma loop_segment_start c rest n :
  is_nul c = false ->
  dbus_check_name_loop (String c rest) n false =
  if Ascii.eqb c "*"
  then match rest with EmptyString => true | String c' _ => is_nul c' end
  else if first_ok c then dbus_check_name_loop rest n true else false.
Proof.
  intros Hc. cbn [dbus_check_name_loop]. rewrite Hc.
  destruct (Ascii.eqb c "*"); [reflexivity|].
  unfold first_ok, is_letter.
  destruct (is_lower c || is_upper c), (Ascii.eqb c "_"), (Ascii.eqb c "-");
    reflexivity.
Qed.

Lemma loop_skip_rest t : forall q n,
  all_chars rest_ok t = true ->
  dbus_check_name_loop (t ++ q) n true = dbus_check_name_loop q n true.
Proof.
  induction t as [|c t IH]; intros q n H; [reflexivity|].
  cbn [all_chars] in H. apply andb_prop in H as [Hc Ht].
  destruct (rest_ok_facts c Hc) as [Hn Hd].
  cbn [String.append]. rewrite loop_in_segment, Hd, Hc by assumption.
  now apply IH.
Qed.

Lemma loop_skip_segment seg q n :
  valid_segment seg = true ->
  dbus_check_name_loop (seg ++ q) n false = dbus_check_name_loop q n true.
Proof.
  destruct seg as [|c t]; [discriminate|]. cbn [valid_segment].
  intros H. apply andb_prop in H as [Hc Ht].
  destruct (first_ok_facts c Hc) as (Hn & Hs & _ & _).
  cbn [String.append]. rewrite loop_segment_start, Hs, Hc by assumption.
  now apply loop_skip_rest.
Qed.

Lemma loop_dot q n :
  dbus_check_name_loop ("." ++ q) n true = dbus_check_name_loop q (n + 1) false.
Proof. reflexivity. Qed.

Lemma append_assoc (a b c : string) : (a ++ b) ++ c = a ++ b ++ c.
Proof. induction a as [|x a IH]; cbn; [reflexivity | now rewrite IH]. Qed.

Lemma append_nil_r (a : string) : a ++ "" = a.
Proof. induction a as [|x a IH]; cbn; [reflexivity | now rewrite IH]. Qed.

Lemma append_length (a b : string) :
  String.length (a ++ b) = (String.length a + String.length b)%nat.
Proof. induction a as [|x a IH]; cbn; [reflexivity | now rewrite IH]. Qed.

(** The loop accepts every joined sequence of well-formed segments that
    brings the count to two. *)
Lemma loop_join_dots segs : forall n,
  segs <> [] ->
  Forall (fun seg => valid_segment seg = true) segs ->
  dbus_check_name_loop (join_dots segs) n false =
  (2 <=? n + Z.of_nat (List.length segs) - 1).
Proof.
  induction segs as [|seg more IH]; intros n Hne Hall; [congruence|].
  inversion Hall as [|? ? Hseg Hmore]; subst.
  destruct more as [|s2 more].
  - cbn [join_dots List.length]. rewrite <- (append_nil_r seg) at 1.
    rewrite loop_skip_segment by assumption. cbn. f_equal. lia.
  - change (join_dots (seg :: s2 :: more))
      with (seg ++ "." ++ join_dots (s2 :: more)).
    rewrite loop_skip_segment, loop_dot, IH by (assumption || discriminate).
    f_equal. cbn [List.length]. lia.
Qed.

Lemma loop_dotted_star segs : forall n,
  Forall (fun seg => valid_segment seg = true) segs ->
  dbus_check_name_loop (dotted segs ++ "*") n false = true.
Proof.
  induction segs as [|seg more IH]; intros n Hall; [reflexivity|].
  inversion Hall as [|? ? Hseg Hmore]; subst.
  cbn [dotted]. rewrite !append_assoc.
  rewrite loop_skip_segment by assumption.
  rewrite loop_dot. now apply IH.
Qed.

(** Inside a segment the loop reads the rest of the segment, up to the end
    of the name or to the next dot. *)
Lemma loop_span p : forall n,
  c_string p ->
  dbus_check_name_loop p n true = true ->
  exists t, all_chars rest_ok t = true /\
    ((p = t /\ 2 <= n) \/
     exists q, p = t ++ "." ++ q /\ c_string q /\
               (String.length q < String.length p)%nat /\
               dbus_check_name_loop q (n + 1) false = true).
Proof.
  induction p as [|c p IH]; intros n Hcs H.
  - exists "". split; [reflexivity|]. left. split; [reflexivity|].
    cbn in H. now apply Z.leb_le.
  - destruct Hcs as [Hc Hp]. rewrite loop_in_segment in H by assumption.
    destruct (Ascii.eqb c ".") eqn:Hd.
    + apply Ascii.eqb_eq in Hd. subst c. exists "". split; [reflexivity|].
      right. exists p. cbn. repeat split; auto.
    + destruct (rest_ok c) eqn:Hr; [|discriminate].
      destruct (IH n Hp H) as (t & Ht & [[-> Hn] | (q & -> & Hq & Hlen & Hl)]).
      * exists (String c t). split; [cbn; now rewrite Hr|]. now left.
      * exists (String c t). split; [cbn; now rewrite Hr|]. right.
        exists q. cbn [String.append String.length]. repeat split; auto.
Qed.

Lemma loop_sound len : forall p n,
  (String.length p <= len)%nat ->
  c_string p ->
  dbus_check_name_loop p n false = true ->
  (exists segs, segs <> [] /\ p = join_dots segs /\
                Forall (fun seg => valid_segment seg = true) segs /\
                2 <= n + Z.of_nat (List.length segs) - 1) \/
  (exists segs, p = dotted segs ++ "*" /\
                Forall (fun seg => valid_segment seg = true) segs).
Proof.
  induction len as [|len IH]; intros p n Hlen Hcs H.
  - destruct p; [discriminate | cbn in Hlen; lia].
  - destruct p as [|c p]; [discriminate|].
    destruct Hcs as [Hc Hp]. rewrite loop_segment_start in H by assumption.
    destruct (Ascii.eqb c "*") eqn:Hs.
    + apply Ascii.eqb_eq in Hs. subst c. right. exists []. split; [|constructor].
      destruct p as [|c' p]; [reflexivity|].
      destruct Hp as [Hc' _]. congruence.
    + destruct (first_ok c) eqn:Hf; [|discriminate].
      destruct (first_ok_facts c Hf) as (_ & _ & _ & Hr).
      destruct (loop_span p n Hp H)
        as (t & Ht & [[-> Hn] | (q & -> & Hq & Hlt & Hl)]).
      * left. exists [String c t]. repeat split; try discriminate.
        -- constructor; [cbn; now rewrite Hf | constructor].
        -- cbn. lia.
      * assert (Hseg : valid_segment (String c t) = true)
          by (cbn; now rewrite Hf).
        cbn [String.length] in Hlen.
        destruct (IH q (n + 1)) as [(segs & Hne & -> & Hall & Hcnt)
                                   | (segs & -> & Hall)]; try assumption; try lia.
        -- left. exists (String c t :: segs). repeat split; try discriminate.
           ++ destruct segs; [congruence | reflexivity].
           ++ now constructor.
           ++ cbn [List.length]. lia.
        -- right. exists (String c t :: segs). split; [|now constructor].
           cbn [dotted String.append]. now rewrite !append_assoc.
Qed.

End NameGrammarFacts.

(** C2: for every C string [s], [dbus_check_name s] is true exactly when
    [s] is 1 to 255 bytes long and is either (a) two or more dot-separated
    segments, each starting with a letter, underscore or hyphen and going
    on with letters, digits, underscores or hyphens, or (b) zero or more
    such segments, each followed by its dot, and then a final [*]; case
    (b) needs no second segment. *)
Theorem dbus_check_name_grammar (s : string) :
  c_string s ->
  (dbus_check_name s = true <-> plain_name s \/ wildcard_name s).
Proof.
  intros Hcs. unfold dbus_check_name, DBUS_MAX_NAME_LENGTH.
  rewrite (strlen_length s Hcs).
  assert (Hlen : ((Z.of_nat (String.length s) =? 0)
                  || (255 <? Z.of_nat (String.length s))) = false
                 <-> length_ok s).
  { unfold length_ok. rewrite orb_false_iff, Z.eqb_neq, Z.ltb_ge. lia. }
  split.
  - destruct ((Z.of_nat (String.length s) =? 0)
              || (255 <? Z.of_nat (String.length s))) eqn:E; [discriminate|].
    intros H. apply (loop_sound (String.length s)) in H; auto.
    destruct H as [(segs & Hne & -> & Hall & Hcnt) | (segs & -> & Hall)].
    + left. split; [now apply Hlen|]. exists segs. repeat split; auto. lia.
    + right. split; [now apply Hlen|]. exists segs. now split.
  - intros [[Hl (segs & -> & Hn & Hall)] | [Hl (segs & -> & Hall)]];
      apply Hlen in Hl; rewrite Hl.
    + rewrite loop_join_dots; auto.
      * apply Z.leb_le. lia.
      * destruct segs; [cbn in Hn; lia | discriminate].
    + now apply loop_dotted_star.
Qed.

Lemma dbus_check_name_grammar_witness :
  dbus_check_name "org.freedesktop.DBus" = true <->
  plain_name "org.freedesktop.DBus" \/ wildcard_name "org.freedesktop.DBus".
Proof.
  apply (dbus_check_name_grammar "org.freedesktop.DBus").
  cbn. repeat split; reflexivity.
Defined.

(** ** Running programs *)

Section InterpFacts.

Context {St : Type} (h : handler St).

Lemma interp_bind {A B : Type} (p : prog A) (f : A -> prog B) : forall s,
  interp h (bind p f) s =
  match result (interp h p s) with
  | Done a =>
      let r2 := interp h (f a) (final (interp h p s)) in
      Run (trace (interp h p s) ++ trace r2)%list (result r2) (final r2)
  | Halted x => Run (trace (interp h p s)) (Halted x) (final (interp h p s))
  end.
Proof.
  induction p as [a | x | R c k IH]; intros s.
  - cbn. destruct (interp h (f a) s); reflexivity.
  - reflexivity.
  - cbn [bind interp]. rewrite IH. cbn [result trace final].
    destruct (result (interp h (k (fst (h R c s))) (snd (h R c s)))); reflexivity.
Qed.

Lemma interp_call {R : Type} (c : syscall R) s :
  interp h (call c) s =
  Run [(s, Ev c (fst (h R c s)))] (Done (fst (h R c s))) (snd (h R c s)).
Proof. reflexivity. Qed.

(** A program that ends with [Done] ran both halves of a [bind]. *)
Lemma bind_done {A B : Type} (p : prog A) (f : A -> prog B) s b :
  result (interp h (bind p f) s) = Done b ->
  exists a, result (interp h p s) = Done a /\
            result (interp h (f a) (final (interp h p s))) = Done b /\
            trace (interp h (bind p f) s) =
              (trace (interp h p s) ++ trace (interp h (f a) (final (interp h p s))))%list /\
            final (interp h (bind p f) s) = final (interp h (f a) (final (interp h p s))).
Proof.
  rewrite interp_bind. destruct (result (interp h p s)) as [a | x] eqn:E.
  - cbn. intros H. exists a. repeat split; auto.
  - discriminate.
Qed.

Lemma events_bind_done {A B : Type} (p : prog A) (f : A -> prog B) s a :
  result (interp h p s) = Done a ->
  events (interp h (bind p f) s) =
  (events (interp h p s) ++ events (interp h (f a) (final (interp h p s))))%list.
Proof.
  intros E. unfold events. rewrite interp_bind, E. cbn. apply map_app.
Qed.

Lemma events_bind_halted {A B : Type} (p : prog A) (f : A -> prog B) s x :
  result (interp h p s) = Halted x ->
  events (interp h (bind p f) s) = events (interp h p s) /\
  result (interp h (bind p f) s) = Halted x.
Proof.
  intros E. unfold events. rewrite interp_bind, E. split; reflexivity.
Qed.

Lemma events_call_bind {R A : Type} (c : syscall R) (k : R -> prog A) s :
  events (interp h (bind (call c) k) s) =
  Ev c (fst (h R c s)) :: events (interp h (k (fst (h R c s))) (snd (h R c s))).
Proof. reflexivity. Qed.

Lemma result_call_bind {R A : Type} (c : syscall R) (k : R -> prog A) s :
  result (interp h (bind (call c) k) s) =
  result (interp h (k (fst (h R c s))) (snd (h R c s))).
Proof. reflexivity. Qed.

Lemma final_call_bind {R A : Type} (c : syscall R) (k : R -> prog A) s :
  final (interp h (bind (call c) k) s) =
  final (interp h (k (fst (h R c s))) (snd (h R c s))).
Proof. reflexivity. Qed.

Lemma events_bind {A B : Type} (p : prog A) (f : A -> prog B) s :
  events (interp h (bind p f) s) =
  (events (interp h p s) ++
   match result (interp h p s) with
   | Done a => events (interp h (f a) (final (interp h p s)))
   | Halted _ => []
   end)%list.
Proof.
  unfold events. rewrite interp_bind.
  destruct (result (interp h p s)); cbn [trace].
  - apply map_app.
  - now rewrite app_nil_r.
Qed.

Lemma result_bind {A B : Type} (p : prog A) (f : A -> prog B) s :
  result (interp h (bind p f) s) =
  match result (interp h p s) with
  | Done a => result (interp h (f a) (final (interp h p s)))
  | Halted x => Halted x
  end.
Proof.
  rewrite interp_bind. destruct (result (interp h p s)); reflexivity.
Qed.

Lemma final_bind {A B : Type} (p : prog A) (f : A -> prog B) s :
  final (interp h (bind p f) s) =
  match result (interp h p s) with
  | Done a => final (interp h (f a) (final (interp h p s)))
  | Halted x => final (interp h p s)
  end.
Proof.
  rewrite interp_bind. destruct (result (interp h p s)); reflexivity.
Qed.

Lemma events_Call {R A : Type} (c : syscall R) (k : R -> prog A) s :
  events (interp h (Call c k) s) =
  Ev c (fst (h R c s)) :: events (interp h (k (fst (h R c s))) (snd (h R c s))).
Proof. reflexivity. Qed.

Lemma result_Call {R A : Type} (c : syscall R) (k : R -> prog A) s :
  result (interp h (Call c k) s) =
  result (interp h (k (fst (h R c s))) (snd (h R c s))).
Proof. reflexivity. Qed.

Lemma final_Call {R A : Type} (c : syscall R) (k : R -> prog A) s :
  final (interp h (Call c k) s) =
  final (interp h (k (fst (h R c s))) (snd (h R c s))).
Proof. reflexivity. Qed.

Lemma trace_bind {A B : Type} (p : prog A) (f : A -> prog B) s :
  trace (interp h (bind p f) s) =
  (trace (interp h p s) ++
   match result (interp h p s) with
   | Done a => trace (interp h (f a) (final (interp h p s)))
   | Halted _ => []
   end)%list.
Proof.
  rewrite interp_bind.
  destruct (result (interp h p s)); cbn [trace]; [reflexivity|].
  now rewrite app_nil_r.
Qed.

Lemma trace_Call {R A : Type} (c : syscall R) (k : R -> prog A) s :
  trace (interp h (Call c k) s) =
  (s, Ev c (fst (h R c s))) :: trace (interp h (k (fst (h R c s))) (snd (h R c s))).
Proof. reflexivity. Qed.

Lemma events_ret {A : Type} (a : A) s : events (interp h (Ret a) s) = [].
Proof. reflexivity. Qed.

Lemma events_halt {A : Type} (x : halt) s : events (interp h (@Halt A x) s) = [].
Proof. reflexivity. Qed.

End InterpFacts.

Arguments events : simpl never.

Lemma writes_app (t1 t2 : list event) :
  writes (t1 ++ t2) = (writes t1 ++ writes t2)%list.
Proof. apply flat_map_app. Qed.

Lemma warnings_app (t1 t2 : list event) :
  warnings (t1 ++ t2) = (warnings t1 ++ warnings t2)%list.
Proof. apply flat_map_app. Qed.

(** ** Programs that make calls of one class only *)

Section OnlyCalls.

Context (P : call_class).

Lemma only_calls_bind {A B : Type} (p : prog A) (f : A -> prog B) :
  only_calls P p -> (forall a, only_calls P (f a)) -> only_calls P (bind p f).
Proof.
  induction p as [a | x | R c k IH]; cbn; intros Hp Hf; auto.
  destruct Hp as [Hc Hk]. split; [assumption|]. intros r. now apply IH.
Qed.

Lemma only_calls_silent {St A X : Type} (h : handler St) (f : event -> list X)
    (p : prog A) :
  (forall R (c : syscall R) r, P R c = true -> f (Ev c r) = []) ->
  only_calls P p ->
  forall s, flat_map f (events (interp h p s)) = [].
Proof.
  intros Hf. induction p as [a | x | R c k IH]; intros Hp s; try reflexivity.
  destruct Hp as [Hc Hk]. change (events (interp h (Call c k) s))
    with (Ev c (fst (h R c s)) :: events (interp h (k (fst (h R c s))) (snd (h R c s)))).
  cbn [flat_map]. rewrite (Hf R c _ Hc). now apply IH.
Qed.

Lemma only_calls_weaken {A : Type} (Q : call_class) (p : prog A) :
  (forall R (c : syscall R), Q R c = true -> P R c = true) ->
  only_calls Q p -> only_calls P p.
Proof.
  intros HQ. induction p as [a | x | R c k IH]; cbn; auto.
  intros [Hc Hk]. split; [now apply HQ | intros r; now apply IH].
Qed.

Lemma only_calls_trace {St A : Type} (h : handler St) (p : prog A) :
  only_calls P p ->
  forall s s1 e, In (s1, e) (trace (interp h p s)) -> event_class P e = true.
Proof.
  induction p as [a | x | R' c' k IH]; intros Hp s s1 e Hin;
    try (cbn in Hin; contradiction).
  destruct Hp as [Hc Hk]. cbn [interp trace] in Hin.
  destruct Hin as [E | Hin].
  - injection E as _ <-. exact Hc.
  - eapply IH; eauto.
Qed.

Lemma only_calls_when (b : bool) (p : prog unit) :
  only_calls P p -> only_calls P (when b p).
Proof. destruct b; cbn; auto. Qed.

End OnlyCalls.

(** Projections that see nothing of a class of calls. *)

Ltac silent := intros R c r; destruct c; cbn; intros; (reflexivity || discriminate).

Lemma dir_call_close : silent_on dir_call close_of. Proof. silent. Qed.
Lemma dir_call_fork : silent_on dir_call fork_of. Proof. silent. Qed.
Lemma dir_call_pipe : silent_on dir_call pipe_of. Proof. silent. Qed.
Lemma dir_call_read : silent_on dir_call read_of. Proof. silent. Qed.
Lemma dir_call_write : silent_on dir_call write_of. Proof. silent. Qed.
Lemma dir_call_getenv : silent_on dir_call getenv_of. Proof. silent. Qed.
Lemma config_call_close : silent_on config_call close_of. Proof. silent. Qed.
Lemma config_call_fork : silent_on config_call fork_of. Proof. silent. Qed.
Lemma config_call_pipe : silent_on config_call pipe_of. Proof. silent. Qed.
Lemma config_call_read : silent_on config_call read_of. Proof. silent. Qed.
Lemma child_call_fork : silent_on child_call fork_of. Proof. silent. Qed.
Lemma child_call_pipe : silent_on child_call pipe_of. Proof. silent. Qed.
Lemma child_call_read : silent_on child_call read_of. Proof. silent. Qed.
Lemma output_call_getenv : silent_on output_call getenv_of. Proof. silent. Qed.
Lemma output_call_config R (c : syscall R) :
  output_call R c = true -> config_call R c = true.
Proof. destruct c; cbn; congruence. Qed.

(** C3, as stated, does not hold: [dbus_check_name] does not return
    false on the one-character name [*]. *)
Lemma dbus_check_name_star_not_false : dbus_check_name "*" <> false.
Proof. discriminate. Qed.

(** C3, amended: [dbus_check_name] applied to the one-character string
    [*] returns true; a bare wildcard stands where the first segment would
    start and is the final character, so it is accepted at once. *)
Theorem dbus_check_name_star : dbus_check_name "*" = true.
Proof. reflexivity. Qed.

(** ** RuleExtractor *)

Lemma strncmp_eq0_prefix prefix : forall data,
  c_string prefix ->
  strncmp_eq0 prefix data (Z.to_nat (strlen prefix)) = String.prefix prefix data.
Proof.
  induction prefix as [|a p IH]; intros data Hcs.
  - destruct data; reflexivity.
  - destruct Hcs as [Ha Hp].
    rewrite (strlen_length (String a p)) by (split; assumption).
    rewrite Nat2Z.id. cbn [String.length strncmp_eq0 String.prefix].
    destruct data as [|b d]; [assumption|].
    specialize (IH d Hp). rewrite (strlen_length p Hp), Nat2Z.id in IH.
    change (String.prefix (String a p) (String b d))
      with (if ascii_dec a b then String.prefix p d else false).
    destruct (ascii_dec a b) as [->|Hne].
    + rewrite Ascii.eqb_refl, Ha. exact IH.
    + apply Ascii.eqb_neq in Hne. now rewrite Hne.
Qed.

Lemma prefix_app (q b : string) : String.prefix q (q ++ b) = true.
Proof.
  induction q as [|c q IH]; cbn; [now destruct b|].
  destruct (ascii_dec c c); [assumption | congruence].
Qed.

Lemma strstr_app (a q b : string) : strstr (a ++ q ++ b) q = true.
Proof.
  induction a as [|c a IH].
  - cbn [String.append]. destruct (q ++ b) eqn:E; cbn [strstr];
      rewrite <- E, prefix_app; reflexivity.
  - cbn [String.append strstr]. rewrite IH. apply orb_true_r.
Qed.

Lemma strstr_no_dquote (hay needle : string) :
  no_dquote hay = true -> strstr hay (String dquote needle) = false.
Proof.
  induction hay as [|c hay IH]; intros H; [reflexivity|].
  cbn [no_dquote] in H. apply andb_prop in H as [Hc Hh].
  cbn [strstr String.prefix]. rewrite (IH Hh).
  destruct (ascii_dec dquote c) as [<-|Hne]; [discriminate | reflexivity].
Qed.

Lemma no_dquote_app (a b : string) :
  no_dquote (a ++ b) = no_dquote a && no_dquote b.
Proof.
  induction a as [|c a IH]; cbn; [reflexivity|]. now rewrite IH, andb_assoc.
Qed.

Lemma names_rule_blocked data prefix :
  no_dquote prefix = true -> names_rule data (blocked_message prefix) = false.
Proof.
  intros H. apply strstr_no_dquote. unfold blocked_message.
  rewrite no_dquote_app, H. reflexivity.
Qed.

Lemma names_rule_ignoring data prefix :
  names_rule data (ignoring_message data prefix) = true.
Proof.
  unfold names_rule, ignoring_message.
  set (tail := " and any other " ++ prefix ++ " filter rules." ++ nl).
  set (q := String dquote (data ++ String dquote "")).
  replace (String dquote (data ++ String dquote tail)) with (q ++ tail).
  - apply strstr_app.
  - unfold q. cbn [String.append]. now rewrite append_assoc.
Qed.

(** C8, amended: [dbus_check_bus_profile] acts on the first profile line
    that starts with the prefix, and on that line only.  With no such line
    it does nothing.  With one: under Allow it reports the error and exits
    with status 1; under Filter it does nothing; under Block it does not
    abort and emits two warnings: first the notice that a filter rule is
    configured but the bus is blocked, which does not name the rule, then
    the warning that names that first matching rule and says that it and
    any other rule of the prefix are ignored.  Later matching lines add
    nothing. *)
Theorem dbus_check_bus_profile_first_match
    (St : Type) (h : handler St) (s : St) (prefix : string) (policy : DbusPolicy) :
  c_string prefix ->
  no_dquote prefix = true ->
  Forall c_string (cfg_profile cfg) ->
  let r := interp h (dbus_check_bus_profile prefix policy) s in
  match find (String.prefix prefix) (cfg_profile cfg), policy with
  | None, _ => events r = [] /\ result r = Done tt
  | Some data, DBUS_POLICY_ALLOW =>
      events r = [Ev (out_stderr (allow_error_message prefix)) tt] /\
      result r = Halted (Exit 1) /\ fatal (Exit 1) = true
  | Some data, DBUS_POLICY_FILTER => events r = [] /\ result r = Done tt
  | Some data, DBUS_POLICY_BLOCK =>
      events r = [Ev (out_warning (blocked_message prefix)) tt;
                  Ev (out_warning (ignoring_message data prefix)) tt] /\
      result r = Done tt /\
      warnings (events r) = [blocked_message prefix; ignoring_message data prefix] /\
      names_rule data (blocked_message prefix) = false /\
      names_rule data (ignoring_message data prefix) = true
  end.
Proof.
  intros Hp Hq Hlines. unfold dbus_check_bus_profile.
  induction (cfg_profile cfg) as [|data next IH]; cbn zeta.
  - cbn. auto.
  - inversion Hlines as [|? ? Hdata Hnext]; subst.
    cbn [find dbus_check_bus_profile_from].
    rewrite strncmp_eq0_prefix by assumption.
    destruct (String.prefix prefix data) eqn:E; [|now apply IH].
    assert (Hu : forall m (u : unit * St),
               Ev (out_warning m) (fst u) = Ev (out_warning m) tt)
      by (intros m [[] ?]; reflexivity).
    assert (Hu' : forall m (u : unit * St),
               Ev (out_stderr m) (fst u) = Ev (out_stderr m) tt)
      by (intros m [[] ?]; reflexivity).
    destruct policy.
    + unfold events. cbn. rewrite (c_str_id prefix Hp), Hu'. auto.
    + cbn. auto.
    + assert (Hev : events (interp h
                 (fwarning ("%s filter rule configured, but the bus is blocked." ++ nl)
                    [ArgStr prefix] ;;
                  fwarning ("Ignoring " ++ String dquote ("%s" ++ String dquote
                              (" and any other %s filter rules." ++ nl)))
                    [ArgStr data; ArgStr prefix]) s)
              = [Ev (out_warning (blocked_message prefix)) tt;
                 Ev (out_warning (ignoring_message data prefix)) tt]).
      { unfold events. cbn.
        rewrite (c_str_id prefix Hp), (c_str_id data Hdata), !Hu. reflexivity. }
      rewrite Hev. split; [reflexivity|]. split.
      * cbn. match goal with |- Done ?x = Done tt => now destruct x end.
      * split; [reflexivity|].
        split; [now apply names_rule_blocked | apply names_rule_ignoring].
Qed.

Section Projections.

Context {St : Type} (h : handler St) {X : Type} (f : event -> list X).

Lemma flat_map_events_bind {A B : Type} (p : prog A) (k : A -> prog B) s :
  flat_map f (events (interp h (bind p k) s)) =
  (flat_map f (events (interp h p s)) ++
   match result (interp h p s) with
   | Done a => flat_map f (events (interp h (k a) (final (interp h p s))))
   | Halted _ => []
   end)%list.
Proof.
  unfold events. rewrite interp_bind.
  destruct (result (interp h p s)); cbn [trace].
  - now rewrite map_app, flat_map_app.
  - now rewrite app_nil_r.
Qed.

End Projections.

Section WriteArg.

Context {St : Type} (h : handler St).

Lemma printf_run format ap s :
  writes (events (interp h (printf format ap) s)) = [] /\
  diagnostics (events (interp h (printf format ap) s)) = [].
Proof.
  unfold printf. destruct (vasprintf format ap); split; reflexivity.
Qed.

Lemma when_printf_run b format ap s :
  writes (events (interp h (when b (printf format ap)) s)) = [] /\
  diagnostics (events (interp h (when b (printf format ap)) s)) = [].
Proof.
  destruct b; [apply printf_run | split; reflexivity].
Qed.

Lemma write_arg_diagnostics fd format ap s :
  diagnostics (events (interp h (write_arg fd format ap) s)) = [].
Proof.
  unfold write_arg. destruct (vasprintf format ap) as [arg|]; [|reflexivity].
  rewrite events_call_bind. destruct (h bool (allocate arg) s) as [ok s1].
  cbn [fst snd]. destruct ok; [|reflexivity]. cbn [negb].
  unfold diagnostics. cbn [flat_map diagnostic_of List.app].
  rewrite flat_map_events_bind.
  destruct (when_printf_run (arg_debug cfg) ("xdg-dbus-proxy arg: %s" ++ nl)
              [ArgStr arg] s1) as [_ E].
  unfold diagnostics in E. rewrite E.
  destruct (result (interp h (when (arg_debug cfg) _) _)); [|reflexivity].
  rewrite events_call_bind. destruct (h Z (write fd _) _) as [n s2].
  cbn [fst snd]. destruct (n =? strlen arg + 1); reflexivity.
Qed.

(** A [write_arg] that returns has written its formatted argument and the
    NUL after it, and nothing else. *)
Lemma write_arg_done fd format ap s :
  result (interp h (write_arg fd format ap) s) = Done tt ->
  exists arg, vasprintf format ap = Some arg /\
    writes (events (interp h (write_arg fd format ap) s)) = [(fd, nul_terminated arg)].
Proof.
  unfold write_arg. destruct (vasprintf format ap) as [arg|]; [|discriminate].
  intros H. exists arg. split; [reflexivity|]. revert H.
  rewrite events_call_bind, result_call_bind.
  destruct (h bool (allocate arg) s) as [ok s1].
  cbn [fst snd]. destruct ok; [|discriminate]. cbn [negb].
  intros H. apply bind_done in H as ([] & Hd & H & _ & _).
  unfold writes. cbn [flat_map write_of List.app].
  rewrite flat_map_events_bind, Hd.
  destruct (when_printf_run (arg_debug cfg) ("xdg-dbus-proxy arg: %s" ++ nl)
              [ArgStr arg] s1) as [E _].
  unfold writes in E. rewrite E. revert H.
  rewrite events_call_bind, result_call_bind.
  destruct (h Z (write fd _) _) as [n s2].
  cbn [fst snd]. destruct (n =? strlen arg + 1); [|discriminate].
  reflexivity.
Qed.

End WriteArg.

Lemma advance_c_string n : forall s, c_string s -> c_string (advance n s).
Proof.
  induction n as [|n IH]; intros [|c s] H; cbn; auto.
  destruct H. now apply IH.
Qed.

Lemma strip_prefix_advance prefix : forall line,
  strip_prefix prefix line =
  if String.prefix prefix line
  then Some (advance (String.length prefix) line) else None.
Proof.
  induction prefix as [|a p IH]; intros line.
  - destruct line; reflexivity.
  - destruct line as [|b l]; [reflexivity|].
    cbn [strip_prefix String.length advance].
    change (String.prefix (String a p) (String b l))
      with (if ascii_dec a b then String.prefix p l else false).
    destruct (ascii_dec a b) as [->|Hne].
    + rewrite Ascii.eqb_refl. apply IH.
    + apply Ascii.eqb_neq in Hne. now rewrite Hne.
Qed.

Lemma split_space_scan data :
  c_string data ->
  split_space data =
  if Ascii.eqb (char_at data (scan_arg data)) " "
  then Some (take (scan_arg data) data, advance (scan_arg data + 1) data)
  else None.
Proof.
  induction data as [|c d IH]; intros H; [reflexivity|].
  destruct H as [Hc Hd]. cbn [split_space scan_arg]. rewrite Hc. cbn [orb].
  destruct (Ascii.eqb c " ") eqn:E.
  - cbn. rewrite E. reflexivity.
  - rewrite (IH Hd).
    change (char_at (String c d) (S (scan_arg d))) with (char_at d (scan_arg d)).
    destruct (Ascii.eqb (char_at d (scan_arg d)) " "); [|reflexivity].
    cbn [take Nat.add advance]. now rewrite Hc.
Qed.

Lemma vasprintf_profile_arg n data value :
  vasprintf "--%.*s=%s" [ArgInt (Z.of_nat n); ArgStr data; ArgStr value] =
  Some ("--" ++ take n data ++ "=" ++ c_str value).
Proof.
  cbn. destruct (Z.of_nat n <? 0) eqn:E; [apply Z.ltb_lt in E; lia|].
  rewrite Nat2Z.id, append_nil_r. reflexivity.
Qed.

(** What [write_profile] writes, line by line. *)
Lemma write_profile_from_collect
    (St : Type) (h : handler St) (fd : Z) (prefix : string) :
  c_string prefix ->
  forall (lines : list string) (s : St),
    Forall c_string lines ->
    let r := interp h (write_profile_from lines fd (prefix ++ ".")) s in
    diagnostics (events r) = [] /\
    (result r = Done tt ->
     writes (events r) =
     map (fun a => (fd, nul_terminated a)) (collect_arguments prefix lines)).
Proof.
  intros Hp.
  assert (Hpd : c_string (prefix ++ ".")).
  { apply c_string_app. split; [assumption | cbn; auto]. }
  induction lines as [|data next IH]; intros s Hl; cbn zeta.
  - split; [reflexivity | intros _; reflexivity].
  - inversion Hl as [|? ? Hdata Hnext]; subst.
    cbn [write_profile_from collect_arguments flat_map].
    fold (collect_arguments prefix next).
    rewrite strncmp_eq0_prefix by assumption.
    unfold collect_argument. rewrite strip_prefix_advance.
    rewrite (strlen_length _ Hpd), Nat2Z.id.
    destruct (String.prefix (prefix ++ ".") data) eqn:E; cbn [negb];
      [|apply IH; assumption].
    set (d := advance (String.length (prefix ++ ".")) data).
    assert (Hd : c_string d) by now apply advance_c_string.
    rewrite (split_space_scan d Hd).
    destruct (Ascii.eqb (char_at d (scan_arg d)) " "); cbn [negb];
      [|apply IH; assumption].
    split.
    + unfold diagnostics. rewrite flat_map_events_bind.
      fold (diagnostics (events (interp h (write_arg fd "--%.*s=%s"
              [ArgInt (Z.of_nat (scan_arg d)); ArgStr d;
               ArgStr (advance (scan_arg d + 1) d)]) s))).
      rewrite write_arg_diagnostics.
      destruct (result (interp h (write_arg _ _ _) s)); [|reflexivity].
      apply IH. assumption.
    + intros H. apply bind_done in H as ([] & Hw & Hn & _ & _).
      unfold writes. rewrite flat_map_events_bind, Hw.
      destruct (write_arg_done h fd _ _ s Hw) as (arg & Harg & Hws).
      unfold writes in Hws. rewrite Hws.
      rewrite vasprintf_profile_arg in Harg. injection Harg as <-.
      rewrite c_str_id by (apply advance_c_string; assumption).
      cbn [List.app map]. f_equal.
      apply (IH _ Hnext). assumption.
Qed.

(** C9: [write_profile], called with the prefix and its dot, goes
    through the lines of the profile and writes, in their order, exactly
    one NUL-terminated [--<name>=<value>] for each line that starts with
    that prefix and has a space after it, name being the text up to the
    first space and value all that follows; lines with no space and lines
    with another prefix produce no argument and no diagnostic.  With the
    three lines of the specification's example as the profile, what it
    writes for [dbus-user] is exactly [--talk=org.foo]. *)
Theorem write_profile_collect_arguments
    (St : Type) (h : handler St) (s : St) (fd : Z) (prefix : string) :
  c_string prefix ->
  Forall c_string (cfg_profile cfg) ->
  let r := interp h (write_profile fd (prefix ++ ".")) s in
  diagnostics (events r) = [] /\
  (result r = Done tt ->
   writes (events r) =
   map (fun a => (fd, nul_terminated a)) (collect_arguments prefix (cfg_profile cfg))) /\
  (result r = Done tt ->
   prefix = "dbus-user" ->
   cfg_profile cfg = ["dbus-user.talk org.foo"; "dbus-user.own"; "other.rule x"] ->
   writes (events r) = [(fd, nul_terminated "--talk=org.foo")]).
Proof.
  intros Hp Hl. cbn zeta. unfold write_profile.
  destruct (write_profile_from_collect St h fd prefix Hp (cfg_profile cfg) s Hl)
    as [Hquiet Hwrites].
  split; [exact Hquiet|]. split; [exact Hwrites|].
  intros Hdone -> Hlines. rewrite (Hwrites Hdone), Hlines. reflexivity.
Qed.

(** ** ProxyProcess: the anatomy of a run of [dbus_proxy_start] *)

Lemma only_calls_printf (P : call_class) format ap :
  (forall m, P _ (out_stdout m) = true) -> only_calls P (printf format ap).
Proof.
  intros H. unfold printf. destruct (vasprintf format ap); cbn; auto.
Qed.

Lemma only_calls_asprintf (P : call_class) format ap :
  (forall m, P _ (allocate m) = true) -> only_calls P (asprintf format ap).
Proof.
  intros H. unfold asprintf. destruct (vasprintf format ap); cbn; auto.
  split; [apply H|]. intros []; cbn; auto.
Qed.

Lemma only_output_write_arg fd format ap :
  only_calls output_call (write_arg fd format ap).
Proof.
  unfold write_arg. destruct (vasprintf format ap) as [arg|]; [|exact I].
  apply only_calls_bind; [cbn; auto|]. intros [|]; cbn [negb]; [|exact I].
  apply only_calls_bind.
  - apply only_calls_when, only_calls_printf. reflexivity.
  - intros _. apply only_calls_bind; [cbn; auto|]. intros n.
    destruct (n =? strlen arg + 1); exact I.
Qed.

Lemma only_calls_write_arg fd format ap :
  only_calls config_call (write_arg fd format ap).
Proof.
  apply (only_calls_weaken config_call output_call);
    [apply output_call_config | apply only_output_write_arg].
Qed.

Lemma only_output_write_profile lines fd prefix :
  only_calls output_call (write_profile_from lines fd prefix).
Proof.
  induction lines as [|data next IH]; [exact I|].
  cbn [write_profile_from].
  destruct (negb (strncmp_eq0 prefix data _)); [assumption|].
  destruct (negb (Ascii.eqb _ " ")); [assumption|].
  apply only_calls_bind; [apply only_output_write_arg | intros _; assumption].
Qed.

Lemma only_calls_write_profile lines fd prefix :
  only_calls config_call (write_profile_from lines fd prefix).
Proof.
  apply (only_calls_weaken config_call output_call);
    [apply output_call_config | apply only_output_write_profile].
Qed.

Lemma only_calls_create_user_dir : only_calls dir_call dbus_create_user_dir.
Proof.
  unfold dbus_create_user_dir.
  apply only_calls_bind; [apply only_calls_asprintf; reflexivity|]. intros path.
  apply only_calls_bind; [cbn; auto|]. intros [st|]; [exact I|].
  apply only_calls_bind.
  { apply only_calls_when, only_calls_printf. reflexivity. }
  intros _. apply only_calls_bind; [cbn; auto|]. intros r.
  destruct ((fst r =? -1) && negb (snd r =? EEXIST)); [exact I|].
  apply only_calls_bind; [cbn; auto|]. intros r'.
  destruct (negb (r' =? 0)); [exact I|].
  unfold ASSERT_PERMS. apply only_calls_bind; [cbn; auto|]. intros [st|]; [|exact I].
  destruct ((st_uid st =? getuid cfg) && (st_gid st =? getgid cfg)
            && (Z.land (st_mode st) 4095 =? 448)); exact I.
Qed.

Lemma only_calls_start_user hd args_w :
  only_calls config_call (dbus_proxy_start_user hd args_w).
Proof.
  unfold dbus_proxy_start_user.
  destruct (policy_eqb (arg_dbus_user cfg) DBUS_POLICY_FILTER); [|exact I].
  apply only_calls_bind; [cbn; auto|]. intros env.
  apply only_calls_bind; [destruct env; apply only_calls_write_arg|]. intros _.
  apply only_calls_bind; [apply only_calls_asprintf; reflexivity|]. intros socket.
  apply only_calls_bind; [apply only_calls_write_arg|]. intros _.
  apply only_calls_bind; [apply only_calls_write_arg|]. intros _.
  apply only_calls_bind; [apply only_calls_write_profile|]. intros _. exact I.
Qed.

Lemma only_calls_start_system hd args_w :
  only_calls config_call (dbus_proxy_start_system hd args_w).
Proof.
  unfold dbus_proxy_start_system.
  destruct (policy_eqb (arg_dbus_system cfg) DBUS_POLICY_FILTER); [|exact I].
  apply only_calls_bind; [apply only_calls_write_arg|]. intros _.
  apply only_calls_bind; [apply only_calls_asprintf; reflexivity|]. intros socket.
  apply only_calls_bind; [apply only_calls_write_arg|]. intros _.
  apply only_calls_bind; [apply only_calls_write_arg|]. intros _.
  apply only_calls_bind; [apply only_calls_write_profile|]. intros _. exact I.
Qed.

Lemma only_calls_close_open_files n : forall i keep1 keep2,
  only_calls child_call (close_open_files n i keep1 keep2).
Proof.
  induction n as [|n IH]; intros i keep1 keep2; [exact I|].
  cbn [close_open_files]. apply only_calls_bind; [|intros _; apply IH].
  apply only_calls_when. cbn. auto.
Qed.

Lemma only_calls_child (A : Type) status_w args_r :
  only_calls child_call (@dbus_proxy_start_child A status_w args_r).
Proof.
  unfold dbus_proxy_start_child.
  apply only_calls_bind; [apply only_calls_close_open_files|]. intros _.
  apply only_calls_bind; [apply only_calls_asprintf; reflexivity|]. intros a1.
  apply only_calls_bind; [apply only_calls_asprintf; reflexivity|]. intros a2.
  apply only_calls_bind; [|intros _; exact I].
  apply only_calls_when, only_calls_printf. reflexivity.
Qed.

Section StartAnatomy.

Context {St : Type} (h : handler St).

(** The child never returns from [dbus_proxy_start]. *)
Lemma child_never_done (A : Type) status_w args_r s (a : A) :
  result (interp h (dbus_proxy_start_child status_w args_r) s) <> Done a.
Proof.
  unfold dbus_proxy_start_child.
  repeat (rewrite result_bind;
          match goal with
          | |- context [match result ?r with _ => _ end] => destruct (result r)
          end; try discriminate).
Qed.

(** The parent's wait, by what [read] returns. *)
Lemma wait_run hd status_r s :
  let w := interp h (dbus_proxy_start_wait hd status_r) s in
  let n := fst (h Z (read status_r 1) s) in
  exists tail, events w = Ev (read status_r 1) n :: tail /\ reads tail = [] /\
    ((n = 1 /\ result w = Done hd /\ diagnostics tail = []) \/
     (n = 0 /\ result w = Halted (Exit (-1)) /\
      exists st, tail = [Ev (out_stderr ("xdg-dbus-proxy closed pipe unexpectedly" ++ nl)) tt;
                         Ev (waitpid (dbus_proxy_pid hd)) st]) \/
     (n = -1 /\ result w = Halted (ErrExit "read") /\ tail = []) \/
     ((n < -1 \/ 1 < n) /\ result w = Halted AssertFailed /\ tail = [])).
Proof.
  cbn zeta. unfold dbus_proxy_start_wait.
  rewrite events_call_bind, result_call_bind.
  destruct (h Z (read status_r 1) s) as [n s1]. cbn [fst snd].
  destruct (n =? -1) eqn:E1.
  { apply Z.eqb_eq in E1. subst n. exists []. repeat split; auto.
    right; right; left. repeat split; auto. }
  destruct (n =? 0) eqn:E0.
  { apply Z.eqb_eq in E0. subst n. eexists. split; [reflexivity|]. split.
    - cbn. destruct (h unit _ s1) as [[] s2]. reflexivity.
    - right; left. split; [reflexivity|]. split; [reflexivity|].
      cbn. destruct (h unit _ s1) as [[] s2]. cbn. eexists. reflexivity. }
  destruct (n =? 1) eqn:E2.
  { apply Z.eqb_eq in E2. subst n. eexists. split; [reflexivity|].
    rewrite result_bind.
    destruct (arg_debug cfg); cbn [when].
    - split; [reflexivity|]. left. repeat split; reflexivity.
    - split; [reflexivity|]. left. repeat split; reflexivity. }
  exists []. split; [reflexivity|]. split; [reflexivity|].
  right; right; right. apply Z.eqb_neq in E1, E0, E2. repeat split; auto. lia.
Qed.

(** The parent's configuration, halted on the way or run to the closing
    of the arguments pipe. *)
Lemma configure_run hd status_w args_r args_w s :
  let c := interp h (dbus_proxy_start_configure hd status_w args_r args_w) s in
  (exists x, result c = Halted x /\
     ((List.length (closes (events c)) <= 2)%nat \/
      exists mid, events c = (mid ++ [Ev (close args_w) (-1)])%list /\
                  List.length (closes mid) = 2%nat)) \/
  (exists c1 c2 c3 s2 hd1 hd2,
     let u := interp h (dbus_proxy_start_user hd args_w) s2 in
     let y := interp h (dbus_proxy_start_system hd1 args_w) (final u) in
     result u = Done hd1 /\ result y = Done hd2 /\
     c3 <> -1 /\ result c = Done hd2 /\
     events c = (Ev (close status_w) c1 :: Ev (close args_r) c2 ::
                 events u ++ events y ++ [Ev (close args_w) c3])%list).
Proof.
  cbn zeta. unfold dbus_proxy_start_configure.
  rewrite events_call_bind, result_call_bind.
  destruct (h Z (close status_w) s) as [c1 s1]. cbn [fst snd].
  destruct (c1 =? -1);
    [left; eexists; split; [reflexivity|]; left; unfold events; cbn; lia|].
  rewrite events_call_bind, result_call_bind.
  destruct (h Z (close args_r) s1) as [c2 s2]. cbn [fst snd].
  destruct (c2 =? -1);
    [left; eexists; split; [reflexivity|]; left; unfold events; cbn; lia|].
  rewrite events_bind, result_bind.
  pose proof (only_calls_silent config_call h close_of
                (dbus_proxy_start_user hd args_w) config_call_close
                (only_calls_start_user hd args_w) s2) as Hu.
  destruct (result (interp h (dbus_proxy_start_user hd args_w) s2)) as [hd1|x] eqn:Eu.
  2:{ left. eexists. split; [reflexivity|]. left.
      unfold closes. cbn [flat_map close_of List.app].
      rewrite app_nil_r. rewrite Hu. cbn. lia. }
  rewrite events_bind, result_bind.
  set (u := interp h (dbus_proxy_start_user hd args_w) s2) in *.
  pose proof (only_calls_silent config_call h close_of
                (dbus_proxy_start_system hd1 args_w) config_call_close
                (only_calls_start_system hd1 args_w) (final u)) as Hy.
  destruct (result (interp h (dbus_proxy_start_system hd1 args_w) (final u)))
    as [hd2|x] eqn:Ey.
  2:{ left. eexists. split; [reflexivity|]. left.
      unfold closes. cbn [flat_map close_of List.app].
      rewrite app_nil_r, flat_map_app, Hu, Hy. cbn. lia. }
  set (y := interp h (dbus_proxy_start_system hd1 args_w) (final u)) in *.
  rewrite events_call_bind, result_call_bind.
  destruct (h Z (close args_w) (final y)) as [c3 s3]. cbn [fst snd].
  destruct (c3 =? -1) eqn:E3.
  - apply Z.eqb_eq in E3. subst c3. left. eexists. split; [reflexivity|]. right.
    exists (Ev (close status_w) c1 :: Ev (close args_r) c2 :: events u ++ events y)%list.
    split.
    + cbn [List.app]. now rewrite <- app_assoc.
    + unfold closes. cbn [flat_map close_of List.app].
      rewrite flat_map_app, Hu, Hy. reflexivity.
  - apply Z.eqb_neq in E3. right. exists c1, c2, c3, s2, hd1, hd2.
    cbn zeta. fold u. fold y. repeat split; auto.
Qed.

(** A run of [dbus_proxy_start]: it stops before a parent exists, or it
    is the parent's configuration followed, when that returns, by the
    wait. *)
Lemma start_run hd s :
  let r := interp h (dbus_proxy_start hd) s in
  let d := interp h dbus_create_user_dir s in
  (exists x, result r = Halted x /\ reads (events r) = [] /\
     (forks (events r) = [] \/ forks (events r) = [-1] \/ forks (events r) = [0])) \/
  (exists sr sw ar aw pid s1,
     let head := (events d ++ [Ev pipe (Some (sr, sw)); Ev pipe (Some (ar, aw));
                               Ev fork pid])%list in
     let hd0 := set_pid (set_status_fd hd (Z.of_N sr)) pid in
     let c := interp h (dbus_proxy_start_configure hd0
                          (Z.of_N sw) (Z.of_N ar) (Z.of_N aw)) s1 in
     let w hd1 := interp h (dbus_proxy_start_wait hd1 (Z.of_N sr)) (final c) in
     pid <> -1 /\ pid <> 0 /\ result d = Done tt /\
     match result c with
     | Halted x => events r = (head ++ events c)%list /\ result r = Halted x
     | Done hd1 =>
         events r = (head ++ events c ++ events (w hd1))%list /\
         result r = result (w hd1)
     end).
Proof.
  cbn zeta. unfold dbus_proxy_start.
  pose proof (only_calls_silent dir_call h read_of dbus_create_user_dir
                dir_call_read only_calls_create_user_dir s) as Hdr.
  pose proof (only_calls_silent dir_call h fork_of dbus_create_user_dir
                dir_call_fork only_calls_create_user_dir s) as Hdf.
  rewrite events_bind, result_bind.
  destruct (result (interp h dbus_create_user_dir s)) as [[]|x] eqn:Ed.
  2:{ left. exists x. rewrite app_nil_r. unfold reads, forks. auto. }
  set (d := interp h dbus_create_user_dir s) in *.
  rewrite events_call_bind, result_call_bind.
  destruct (h _ pipe (final d)) as [[[sr sw]|] s1]; cbn [fst snd].
  2:{ left. eexists. split; [reflexivity|].
      unfold reads, forks. rewrite !flat_map_app, Hdr, Hdf. cbn. auto. }
  rewrite events_call_bind, result_call_bind.
  destruct (h _ pipe s1) as [[[ar aw]|] s2]; cbn [fst snd].
  2:{ left. eexists. split; [reflexivity|].
      unfold reads, forks. rewrite !flat_map_app, Hdr, Hdf. cbn. auto. }
  rewrite events_call_bind, result_call_bind.
  destruct (h _ fork s2) as [pid s3]; cbn [fst snd].
  destruct (pid =? -1) eqn:E1.
  { apply Z.eqb_eq in E1. subst pid. left. eexists. split; [reflexivity|].
    unfold reads, forks. rewrite !flat_map_app, Hdr, Hdf. cbn. auto. }
  destruct (pid =? 0) eqn:E0.
  { apply Z.eqb_eq in E0. subst pid. left.
    pose proof (child_never_done ProxyHandle (Z.of_N sw) (Z.of_N ar) s3) as Hc.
    destruct (result (interp h (dbus_proxy_start_child (Z.of_N sw) (Z.of_N ar)) s3))
      as [a|x] eqn:Ec; [now elim (Hc a)|].
    exists x. split; [reflexivity|].
    pose proof (only_calls_silent child_call h read_of _ child_call_read
                  (only_calls_child ProxyHandle (Z.of_N sw) (Z.of_N ar)) s3) as Hcr.
    pose proof (only_calls_silent child_call h fork_of _ child_call_fork
                  (only_calls_child ProxyHandle (Z.of_N sw) (Z.of_N ar)) s3) as Hcf.
    unfold reads, forks. rewrite !flat_map_app, Hdr, Hdf.
    cbn [flat_map read_of fork_of List.app]. rewrite Hcr, Hcf. auto. }
  apply Z.eqb_neq in E1, E0. right. exists sr, sw, ar, aw, pid, s3.
  cbn zeta. repeat split; auto.
  rewrite events_bind, result_bind.
  destruct (result (interp h (dbus_proxy_start_configure _ _ _ _) s3)).
  - split; [|reflexivity]. rewrite <- app_assoc. reflexivity.
  - split; [|reflexivity]. rewrite <- app_assoc, app_nil_r. reflexivity.
Qed.

End StartAnatomy.

Lemma split_at_close (A : list event) : forall x B pre y rest,
  (A ++ x :: B = pre ++ y :: rest)%list ->
  List.length (closes A) = List.length (closes pre) ->
  close_of x <> [] -> close_of y <> [] ->
  A = pre /\ x = y /\ B = rest.
Proof.
  induction A as [|a A IH]; intros x B pre y rest H Hlen Hx Hy.
  - destruct pre as [|e pre]; cbn in H.
    + injection H as -> ->. auto.
    + injection H as -> _. exfalso. cbn in Hlen.
      unfold closes in Hlen. cbn [flat_map] in Hlen.
      rewrite length_app in Hlen. destruct (close_of e); [congruence | cbn in Hlen; lia].
  - destruct pre as [|e pre]; cbn in H.
    + injection H as -> _. exfalso.
      unfold closes in Hlen. cbn [flat_map] in Hlen.
      rewrite length_app in Hlen. destruct (close_of y); [congruence | cbn in Hlen; lia].
    + injection H as -> H. unfold closes in Hlen. cbn [flat_map] in Hlen.
      rewrite !length_app in Hlen.
      destruct (IH x B pre y rest H) as (-> & -> & ->); auto.
      unfold closes. lia.
Qed.

Section ConfigureHandle.

Context {St : Type} (h : handler St).

(** The configuration of a bus leaves the process id and the status
    descriptor of the handle alone. *)
Lemma start_user_handle hd args_w s hd1 :
  result (interp h (dbus_proxy_start_user hd args_w) s) = Done hd1 ->
  dbus_proxy_pid hd1 = dbus_proxy_pid hd /\
  dbus_proxy_status_fd hd1 = dbus_proxy_status_fd hd /\
  dbus_system_proxy_socket hd1 = dbus_system_proxy_socket hd /\
  (if policy_eqb (arg_dbus_user cfg) DBUS_POLICY_FILTER
   then exists socket, dbus_user_proxy_socket hd1 = Alloc socket
   else dbus_user_proxy_socket hd1 = dbus_user_proxy_socket hd).
Proof.
  unfold dbus_proxy_start_user.
  destruct (policy_eqb (arg_dbus_user cfg) DBUS_POLICY_FILTER).
  - rewrite result_call_bind.
    intros H.
    repeat (apply bind_done in H as (? & _ & H & _ & _)).
    cbn in H. injection H as <-. cbn. eauto.
  - cbn. intros H. injection H as <-. auto.
Qed.

Lemma start_system_handle hd args_w s hd1 :
  result (interp h (dbus_proxy_start_system hd args_w) s) = Done hd1 ->
  dbus_proxy_pid hd1 = dbus_proxy_pid hd /\
  dbus_proxy_status_fd hd1 = dbus_proxy_status_fd hd /\
  dbus_user_proxy_socket hd1 = dbus_user_proxy_socket hd /\
  (if policy_eqb (arg_dbus_system cfg) DBUS_POLICY_FILTER
   then exists socket, dbus_system_proxy_socket hd1 = Alloc socket
   else dbus_system_proxy_socket hd1 = dbus_system_proxy_socket hd).
Proof.
  unfold dbus_proxy_start_system.
  destruct (policy_eqb (arg_dbus_system cfg) DBUS_POLICY_FILTER).
  - intros H.
    repeat (apply bind_done in H as (? & _ & H & _ & _)).
    cbn in H. injection H as <-. cbn. eauto.
  - cbn. intros H. injection H as <-. auto.
Qed.

End ConfigureHandle.

(** C5: in [dbus_proxy_start], once the parent has closed the write end
    of the arguments pipe it reads the status pipe exactly once, one byte,
    and nothing was read before.  One byte read: the start succeeds.  No
    byte (end of file): the parent reports it, waits for the child and
    exits with status -1.  An error: the parent aborts at once.  [read]
    with a count of one returns nothing else; the [default] branch of the
    code, an assertion failure, stands for any other value. *)
Theorem dbus_proxy_start_status_read
    (St : Type) (h : handler St) (s : St) (hd : ProxyHandle)
    (pre : list event) (status_r args_w : N) (pid c : Z) (rest : list event) :
  let r := interp h (dbus_proxy_start hd) s in
  parent_closed_arguments_pipe (events r) pre status_r args_w pid c rest ->
  reads pre = [] /\
  exists n tail,
    rest = Ev (read (Z.of_N status_r) 1) n :: tail /\ reads tail = [] /\
    ((n = 1 /\ exists hd', result r = Done hd') \/
     (n = 0 /\ result r = Halted (Exit (-1)) /\ fatal (Exit (-1)) = true /\
      exists st,
        tail = [Ev (out_stderr ("xdg-dbus-proxy closed pipe unexpectedly" ++ nl)) tt;
                Ev (waitpid pid) st]) \/
     (n = -1 /\ result r = Halted (ErrExit "read") /\ tail = []) \/
     ((n < -1 \/ 1 < n) /\ result r = Halted AssertFailed /\ tail = [])).
Proof.
  cbn zeta. intros (Ht & (status_w & args_r & Hpipes) & Hforks & Hp0 & Hp1 & Hcl & Hc).
  assert (Hf : forks (events (interp h (dbus_proxy_start hd) s)) = (pid :: forks rest)).
  { rewrite Ht. unfold forks in *. rewrite flat_map_app, Hforks. reflexivity. }
  assert (Hcn : (3 <= List.length (closes (events (interp h (dbus_proxy_start hd) s))))%nat).
  { rewrite Ht. unfold closes in *. rewrite flat_map_app, length_app, Hcl.
    cbn. lia. }
  destruct (start_run h hd s) as [(x & _ & _ & [E | [E | E]]) |
    (sr & sw & ar & aw & pid0 & s1 & Hn1 & Hn0 & Hd & Hrun)];
    try (rewrite E in Hf; congruence).
  cbn zeta in Hrun.
  set (d := interp h dbus_create_user_dir s) in *.
  set (hd0 := set_pid (set_status_fd hd (Z.of_N sr)) pid0) in *.
  set (head := (events d ++ [Ev pipe (Some (sr, sw)); Ev pipe (Some (ar, aw));
                             Ev fork pid0])%list) in *.
  assert (Hdir : forall X (f : event -> list X), silent_on dir_call f ->
                 flat_map f (events d) = []).
  { intros X f Hs. apply (only_calls_silent dir_call h f _ Hs only_calls_create_user_dir). }
  assert (Hhc : closes head = []).
  { unfold head, closes. rewrite flat_map_app, (Hdir _ _ dir_call_close). reflexivity. }
  assert (Hhr : reads head = []).
  { unfold head, reads. rewrite flat_map_app, (Hdir _ _ dir_call_read). reflexivity. }
  assert (Hhp : pipes head = [(sr, sw); (ar, aw)]).
  { unfold head, pipes. rewrite flat_map_app, (Hdir _ _ dir_call_pipe). reflexivity. }
  assert (Hhf : forks head = [pid0]).
  { unfold head, forks. rewrite flat_map_app, (Hdir _ _ dir_call_fork). reflexivity. }
  destruct (configure_run h hd0 (Z.of_N sw) (Z.of_N ar) (Z.of_N aw) s1)
    as [(x & Hx & Hshort) | (c1 & c2 & c3 & s2 & hd1 & hd2 & Hu & Hy & Hc3 & Hdone & Hev)].
  - rewrite Hx in Hrun. destruct Hrun as [Hev Hres].
    destruct Hshort as [Hle | (mid & Hmid & Hmidlen)].
    + exfalso. rewrite Hev in Hcn. unfold closes in *.
      rewrite flat_map_app, length_app, Hhc in Hcn. cbn [List.length] in Hcn. lia.
    + exfalso. rewrite Hmid, app_assoc in Hev. rewrite Hev in Ht.
      apply split_at_close in Ht as (_ & Hxy & _); try (cbn; discriminate).
      * apply (f_equal close_of) in Hxy. cbn in Hxy. congruence.
      * unfold closes in *. rewrite flat_map_app, length_app, Hhc, Hmidlen, Hcl.
        reflexivity.
  - cbn zeta in Hu, Hy, Hev. rewrite Hdone in Hrun. destruct Hrun as [Hevr Hres].
    set (u := interp h (dbus_proxy_start_user hd0 (Z.of_N aw)) s2) in *.
    set (y := interp h (dbus_proxy_start_system hd1 (Z.of_N aw)) (final u)) in *.
    set (c0 := interp h (dbus_proxy_start_configure hd0 (Z.of_N sw) (Z.of_N ar)
                            (Z.of_N aw)) s1) in *.
    set (w := interp h (dbus_proxy_start_wait hd2 (Z.of_N sr)) (final c0)) in *.
    assert (Hus : forall X (f : event -> list X), silent_on config_call f ->
                  flat_map f (events u) = []).
    { intros X f Hs. apply (only_calls_silent config_call h f _ Hs),
        only_calls_start_user. }
    assert (Hys : forall X (f : event -> list X), silent_on config_call f ->
                  flat_map f (events y) = []).
    { intros X f Hs. apply (only_calls_silent config_call h f _ Hs),
        only_calls_start_system. }
    set (mid := (Ev (close (Z.of_N sw)) c1 :: Ev (close (Z.of_N ar)) c2 ::
                 events u ++ events y)%list).
    assert (Hsplit : events (interp h (dbus_proxy_start hd) s) =
                     ((head ++ mid) ++ Ev (close (Z.of_N aw)) c3 :: events w)%list).
    { rewrite Hevr, Hev. unfold mid. cbn [List.app].
      rewrite <- !app_assoc. cbn [List.app]. rewrite <- !app_assoc. reflexivity. }
    rewrite Hsplit in Ht.
    apply split_at_close in Ht as (Hpre & Hxy & Hrest); try (cbn; discriminate).
    2:{ unfold closes in *. rewrite flat_map_app, length_app, Hhc, Hcl.
        unfold mid. cbn [flat_map close_of List.app List.length].
        rewrite flat_map_app, (Hus _ _ config_call_close), (Hys _ _ config_call_close).
        reflexivity. }
    subst pre rest.
    assert (Hsr : sr = status_r /\ pid0 = pid).
    { unfold pipes, forks in *. rewrite flat_map_app in Hpipes, Hforks.
      rewrite Hhp in Hpipes. rewrite Hhf in Hforks. unfold mid in Hpipes, Hforks.
      cbn [flat_map pipe_of fork_of List.app] in Hpipes, Hforks.
      rewrite flat_map_app in Hpipes, Hforks.
      rewrite (Hus _ _ config_call_pipe), (Hys _ _ config_call_pipe) in Hpipes.
      rewrite (Hus _ _ config_call_fork), (Hys _ _ config_call_fork) in Hforks.
      cbn in Hpipes, Hforks. split; congruence. }
    destruct Hsr as [<- <-].
    split.
    { unfold reads in *. rewrite flat_map_app, Hhr. unfold mid.
      cbn [flat_map read_of List.app]. rewrite flat_map_app.
      rewrite (Hus _ _ config_call_read), (Hys _ _ config_call_read). reflexivity. }
    destruct (start_user_handle h _ _ _ _ Hu) as (Hp1' & _).
    destruct (start_system_handle h _ _ _ _ Hy) as (Hp2' & _).
    assert (Hpid : dbus_proxy_pid hd2 = pid0) by (rewrite Hp2', Hp1'; reflexivity).
    destruct (wait_run h hd2 (Z.of_N sr) (final c0)) as (tail & Hw & Htail & Hcases).
    fold w in Hw, Hcases.
    exists (fst (h Z (read (Z.of_N sr) 1) (final c0))), tail.
    split; [exact Hw|]. split; [exact Htail|]. rewrite Hres.
    destruct Hcases as [(Hn & Hr & _) | [(Hn & Hr & st & Ht')
                       | [(Hn & Hr & Ht') | (Hn & Hr & Ht')]]].
    + left. split; [exact Hn|]. now exists hd2.
    + right; left. repeat split; auto. exists st. now rewrite <- Hpid.
    + right; right; left. auto.
    + right; right; right. auto.
Qed.

(** ** SocketOverlay *)




(** ** The handle across [start], [apply] and [stop] *)

(** Takes apart a hypothesis that a program returned. *)
Ltac returned H :=
  repeat match type of H with
    | result (interp _ (bind _ _) _) = Done _ =>
        let x := fresh "x" in
        let Hx := fresh "Hx" in
        apply bind_done in H as (x & Hx & H & _ & _)
    | result (interp _ (when ?b _) _) = Done _ => clear H
    | result (interp _ (call _) _) = Done _ => clear H
    | result (interp _ (if ?b then _ else _) _) = Done _ => destruct b eqn:?
    | result (interp _ (match ?x with _ => _ end) _) = Done _ => destruct x eqn:?
    | result (interp _ (Halt _) _) = Done _ => discriminate H
    | result (interp _ (errExit _) _) = Done _ => discriminate H
    | result (interp _ (Ret _) _) = Done _ => cbn in H; injection H as H
    end.

Section HandleSteps.

Context {St : Type} (h : handler St).

Lemma start_handle hd0 s hd :
  result (interp h (dbus_proxy_start hd0) s) = Done hd ->
  dbus_proxy_pid hd <> 0 /\ 0 <= dbus_proxy_status_fd hd /\
  (if policy_eqb (arg_dbus_user cfg) DBUS_POLICY_FILTER
   then socket_set (dbus_user_proxy_socket hd)
   else dbus_user_proxy_socket hd = dbus_user_proxy_socket hd0) /\
  (if policy_eqb (arg_dbus_system cfg) DBUS_POLICY_FILTER
   then socket_set (dbus_system_proxy_socket hd)
   else dbus_system_proxy_socket hd = dbus_system_proxy_socket hd0).
Proof.
  intros H.
  destruct (start_run h hd0 s) as [(x & Hx & _) |
    (sr & sw & ar & aw & pid & s1 & Hn1 & Hn0 & _ & Hrun)]; [congruence|].
  cbn zeta in Hrun.
  destruct (configure_run h (set_pid (set_status_fd hd0 (Z.of_N sr)) pid)
              (Z.of_N sw) (Z.of_N ar) (Z.of_N aw) s1)
    as [(x & Hx & _) | (c1 & c2 & c3 & s2 & hd1 & hd2 & Hu & Hy & _ & Hdone & _)].
  { rewrite Hx in Hrun. destruct Hrun. congruence. }
  cbn zeta in Hu, Hy. rewrite Hdone in Hrun. destruct Hrun as [_ Hres].
  rewrite H in Hres.
  destruct (wait_run h hd2 (Z.of_N sr)
              (final (interp h (dbus_proxy_start_configure
                                  (set_pid (set_status_fd hd0 (Z.of_N sr)) pid)
                                  (Z.of_N sw) (Z.of_N ar) (Z.of_N aw)) s1)))
    as (tail & _ & _ & [(_ & Hr & _) | [(_ & Hr & _) | [(_ & Hr & _) | (_ & Hr & _)]]]);
    rewrite Hr in Hres; try discriminate.
  injection Hres as ->.
  destruct (start_user_handle h _ _ _ _ Hu) as (Hp1 & Hf1 & Hs1 & Hu1).
  destruct (start_system_handle h _ _ _ _ Hy) as (Hp2 & Hf2 & Hu2 & Hs2).
  rewrite Hp2, Hp1, Hf2, Hf1, Hu2. cbn [set_pid set_status_fd dbus_proxy_pid
    dbus_proxy_status_fd dbus_user_proxy_socket dbus_system_proxy_socket] in *.
  repeat split; auto; try lia.
  destruct (policy_eqb (arg_dbus_system cfg) DBUS_POLICY_FILTER); [assumption|].
  now rewrite Hs2, Hs1.
Qed.

Lemma after_free_null p : after_free p = NULL <-> p = NULL.
Proof. destruct p; cbn; split; congruence. Qed.

Lemma apply_handle hd0 s hd :
  result (interp h (dbus_apply_policy hd0) s) = Done hd ->
  dbus_proxy_pid hd = dbus_proxy_pid hd0 /\
  dbus_proxy_status_fd hd = dbus_proxy_status_fd hd0 /\
  (dbus_user_proxy_socket hd = NULL <-> dbus_user_proxy_socket hd0 = NULL) /\
  (dbus_system_proxy_socket hd = NULL <-> dbus_system_proxy_socket hd0 = NULL).
Proof.
  unfold dbus_apply_policy. intros H.
  returned H.
  all: repeat match goal with
         | Hx : result (interp _ _ _) = Done _ |- _ => progress (returned Hx)
         end.
  all: subst.
  all: cbn [set_user_socket set_system_socket dbus_proxy_pid dbus_proxy_status_fd
            dbus_user_proxy_socket dbus_system_proxy_socket].
  all: rewrite ?after_free_null.
  all: repeat split; auto.
Qed.

Lemma stop_handle hd0 s hd :
  result (interp h (dbus_proxy_stop hd0) s) = Done hd ->
  (dbus_proxy_pid hd0 = 0 /\ hd = hd0) \/
  (dbus_proxy_pid hd0 <> 0 /\ hd = initial_handle).
Proof.
  unfold dbus_proxy_stop. intros H.
  destruct (dbus_proxy_pid hd0 =? 0) eqn:Ep.
  { apply Z.eqb_eq in Ep. cbn in H. injection H as <-. auto. }
  apply Z.eqb_neq in Ep. right. split; [assumption|].
  returned H.
  all: repeat match goal with
         | Hx : result (interp _ _ _) = Done _ |- _ => progress (returned Hx)
         end.
  all: subst.
  all: destruct hd0 as [pid0 fd0 [|u|] [|y|]]; cbn in *; try discriminate;
    reflexivity.
Qed.

End HandleSteps.

Section Lifecycle.

Context {St : Type} (h : handler St).

Lemma policy_eqb_eq a b : policy_eqb a b = true <-> a = b.
Proof. destruct a, b; cbn; split; congruence. Qed.

Lemma socket_set_not_null p : socket_set p -> p <> NULL.
Proof. intros [path ->]. discriminate. Qed.

Lemma perform_reachable o hd0 s hd :
  reachable_handle hd0 ->
  result (interp h (perform o hd0) s) = Done hd ->
  reachable_handle hd.
Proof.
  intros (J1 & J2 & J3 & J4) H. destruct o; cbn [perform] in H.
  - apply start_handle in H as (Hp & Hf & Hu & Hs).
    repeat split; try contradiction; auto.
    + intros Hne. destruct (policy_eqb (arg_dbus_user cfg) DBUS_POLICY_FILTER) eqn:E.
      * now apply policy_eqb_eq.
      * rewrite Hu in Hne. auto.
    + intros Hne. destruct (policy_eqb (arg_dbus_system cfg) DBUS_POLICY_FILTER) eqn:E.
      * now apply policy_eqb_eq.
      * rewrite Hs in Hne. auto.
  - apply apply_handle in H as (Hp & Hf & Hu & Hs).
    unfold reachable_handle. rewrite Hp, Hf. repeat split; auto.
    + apply Hu. now apply J1.
    + apply Hs. now apply J1.
    + now apply J1.
    + intros Hne. apply J3. intros E. apply Hne, Hu, E.
    + intros Hne. apply J4. intros E. apply Hne, Hs, E.
  - apply stop_handle in H as [[_ ->] | [_ ->]].
    + repeat split; auto; now apply J1.
    + repeat split; cbn; auto; congruence.
Qed.

Lemma perform_all_reachable ops : forall hd0 s hd,
  reachable_handle hd0 ->
  result (interp h (perform_all ops hd0) s) = Done hd ->
  reachable_handle hd.
Proof.
  induction ops as [|o ops IH]; intros hd0 s hd J H.
  - cbn in H. injection H as <-. assumption.
  - cbn [perform_all] in H. apply bind_done in H as (hd1 & H1 & H & _ & _).
    eapply IH; [|exact H]. eapply perform_reachable; eassumption.
Qed.

Lemma perform_all_last before o : forall hd0 s hd,
  result (interp h (perform_all (before ++ [o]) hd0) s) = Done hd ->
  exists hd1 s1,
    result (interp h (perform_all before hd0) s) = Done hd1 /\
    result (interp h (perform o hd1) s1) = Done hd.
Proof.
  induction before as [|o' before IH]; intros hd0 s hd H.
  - cbn [List.app perform_all] in H. apply bind_done in H as (hd1 & H1 & H & _ & _).
    cbn in H. injection H as <-. exists hd0, s. split; [reflexivity | assumption].
  - cbn [List.app perform_all] in H. apply bind_done in H as (hd1 & H1 & H & _ & _).
    apply IH in H as (hd2 & s2 & H2 & H3). exists hd2, s2. split; [|assumption].
    cbn [perform_all]. rewrite result_bind, H1. assumption.
Qed.

Lemma initial_reachable : reachable_handle initial_handle.
Proof. repeat split; cbn; congruence. Qed.

End Lifecycle.

(** X19: what does hold of the handle.  After every sequence of [start],
    [apply] and [stop] that runs to its end, the process id is zero
    exactly when both proxy socket paths are unset and the status
    descriptor is invalid; when the last operation is a [start], each
    bus's socket path is set exactly when that bus's policy is Filter, and
    the process id is not zero; when the last operation is a [stop], the
    process id is zero, the descriptor is -1 and both paths are null. *)
Lemma proxy_handle_lifecycle
    (St : Type) (h : handler St) (s : St) (ops : list operation) (hd : ProxyHandle) :
  result (interp h (perform_all ops initial_handle) s) = Done hd ->
  handle_invariant hd /\
  (forall before, ops = (before ++ [op_start])%list ->
     (socket_set (dbus_user_proxy_socket hd) <->
      arg_dbus_user cfg = DBUS_POLICY_FILTER) /\
     (socket_set (dbus_system_proxy_socket hd) <->
      arg_dbus_system cfg = DBUS_POLICY_FILTER) /\
     dbus_proxy_pid hd <> 0) /\
  (forall before, ops = (before ++ [op_stop])%list ->
     dbus_proxy_pid hd = 0 /\ dbus_proxy_status_fd hd = -1 /\
     dbus_user_proxy_socket hd = NULL /\ dbus_system_proxy_socket hd = NULL).
Proof.
  intros H.
  pose proof (perform_all_reachable h ops _ _ _ initial_reachable H) as (J1 & J2 & J3 & J4).
  split; [|split].
  - unfold handle_invariant. split.
    + intros Hp. destruct (J1 Hp) as (? & ? & ?). repeat split; auto. lia.
    + intros (_ & _ & Hf). destruct (Z.eq_dec (dbus_proxy_pid hd) 0) as [|Hne];
        [assumption|]. specialize (J2 Hne). lia.
  - intros before ->. apply perform_all_last in H as (hd1 & s1 & Hb & Hs).
    pose proof (perform_all_reachable h before _ _ _ initial_reachable Hb)
      as (K1 & K2 & K3 & K4).
    cbn [perform] in Hs. apply start_handle in Hs as (Hp & Hf & Hu & Hy).
    repeat split; auto.
    + intros Hset. apply J3. now apply socket_set_not_null.
    + intros E. apply policy_eqb_eq in E. now rewrite E in Hu.
    + intros Hset. apply J4. now apply socket_set_not_null.
    + intros E. apply policy_eqb_eq in E. now rewrite E in Hy.
  - intros before ->. apply perform_all_last in H as (hd1 & s1 & Hb & Hs).
    pose proof (perform_all_reachable h before _ _ _ initial_reachable Hb)
      as (K1 & K2 & K3 & K4).
    cbn [perform] in Hs. apply stop_handle in Hs as [[Hp ->] | [_ ->]].
    + destruct (K1 Hp) as (? & ? & ?). auto.
    + cbn. auto.
Qed.

(** A [stop] that finds a socket path freed and not reset, as [apply]
    leaves it, does not run to its end. *)
Lemma stop_after_apply_is_undefined
    (St : Type) (h : handler St) (s : St) (hd : ProxyHandle) :
  dbus_proxy_pid hd <> 0 -> 0 <= dbus_proxy_status_fd hd ->
  dbus_user_proxy_socket hd = Freed ->
  forall hd', result (interp h (dbus_proxy_stop hd) s) <> Done hd'.
Proof.
  intros Hp Hf Hu hd' H. unfold dbus_proxy_stop in H.
  apply Z.eqb_neq in Hp. rewrite Hp in H.
  destruct hd as [pid fd u y]. cbn in Hu. subst u.
  returned H.
  all: repeat match goal with
         | Hx : result (interp _ _ _) = Done _ |- _ => progress (returned Hx)
         end.
  all: cbn in *; discriminate.
Qed.


(** ** The arguments pipe *)

Lemma no_percent_app (a b : string) :
  no_percent (a ++ b) = no_percent a && no_percent b.
Proof.
  induction a as [|c a IH]; cbn; [reflexivity|]. now rewrite IH, andb_assoc.
Qed.

Lemma no_percent_uint (d : Decimal.uint) :
  no_percent (NilEmpty.string_of_uint d) = true.
Proof. induction d; cbn; auto. Qed.

Lemma no_percent_decimal (z : Z) : no_percent (decimal z) = true.
Proof.
  unfold decimal, Z_to_string.
  destruct (Z.to_int (int_cast z)); cbn; apply no_percent_uint.
Qed.

Lemma vasprintf_plain (format : string) : forall ap,
  no_percent format = true -> vasprintf format ap = Some format.
Proof.
  induction format as [|c f IH]; intros ap H; [reflexivity|].
  cbn [no_percent] in H. apply andb_prop in H as [Hc Hf].
  cbn [vasprintf]. rewrite Hc, (IH ap Hf). reflexivity.
Qed.

Lemma vasprintf_app (a format : string) : forall ap,
  no_percent a = true ->
  vasprintf (a ++ format) ap = option_map (String.append a) (vasprintf format ap).
Proof.
  induction a as [|c a IH]; intros ap H.
  - cbn. now destruct (vasprintf format ap).
  - cbn [no_percent] in H. apply andb_prop in H as [Hc Ha].
    cbn [String.append vasprintf]. rewrite Hc, (IH ap Ha).
    now destruct (vasprintf format ap).
Qed.

Section Arguments.

Context {St : Type} (h : handler St).

Lemma wait_writes hd status_r s :
  writes (events (interp h (dbus_proxy_start_wait hd status_r) s)) = [].
Proof.
  unfold dbus_proxy_start_wait. rewrite events_call_bind.
  destruct (h Z (read status_r 1) s) as [n s1]. cbn [fst snd].
  destruct (n =? -1); [reflexivity|].
  destruct (n =? 0).
  { unfold events. cbn. reflexivity. }
  destruct (n =? 1); [|reflexivity].
  destruct (arg_debug cfg); reflexivity.
Qed.

Lemma asprintf_done format ap s path :
  result (interp h (asprintf format ap) s) = Done path ->
  vasprintf format ap = Some path /\
  writes (events (interp h (asprintf format ap) s)) = [] /\
  getenvs (events (interp h (asprintf format ap) s)) = [].
Proof.
  unfold asprintf. destruct (vasprintf format ap) as [p|]; [|discriminate].
  rewrite result_call_bind, events_call_bind.
  destruct (h bool (allocate p) s) as [[|] s1]; cbn [fst snd]; [|discriminate].
  intros H. cbn in H. injection H as <-. auto.
Qed.

Lemma write_arg_getenvs fd format ap s :
  getenvs (events (interp h (write_arg fd format ap) s)) = [].
Proof.
  apply (only_calls_silent output_call h getenv_of _ output_call_getenv),
    only_output_write_arg.
Qed.

Lemma write_profile_getenvs lines fd prefix s :
  getenvs (events (interp h (write_profile_from lines fd prefix) s)) = [].
Proof.
  apply (only_calls_silent output_call h getenv_of _ output_call_getenv),
    only_output_write_profile.
Qed.

Hypothesis plain_directory : no_percent RUN_FIREJAIL_DBUS_DIR = true.
Hypothesis profile_lines : Forall c_string (cfg_profile cfg).

Lemma vasprintf_user_socket :
  vasprintf DBUS_USER_PROXY_SOCKET_FORMAT [ArgInt (getuid cfg); ArgInt (getpid cfg)]
  = Some user_proxy_socket_path.
Proof.
  unfold DBUS_USER_PROXY_SOCKET_FORMAT, DBUS_USER_DIR_FORMAT.
  rewrite append_assoc, vasprintf_app by assumption. reflexivity.
Qed.

Lemma vasprintf_system_socket :
  vasprintf DBUS_SYSTEM_PROXY_SOCKET_FORMAT [ArgInt (getuid cfg); ArgInt (getpid cfg)]
  = Some system_proxy_socket_path.
Proof.
  unfold DBUS_SYSTEM_PROXY_SOCKET_FORMAT, DBUS_USER_DIR_FORMAT.
  rewrite append_assoc, vasprintf_app by assumption. reflexivity.
Qed.

Lemma no_percent_user_socket : no_percent user_proxy_socket_path = true.
Proof.
  unfold user_proxy_socket_path.
  rewrite !no_percent_app, plain_directory, !no_percent_decimal. reflexivity.
Qed.

Lemma no_percent_system_socket : no_percent system_proxy_socket_path = true.
Proof.
  unfold system_proxy_socket_path.
  rewrite !no_percent_app, plain_directory, !no_percent_decimal. reflexivity.
Qed.

(** The configuration of the user bus, when it returns. *)
Lemma start_user_done hd args_w s hd1 :
  let u := interp h (dbus_proxy_start_user hd args_w) s in
  result u = Done hd1 ->
  plain_addresses (events u) ->
  if policy_eqb (arg_dbus_user cfg) DBUS_POLICY_FILTER then
    exists env,
      getenvs (events u) = [env] /\
      hd1 = set_user_socket hd (Alloc user_proxy_socket_path) /\
      writes (events u) =
      map (fun a => (args_w, nul_terminated a))
        ([user_bus_address env; user_proxy_socket_path; "--filter"]
           ++ collect_arguments "dbus-user" (cfg_profile cfg))
  else events u = [] /\ hd1 = hd.
Proof.
  cbn zeta. unfold dbus_proxy_start_user.
  destruct (policy_eqb (arg_dbus_user cfg) DBUS_POLICY_FILTER).
  2:{ intros H _. cbn in H. injection H as <-. auto. }
  rewrite result_call_bind, events_call_bind.
  destruct (h _ (getenv DBUS_SESSION_BUS_ADDRESS_ENV) s) as [env s1].
  cbn [fst snd]. intros H Hplain. exists env.
  apply bind_done in H as ([] & Ha & H & _ & _).
  rewrite (events_bind_done _ _ _ _ _ Ha).
  apply bind_done in H as (socket & Hs & H & _ & _).
  rewrite (events_bind_done _ _ _ _ _ Hs).
  apply asprintf_done in Hs as (Hsock & Hsw & Hsg).
  rewrite vasprintf_user_socket in Hsock. injection Hsock as <-.
  apply bind_done in H as ([] & Hb & H & _ & _).
  rewrite (events_bind_done _ _ _ _ _ Hb).
  apply bind_done in H as ([] & Hc & H & _ & _).
  rewrite (events_bind_done _ _ _ _ _ Hc).
  apply bind_done in H as ([] & Hd & H & _ & _).
  rewrite (events_bind_done _ _ _ _ _ Hd).
  cbn in H. injection H as <-.
  rewrite events_ret, app_nil_r.
  assert (Haddr : exists addr,
             writes (events (interp h
               match env with
               | Some e => write_arg args_w e []
               | None => write_arg args_w DBUS_USER_SOCKET_PATH_FORMAT
                           [ArgInt (getuid cfg)]
               end s1)) = [(args_w, nul_terminated addr)] /\
             addr = user_bus_address env).
  { destruct env as [e|].
    - destruct (write_arg_done h _ _ _ _ Ha) as (arg & Harg & Hw).
      exists arg. split; [assumption|].
      rewrite vasprintf_plain in Harg; [now injection Harg as <-|].
      apply Hplain. unfold getenvs. cbn. auto.
    - destruct (write_arg_done h _ _ _ _ Ha) as (arg & Harg & Hw).
      exists arg. split; [assumption|]. cbn in Harg. now injection Harg as <-. }
  destruct Haddr as (addr & Hwa & ->).
  destruct (write_arg_done h _ _ _ _ Hb) as (arg2 & Harg2 & Hw2).
  rewrite vasprintf_plain in Harg2 by apply no_percent_user_socket.
  injection Harg2 as <-.
  destruct (write_arg_done h _ _ _ _ Hc) as (arg3 & Harg3 & Hw3).
  cbn in Harg3. injection Harg3 as <-.
  assert (Hcs : c_string "dbus-user") by (cbn; repeat split; reflexivity).
  pose proof (fun s => write_profile_from_collect St h args_w "dbus-user" Hcs
                          (cfg_profile cfg) s profile_lines) as Hcol.
  cbn zeta in Hcol. pose proof (proj2 (Hcol _) Hd) as Hw4. clear Hcol.
  change ("dbus-user" ++ ".") with "dbus-user." in Hw4.
  pose proof (write_arg_getenvs) as Hg.
  pose proof (write_profile_getenvs) as Hgp.
  unfold write_profile in *.
  unfold getenvs, writes in *.
  cbn [flat_map getenv_of write_of List.app]. rewrite !flat_map_app.
  rewrite Hsg, Hsw, Hw2, Hw3, Hw4, !Hg, Hgp.
  split; [|split; [reflexivity|]].
  - destruct env; rewrite Hg; reflexivity.
  - rewrite Hwa. reflexivity.
Qed.

(** The configuration of the system bus, when it returns. *)
Lemma start_system_done hd args_w s hd1 :
  let y := interp h (dbus_proxy_start_system hd args_w) s in
  result y = Done hd1 ->
  if policy_eqb (arg_dbus_system cfg) DBUS_POLICY_FILTER then
    getenvs (events y) = [] /\
    hd1 = set_system_socket hd (Alloc system_proxy_socket_path) /\
    writes (events y) =
    map (fun a => (args_w, nul_terminated a))
      ([DBUS_SYSTEM_SOCKET_PATH; system_proxy_socket_path; "--filter"]
         ++ collect_arguments "dbus-system" (cfg_profile cfg))
  else events y = [] /\ hd1 = hd.
Proof.
  cbn zeta. unfold dbus_proxy_start_system.
  destruct (policy_eqb (arg_dbus_system cfg) DBUS_POLICY_FILTER).
  2:{ intros H. cbn in H. injection H as <-. auto. }
  intros H.
  apply bind_done in H as ([] & Ha & H & _ & _).
  rewrite (events_bind_done _ _ _ _ _ Ha).
  apply bind_done in H as (socket & Hs & H & _ & _).
  rewrite (events_bind_done _ _ _ _ _ Hs).
  apply asprintf_done in Hs as (Hsock & Hsw & Hsg).
  rewrite vasprintf_system_socket in Hsock. injection Hsock as <-.
  apply bind_done in H as ([] & Hb & H & _ & _).
  rewrite (events_bind_done _ _ _ _ _ Hb).
  apply bind_done in H as ([] & Hc & H & _ & _).
  rewrite (events_bind_done _ _ _ _ _ Hc).
  apply bind_done in H as ([] & Hd & H & _ & _).
  rewrite (events_bind_done _ _ _ _ _ Hd).
  cbn in H. injection H as <-.
  rewrite events_ret, app_nil_r.
  destruct (write_arg_done h _ _ _ _ Ha) as (arg1 & Harg1 & Hw1).
  cbn in Harg1. injection Harg1 as <-.
  destruct (write_arg_done h _ _ _ _ Hb) as (arg2 & Harg2 & Hw2).
  rewrite vasprintf_plain in Harg2 by apply no_percent_system_socket.
  injection Harg2 as <-.
  destruct (write_arg_done h _ _ _ _ Hc) as (arg3 & Harg3 & Hw3).
  cbn in Harg3. injection Harg3 as <-.
  assert (Hcs : c_string "dbus-system") by (cbn; repeat split; reflexivity).
  pose proof (fun s => write_profile_from_collect St h args_w "dbus-system" Hcs
                          (cfg_profile cfg) s profile_lines) as Hcol.
  cbn zeta in Hcol. pose proof (proj2 (Hcol _) Hd) as Hw4. clear Hcol.
  change ("dbus-system" ++ ".") with "dbus-system." in Hw4.
  pose proof (write_arg_getenvs) as Hg.
  pose proof (write_profile_getenvs) as Hgp.
  unfold write_profile in *.
  unfold getenvs, writes in *.
  rewrite !flat_map_app.
  rewrite Hsg, Hsw, Hw1, Hw2, Hw3, Hw4, !Hg, Hgp.
  split; [|split]; reflexivity.
Qed.

End Arguments.

(** C4, amended: when [dbus_proxy_start] returns in the parent, what it
    wrote is exactly this, all of it to the write end of the arguments
    pipe and before closing that end, and nothing after: for the user bus
    and then for the system bus, each only if its policy is Filter, the
    NUL-terminated strings of the real bus address, the proxy socket
    path, [--filter], and one [--<name>=<value>] per matching profile
    line in profile order.  The real address of the user bus is the
    session-bus address of the environment whenever the variable is set,
    with no test of its form, and the default for the user otherwise; that
    of the system bus is fixed.  Addresses holding a [%] are left out. *)
Theorem dbus_proxy_start_arguments
    (St : Type) (h : handler St) (s : St) (hd hd' : ProxyHandle) :
  no_percent RUN_FIREJAIL_DBUS_DIR = true ->
  Forall c_string (cfg_profile cfg) ->
  let r := interp h (dbus_proxy_start hd) s in
  result r = Done hd' ->
  plain_addresses (events r) ->
  exists pre args_w c tail,
    events r = (pre ++ Ev (close (Z.of_N args_w)) c :: tail)%list /\
    (exists status_r status_w args_r,
        pipes pre = [(status_r, status_w); (args_r, args_w)]) /\
    c <> -1 /\
    writes pre =
      map (fun a => (Z.of_N args_w, nul_terminated a))
        (start_arguments (session_address (events r))) /\
    writes tail = [].
Proof.
  intros Hdir Hlines. cbn zeta. intros H Hplain.
  destruct (start_run h hd s) as [(x & Hx & _) |
    (sr & sw & ar & aw & pid & s1 & Hn1 & Hn0 & _ & Hrun)]; [congruence|].
  cbn zeta in Hrun.
  set (d := interp h dbus_create_user_dir s) in *.
  set (hd0 := set_pid (set_status_fd hd (Z.of_N sr)) pid) in *.
  set (head := (events d ++ [Ev pipe (Some (sr, sw)); Ev pipe (Some (ar, aw));
                             Ev fork pid])%list) in *.
  assert (Hd : forall X (f : event -> list X), silent_on dir_call f ->
               flat_map f (events d) = []).
  { intros X f Hs. apply (only_calls_silent dir_call h f _ Hs only_calls_create_user_dir). }
  destruct (configure_run h hd0 (Z.of_N sw) (Z.of_N ar) (Z.of_N aw) s1)
    as [(x & Hx & _) | (c1 & c2 & c3 & s2 & hd1 & hd2 & Hu & Hy & Hc3 & Hdone & Hev)].
  { rewrite Hx in Hrun. destruct Hrun. congruence. }
  cbn zeta in Hu, Hy, Hev. rewrite Hdone in Hrun. destruct Hrun as [Hevr Hres].
  set (u := interp h (dbus_proxy_start_user hd0 (Z.of_N aw)) s2) in *.
  set (y := interp h (dbus_proxy_start_system hd1 (Z.of_N aw)) (final u)) in *.
  set (c0 := interp h (dbus_proxy_start_configure hd0 (Z.of_N sw) (Z.of_N ar)
                          (Z.of_N aw)) s1) in *.
  set (w := interp h (dbus_proxy_start_wait hd2 (Z.of_N sr)) (final c0)) in *.
  set (mid := (Ev (close (Z.of_N sw)) c1 :: Ev (close (Z.of_N ar)) c2 ::
               events u ++ events y)%list).
  assert (Hsplit : events (interp h (dbus_proxy_start hd) s) =
                   ((head ++ mid) ++ Ev (close (Z.of_N aw)) c3 :: events w)%list).
  { rewrite Hevr, Hev. unfold mid. cbn [List.app].
    rewrite <- !app_assoc. cbn [List.app]. rewrite <- !app_assoc. reflexivity. }
  assert (Hgr : getenvs (events (interp h (dbus_proxy_start hd) s)) =
                (getenvs (events u) ++ getenvs (events y) ++ getenvs (events w))%list).
  { rewrite Hsplit. unfold getenvs, head, mid. rewrite !flat_map_app.
    rewrite (Hd _ _ dir_call_getenv). cbn [flat_map getenv_of List.app].
    rewrite flat_map_app, <- app_assoc. reflexivity. }
  assert (Hpu : plain_addresses (events u)).
  { intros a Ha. apply Hplain. rewrite Hgr. apply in_or_app. now left. }
  pose proof (start_user_done h Hdir Hlines hd0 (Z.of_N aw) s2 hd1 Hu Hpu) as Hud.
  pose proof (start_system_done h Hdir Hlines hd1 (Z.of_N aw) (final u) hd2 Hy) as Hyd.
  cbn zeta in Hud, Hyd. fold u in Hud. fold y in Hyd.
  assert (Hus : forall X (f : event -> list X), silent_on config_call f ->
                flat_map f (events u) = []).
  { intros X f Hs. apply (only_calls_silent config_call h f _ Hs),
      only_calls_start_user. }
  assert (Hys : forall X (f : event -> list X), silent_on config_call f ->
                flat_map f (events y) = []).
  { intros X f Hs. apply (only_calls_silent config_call h f _ Hs),
      only_calls_start_system. }
  exists (head ++ mid)%list, aw, c3, (events w).
  split; [exact Hsplit|]. split.
  { exists sr, sw, ar. unfold pipes, head, mid. rewrite !flat_map_app.
    rewrite (Hd _ _ dir_call_pipe). cbn [flat_map pipe_of List.app].
    rewrite flat_map_app, (Hus _ _ config_call_pipe), (Hys _ _ config_call_pipe).
    reflexivity. }
  split; [exact Hc3|]. split; [|apply wait_writes].
  unfold writes, head, mid. rewrite !flat_map_app.
  rewrite (Hd _ _ dir_call_write). cbn [flat_map write_of List.app].
  rewrite flat_map_app.
  fold (writes (events u)). fold (writes (events y)).
  unfold start_arguments, arguments_with. rewrite map_app.
  unfold session_address. rewrite Hgr.
  destruct (policy_eqb (arg_dbus_user cfg) DBUS_POLICY_FILTER).
  - destruct Hud as (env & Hge & _ & Hwu). rewrite Hwu, Hge. cbn [List.app].
    f_equal.
    destruct (policy_eqb (arg_dbus_system cfg) DBUS_POLICY_FILTER).
    + destruct Hyd as (_ & _ & Hwy). exact Hwy.
    + destruct Hyd as (Hey & _). rewrite Hey. reflexivity.
  - destruct Hud as (Heu & _). rewrite Heu. cbn [writes flat_map map List.app].
    destruct (policy_eqb (arg_dbus_system cfg) DBUS_POLICY_FILTER).
    + destruct Hyd as (_ & _ & Hwy). exact Hwy.
    + destruct Hyd as (Hey & _). rewrite Hey. reflexivity.
Qed.

(** ** The staging directory *)

Lemma dir_call_no_fork R (c : syscall R) : dir_call R c = true -> no_fork R c = true.
Proof. destruct c; cbn; congruence. Qed.

Lemma config_call_no_fork R (c : syscall R) : config_call R c = true -> no_fork R c = true.
Proof. destruct c; cbn; congruence. Qed.

Lemma child_call_no_fork R (c : syscall R) : child_call R c = true -> no_fork R c = true.
Proof. destruct c; cbn; congruence. Qed.

Lemma no_fork_is_fork (e : event) : event_class no_fork e = true -> is_fork e = false.
Proof. destruct e as [R c r]. destruct c; cbn; congruence. Qed.

Lemma only_calls_wait hd status_r :
  only_calls no_fork (dbus_proxy_start_wait hd status_r).
Proof.
  unfold dbus_proxy_start_wait.
  apply only_calls_bind; [cbn; auto|]. intros n.
  destruct (n =? -1); [exact I|]. destruct (n =? 0).
  { cbn. auto. }
  destruct (n =? 1); [|exact I].
  apply only_calls_bind; [|intros _; exact I].
  apply only_calls_when, only_calls_printf. reflexivity.
Qed.

Lemma only_calls_configure hd status_w args_r args_w :
  only_calls no_fork (dbus_proxy_start_configure hd status_w args_r args_w).
Proof.
  unfold dbus_proxy_start_configure.
  apply only_calls_bind; [cbn; auto|]. intros c1. destruct (c1 =? -1); [exact I|].
  apply only_calls_bind; [cbn; auto|]. intros c2. destruct (c2 =? -1); [exact I|].
  apply only_calls_bind.
  { apply (only_calls_weaken no_fork config_call);
      [apply config_call_no_fork | apply only_calls_start_user]. }
  intros hd1. apply only_calls_bind.
  { apply (only_calls_weaken no_fork config_call);
      [apply config_call_no_fork | apply only_calls_start_system]. }
  intros hd2. apply only_calls_bind; [cbn; auto|]. intros c3.
  destruct (c3 =? -1); exact I.
Qed.

Lemma vasprintf_user_dir :
  no_percent RUN_FIREJAIL_DBUS_DIR = true ->
  vasprintf DBUS_USER_DIR_FORMAT [ArgInt (getuid cfg)] = Some staging_directory.
Proof.
  intros H. unfold DBUS_USER_DIR_FORMAT. rewrite vasprintf_app by assumption.
  change (vasprintf "/%d" [ArgInt (getuid cfg)])
    with (Some ("/" ++ decimal (getuid cfg) ++ "")).
  rewrite append_nil_r. reflexivity.
Qed.

Section KeepsFiles.

Context {St : Type} (h : handler St) (fs : St -> string -> option inode).
Hypothesis Hfiles : keeps_files h fs.

(** A call that leaves the file system leaves every path as it was. *)
Lemma leaves_path {R : Type} (c : syscall R) (s : St) (r : R) (s' : St) (path : string) :
  leaves_files R c = true -> h R c s = (r, s') -> fs s' path = fs s path.
Proof.
  intros Hc E. pose proof (others_leave h fs Hfiles R c s path Hc) as H.
  now rewrite E in H.
Qed.

(** The directory set-up in such an environment.  What was at the path
    is left as it was, with no [mkdir] and no [set_perms], and the set-up
    returns unless no room was found for the path.  Where nothing was, a
    set-up that returns leaves a private directory. *)
Lemma create_user_dir_files (s : St) :
  no_percent RUN_FIREJAIL_DBUS_DIR = true ->
  let d := interp h dbus_create_user_dir s in
  match fs s staging_directory with
  | Some i =>
      fs (final d) staging_directory = Some i /\
      mkdirs (events d) = [] /\ perms_set (events d) = [] /\
      result d = (if fst (h _ (allocate staging_directory) s)
                  then Done tt else Halted (ErrExit "asprintf"))
  | None =>
      result d = Done tt -> private_directory (fs (final d) staging_directory) = true
  end.
Proof.
  intros Hdir. cbn zeta. unfold dbus_create_user_dir, asprintf.
  rewrite (vasprintf_user_dir Hdir).
  set (dir := staging_directory).
  assert (Hmake : forall s3, fs s3 dir = None ->
            let d' := interp h
                        (Call (mkdir dir 448)
                           (fun r0 : Z * Z =>
                              if (fst r0 =? -1) && negb (snd r0 =? EEXIST)
                              then errExit "mkdir"
                              else
                                Call (set_perms dir (getuid cfg) (getgid cfg) 448)
                                  (fun r1 : Z =>
                                     if negb (r1 =? 0) then errExit "set_perms"
                                     else ASSERT_PERMS dir (getuid cfg) (getgid cfg) 448)))
                        s3 in
            result d' = Done tt -> private_directory (fs (final d') dir) = true).
  { intros s3 Hnone. cbn zeta. rewrite result_Call, final_Call.
    pose proof (mkdir_makes h fs Hfiles dir 448 s3 eq_refl Hnone) as Hm.
    destruct (h _ (mkdir dir 448) s3) as [[res errno] s4] eqn:E4.
    cbn [fst snd] in Hm |- *.
    destruct ((res =? -1) && negb (errno =? EEXIST)) eqn:Efail; [discriminate|].
    destruct Hm as [[-> Hne] | (i & Hi & Hdir_i)].
    { apply Z.eqb_neq in Hne. rewrite Hne in Efail. discriminate Efail. }
    rewrite result_Call, final_Call.
    pose proof (set_perms_keeps h fs Hfiles dir (getuid cfg) (getgid cfg) 448 s4 i
                  eq_refl Hi) as Hp.
    destruct (h _ (set_perms dir (getuid cfg) (getgid cfg) 448) s4) as [r1 s5] eqn:E5.
    cbn [fst snd] in Hp |- *.
    destruct (r1 =? 0) eqn:Er1; cbn [negb]; [|discriminate].
    apply Z.eqb_eq in Er1. destruct (Hp Er1) as (i' & Hi' & Hdir_i').
    unfold ASSERT_PERMS. cbn [bind call]. rewrite result_Call, final_Call.
    pose proof (stat_shows h fs Hfiles dir s5) as Hstat.
    destruct (h _ (stat dir) s5) as [st s6] eqn:E6. cbn [fst snd] in Hstat |- *.
    pose proof (leaves_path (stat dir) s5 st s6 dir eq_refl E6) as F6.
    rewrite Hi' in Hstat. cbn [option_map] in Hstat. subst st. cbn [bind].
    destruct ((st_uid (i_stat i') =? getuid cfg) && (st_gid (i_stat i') =? getgid cfg)
              && (Z.land (st_mode (i_stat i')) 4095 =? 448)) eqn:Echeck;
      [|discriminate].
    intros _. cbn [interp final]. rewrite F6, Hi'. unfold private_directory.
    rewrite Hdir_i', Hdir_i. cbn [andb].
    apply andb_true_iff in Echeck as [Echeck ->].
    apply andb_true_iff in Echeck as [-> ->]. reflexivity. }
  cbn [bind call].
  rewrite result_Call, final_Call, events_Call.
  destruct (h _ (allocate dir) s) as [ok s1] eqn:E1. cbn [fst snd].
  pose proof (leaves_path (allocate dir) s ok s1 dir eq_refl E1) as F1.
  destruct ok; unfold errExit; cbn [bind].
  2:{ destruct (fs s dir) as [i|]; [|discriminate].
      rewrite events_halt. cbn [interp final result]. auto. }
  rewrite result_Call, final_Call, events_Call.
  pose proof (stat_shows h fs Hfiles dir s1) as Hstat.
  destruct (h _ (stat dir) s1) as [st s2] eqn:E2. cbn [fst snd] in Hstat |- *.
  pose proof (leaves_path (stat dir) s1 st s2 dir eq_refl E2) as F2.
  rewrite F1 in Hstat, F2.
  destruct (fs s dir) as [i|] eqn:Efs; cbn [option_map] in Hstat; subst st.
  { rewrite events_ret. cbn [interp final result]. auto. }
  destruct (arg_debug cfg); cbn [when]; [|exact (Hmake s2 F2)].
  unfold printf. simpl (vasprintf _ _). cbv beta match.
  cbn [bind call]. rewrite result_Call, final_Call.
  destruct (h _ (out_stdout _) s2) as [u s3] eqn:E3. cbn [fst snd].
  apply (Hmake s3). rewrite <- F2.
  eapply leaves_path; [|exact E3]. reflexivity.
Qed.

(** The state in which [dbus_proxy_start] forks: the directory set-up
    has returned and the file system is as it left it. *)
Lemma fork_state (s : St) (hd : ProxyHandle) (s1 : St) (e : event) :
  let r := interp h (dbus_proxy_start hd) s in
  let d := interp h dbus_create_user_dir s in
  In (s1, e) (trace r) -> is_fork e = true ->
  result d = Done tt /\
  fs s1 staging_directory = fs (final d) staging_directory.
Proof.
  cbn zeta. unfold dbus_proxy_start. rewrite trace_bind. intros Hin Hfork.
  apply in_app_or in Hin as [Hin | Hin].
  { apply (only_calls_trace dir_call h _ only_calls_create_user_dir) in Hin.
    assert (event_class no_fork e = true)
      by (destruct e as [R c r]; now apply dir_call_no_fork).
    apply no_fork_is_fork in H. congruence. }
  destruct (result (interp h dbus_create_user_dir s)) as [[]|x];
    [|contradiction].
  split; [reflexivity|].
  set (s0 := final (interp h dbus_create_user_dir s)) in *.
  cbn [bind call] in Hin. rewrite trace_Call in Hin.
  destruct (h _ pipe s0) as [p1 s2] eqn:E1. cbn [fst snd] in Hin.
  destruct Hin as [E | Hin]; [injection E as _ <-; discriminate|].
  destruct p1 as [[sr sw]|]; [|cbn in Hin; contradiction].
  cbn [bind call] in Hin. rewrite trace_Call in Hin.
  destruct (h _ pipe s2) as [p2 s3] eqn:E2. cbn [fst snd] in Hin.
  destruct Hin as [E | Hin]; [injection E as _ <-; discriminate|].
  destruct p2 as [[ar aw]|]; [|cbn in Hin; contradiction].
  cbn [bind call] in Hin. rewrite trace_Call in Hin.
  destruct Hin as [E | Hin].
  { injection E as <- _.
    rewrite (leaves_path pipe s2 _ s3 staging_directory eq_refl E2).
    exact (leaves_path pipe s0 _ s2 staging_directory eq_refl E1). }
  exfalso.
  assert (Hnf : event_class no_fork e = true).
  { eapply (only_calls_trace no_fork h); [|exact Hin].
    match goal with |- only_calls _ (if ?a then _ else _) => destruct a end; [exact I|].
    match goal with |- only_calls _ (if ?a then _ else _) => destruct a end.
    - apply (only_calls_weaken no_fork child_call);
        [apply child_call_no_fork | apply only_calls_child].
    - apply only_calls_bind; [apply only_calls_configure|].
      intros hd1. apply only_calls_wait. }
  apply no_fork_is_fork in Hnf. congruence.
Qed.

End KeepsFiles.

(** C10, amended: in an environment that keeps a file system which only
    the program changes, and in which every call may fail, whenever
    [dbus_proxy_start] forks the child something is at the path of the
    staging directory.  If nothing was there when [start] was called, a
    directory has been made there before the fork, with mode 0700 and the
    invoking user and group as owners.  If something was there, directory
    or not, it is left exactly as it was, whatever its type, mode and
    owner: the set-up calls neither [mkdir] nor [set_perms], and it
    returns unless no room is found for the path.  So a directory that
    was private or absent before [start] is private at the fork. *)
Theorem staging_directory_at_fork
    (St : Type) (h : handler St) (fs : St -> string -> option inode)
    (s : St) (hd : ProxyHandle) :
  keeps_files h fs ->
  no_percent RUN_FIREJAIL_DBUS_DIR = true ->
  let r := interp h (dbus_proxy_start hd) s in
  let d := interp h dbus_create_user_dir s in
  (forall s1 e, In (s1, e) (trace r) -> is_fork e = true ->
     match fs s staging_directory with
     | Some i => fs s1 staging_directory = Some i
     | None => private_directory (fs s1 staging_directory) = true
     end) /\
  (fs s staging_directory <> None ->
   mkdirs (events d) = [] /\ perms_set (events d) = [] /\
   result d = (if fst (h _ (allocate staging_directory) s)
               then Done tt else Halted (ErrExit "asprintf"))) /\
  (fs s staging_directory = None \/
   private_directory (fs s staging_directory) = true ->
   forks_with_private_directory fs (trace r) = true).
Proof.
  intros Hfiles Hdir. cbn zeta.
  pose proof (create_user_dir_files h fs Hfiles s Hdir) as Hd. cbn zeta in Hd.
  assert (Hfork : forall s1 e,
             In (s1, e) (trace (interp h (dbus_proxy_start hd) s)) ->
             is_fork e = true ->
             match fs s staging_directory with
             | Some i => fs s1 staging_directory = Some i
             | None => private_directory (fs s1 staging_directory) = true
             end).
  { intros s1 e Hin Hf.
    destruct (fork_state h fs Hfiles s hd s1 e Hin Hf) as [Hdone E].
    rewrite E. destruct (fs s staging_directory) as [i|].
    - apply Hd.
    - apply Hd, Hdone. }
  split; [exact Hfork|]. split.
  - intros Hthere. destruct (fs s staging_directory) as [i|]; [|contradiction].
    destruct Hd as (_ & Hm & Hp & Hr). auto.
  - intros Hbefore. unfold forks_with_private_directory. apply forallb_forall.
    intros [s1 e] Hin. cbn [fst snd].
    destruct (is_fork e) eqn:Hf; [|reflexivity]. cbn [negb orb].
    specialize (Hfork s1 e Hin Hf).
    destruct (fs s staging_directory) as [i|] eqn:Efs.
    + rewrite Hfork. destruct Hbefore as [|Hp]; [discriminate | exact Hp].
    + exact Hfork.
Qed.

(** ** NameGrammar: more of [dbus_check_name] *)

Lemma is_nul_at_head (p : string) :
  c_string p ->
  match p with EmptyString => true | String c' _ => is_nul c' end = true ->
  p = EmptyString.
Proof.
  destruct p as [|c' p']; [reflexivity|].
  intros [Hc _] H. congruence.
Qed.

Lemma rest_ok_name_byte c : rest_ok c = true -> name_byte c = true /\ c <> "*"%char.
Proof.
  intros H. split.
  - unfold rest_ok, is_letter, is_digit in H. unfold name_byte.
    rewrite H. reflexivity.
  - intros ->. discriminate H.
Qed.

Lemma first_ok_rest_ok c : first_ok c = true -> rest_ok c = true.
Proof. intros H. apply first_ok_facts in H. tauto. Qed.

(** What the loop accepts is made of the bytes of names, and a [*] in it
    is its last byte. *)
Lemma loop_alphabet p : forall n seg,
  c_string p ->
  dbus_check_name_loop p n seg = true ->
  all_chars name_byte p = true /\
  forall i, String.get i p = Some "*"%char -> S i = String.length p.
Proof.
  induction p as [|c p IH]; intros n seg Hc H.
  { split; [reflexivity | intros i Hi; discriminate Hi]. }
  destruct Hc as [Hnul Hc].
  destruct seg.
  - rewrite (loop_in_segment c p n Hnul) in H.
    destruct (Ascii.eqb c ".") eqn:Edot.
    + apply Ascii.eqb_eq in Edot. subst c.
      destruct (IH _ _ Hc H) as [Hall Hstar]. split.
      * cbn [all_chars]. rewrite Hall. reflexivity.
      * intros [|i] Hi; [discriminate Hi|]. cbn in Hi. cbn [String.length].
        now rewrite (Hstar i Hi).
    + destruct (rest_ok c) eqn:Eok; [|discriminate].
      destruct (rest_ok_name_byte c Eok) as [Hb Hns].
      destruct (IH _ _ Hc H) as [Hall Hstar]. split.
      * cbn [all_chars]. now rewrite Hb, Hall.
      * intros [|i] Hi; [cbn in Hi; congruence|]. cbn in Hi. cbn [String.length].
        now rewrite (Hstar i Hi).
  - rewrite (loop_segment_start c p n Hnul) in H.
    destruct (Ascii.eqb c "*") eqn:Estar.
    + apply Ascii.eqb_eq in Estar. subst c.
      apply (is_nul_at_head p Hc) in H. subst p. split; [reflexivity|].
      intros [|i] Hi; [reflexivity | discriminate Hi].
    + destruct (first_ok c) eqn:Eok; [|discriminate].
      destruct (rest_ok_name_byte c (first_ok_rest_ok c Eok)) as [Hb Hns].
      destruct (IH _ _ Hc H) as [Hall Hstar]. split.
      * cbn [all_chars]. now rewrite Hb, Hall.
      * intros [|i] Hi; [cbn in Hi; congruence|]. cbn in Hi. cbn [String.length].
        now rewrite (Hstar i Hi).
Qed.

Lemma all_chars_get (f : ascii -> bool) (p : string) :
  all_chars f p = true -> forall i c, String.get i p = Some c -> f c = true.
Proof.
  induction p as [|x p IH]; intros H i c Hi; [discriminate Hi|].
  cbn in H. apply andb_true_iff in H as [Hx Hp].
  destruct i as [|i]; cbn in Hi.
  - congruence.
  - eauto.
Qed.

Lemma dbus_check_name_loop_of (s : string) :
  dbus_check_name s = true -> dbus_check_name_loop s 1 false = true.
Proof.
  unfold dbus_check_name.
  destruct ((strlen s =? 0) || (DBUS_MAX_NAME_LENGTH <? strlen s)); [discriminate|].
  auto.
Qed.

(** X1: a name [dbus_check_name] accepts is made of letters, digits,
    underscores, hyphens, dots and [*] only, and a [*] in it is its last
    byte: the wildcard is accepted nowhere but at the end. *)
Theorem dbus_check_name_alphabet (s : string) :
  c_string s ->
  dbus_check_name s = true ->
  forall i c, String.get i s = Some c ->
    name_byte c = true /\ (c = "*"%char -> S i = String.length s).
Proof.
  intros Hc H i c Hi.
  apply dbus_check_name_loop_of in H.
  destruct (loop_alphabet s 1 false Hc H) as [Hall Hstar]. split.
  - exact (all_chars_get name_byte s Hall i c Hi).
  - intros ->. exact (Hstar i Hi).
Qed.

Lemma dbus_check_name_alphabet_witness :
  name_byte "*" = true /\ ("*"%char = "*"%char -> 5%nat = String.length "org.*").
Proof.
  apply (dbus_check_name_alphabet "org.*"); [cbn; tauto | reflexivity | reflexivity].
Defined.

(** The loop rejects a string in which a dot is followed by a byte that
    opens no segment and is no wildcard. *)
Lemma loop_bad_start (c : ascii) (b : string) :
  segment_opener c = false -> c <> "*"%char ->
  forall a n seg, c_string a ->
    dbus_check_name_loop (a ++ "." ++ String c b) n seg = false.
Proof.
  intros Hopen Hstar.
  assert (Estar : Ascii.eqb c "*" = false) by now apply Ascii.eqb_neq.
  assert (Hhead : forall n, dbus_check_name_loop (String c b) n false = false).
  { intros n. destruct (is_nul c) eqn:Hnul.
    - cbn [dbus_check_name_loop]. rewrite Hnul. reflexivity.
    - rewrite (loop_segment_start c b n Hnul), Estar.
      change (first_ok c) with (segment_opener c). now rewrite Hopen. }
  induction a as [|x a IH]; intros n seg Hc.
  - destruct seg.
    + change ("" ++ "." ++ String c b) with ("." ++ String c b).
      rewrite loop_dot. apply Hhead.
    + reflexivity.
  - destruct Hc as [Hnul Hc]. cbn [String.append].
    destruct seg.
    + rewrite (loop_in_segment x _ n Hnul).
      destruct (Ascii.eqb x "."); [now apply IH|].
      destruct (rest_ok x); [now apply IH | reflexivity].
    + rewrite (loop_segment_start x _ n Hnul).
      destruct (Ascii.eqb x "*").
      * destruct a as [|y a]; [reflexivity|]. cbn [String.append]. apply Hc.
      * destruct (first_ok x); [now apply IH | reflexivity].
Qed.

(** The loop rejects a string that ends with a dot. *)
Lemma loop_final_dot : forall a n seg, c_string a ->
  dbus_check_name_loop (a ++ ".") n seg = false.
Proof.
  induction a as [|x a IH]; intros n seg Hc.
  - destruct seg; reflexivity.
  - destruct Hc as [Hnul Hc]. cbn [String.append].
    destruct seg.
    + rewrite (loop_in_segment x _ n Hnul).
      destruct (Ascii.eqb x "."); [now apply IH|].
      destruct (rest_ok x); [now apply IH | reflexivity].
    + rewrite (loop_segment_start x _ n Hnul).
      destruct (Ascii.eqb x "*").
      * destruct a as [|y a]; [reflexivity|]. cbn [String.append]. apply Hc.
      * destruct (first_ok x); [now apply IH | reflexivity].
Qed.

Lemma dbus_check_name_of_loop (s : string) :
  dbus_check_name_loop s 1 false = false -> dbus_check_name s = false.
Proof.
  unfold dbus_check_name. intros ->.
  now destruct ((strlen s =? 0) || (DBUS_MAX_NAME_LENGTH <? strlen s)).
Qed.

(** X2: [dbus_check_name] rejects every name with a segment that does
    not start with a letter, an underscore or a hyphen, the wildcard
    apart: a name whose first byte is such a byte, a name with such a byte
    after a dot (a second dot, a digit), and a name that ends with a dot. *)
Theorem dbus_check_name_segment_start (a b : string) (c : ascii) :
  c_string a ->
  segment_opener c = false ->
  c <> "*"%char ->
  dbus_check_name (String c b) = false /\
  dbus_check_name (a ++ "." ++ String c b) = false /\
  dbus_check_name (a ++ ".") = false.
Proof.
  intros Hc Hopen Hstar. repeat split; apply dbus_check_name_of_loop.
  - destruct (is_nul c) eqn:Hnul.
    + cbn [dbus_check_name_loop]. rewrite Hnul. reflexivity.
    + rewrite (loop_segment_start c b 1 Hnul).
      apply Ascii.eqb_neq in Hstar. rewrite Hstar.
      change (first_ok c) with (segment_opener c). now rewrite Hopen.
  - now apply loop_bad_start.
  - now apply loop_final_dot.
Qed.

Lemma dbus_check_name_segment_start_witness :
  dbus_check_name "7zip" = false /\
  dbus_check_name "org.7zip" = false /\
  dbus_check_name "org." = false.
Proof.
  apply (dbus_check_name_segment_start "org" "zip" "7");
    [cbn; tauto | reflexivity | discriminate].
Defined.

(** A string with no [*] that the loop accepts is read to its end, where
    a segment is open and the count is two or more. *)
Lemma loop_through p : forall n seg,
  c_string p ->
  no_star p = true ->
  dbus_check_name_loop p n seg = true ->
  exists n', 2 <= n' /\
    forall q, dbus_check_name_loop (p ++ q) n seg = dbus_check_name_loop q n' true.
Proof.
  induction p as [|c p IH]; intros n seg Hc Hns H.
  - cbn in H. apply andb_true_iff in H as [-> H]. apply Z.leb_le in H.
    exists n. split; [assumption | reflexivity].
  - destruct Hc as [Hnul Hc]. cbn in Hns. apply andb_true_iff in Hns as [Hx Hns].
    apply negb_true_iff in Hx. cbn [String.append].
    destruct seg.
    + rewrite (loop_in_segment c p n Hnul) in H.
      destruct (Ascii.eqb c ".") eqn:Edot.
      * destruct (IH _ _ Hc Hns H) as (n' & Hn' & Hq). exists n'. split; [assumption|].
        intros q. rewrite (loop_in_segment c _ n Hnul), Edot. apply Hq.
      * destruct (rest_ok c) eqn:Eok; [|discriminate].
        destruct (IH _ _ Hc Hns H) as (n' & Hn' & Hq). exists n'. split; [assumption|].
        intros q. rewrite (loop_in_segment c _ n Hnul), Edot, Eok. apply Hq.
    + rewrite (loop_segment_start c p n Hnul), Hx in H.
      destruct (first_ok c) eqn:Eok; [|discriminate].
      destruct (IH _ _ Hc Hns H) as (n' & Hn' & Hq). exists n'. split; [assumption|].
      intros q. rewrite (loop_segment_start c _ n Hnul), Hx, Eok. apply Hq.
Qed.

Lemma strlen_app (a b : string) :
  c_string a -> strlen (a ++ b) = strlen a + strlen b.
Proof.
  induction a as [|x a IH]; intros Hc; [reflexivity|].
  destruct Hc as [Hnul Hc]. cbn [String.append strlen]. rewrite Hnul, (IH Hc).
  apply Z.add_assoc.
Qed.

Lemma strlen_nonneg (a : string) : 0 <= strlen a.
Proof. induction a as [|x a IH]; cbn [strlen]; [lia|]. destruct (is_nul x); lia. Qed.

Lemma valid_segment_c_string (seg : string) :
  valid_segment seg = true -> c_string seg /\ 0 < strlen seg.
Proof.
  destruct seg as [|c seg]; [discriminate|]. cbn [valid_segment].
  intros H. apply andb_true_iff in H as [Hc Hrest].
  apply first_ok_facts in Hc as (Hnul & _).
  assert (Hs : c_string seg).
  { clear Hnul. induction seg as [|x seg IH]; [exact I|].
    cbn in Hrest. apply andb_true_iff in Hrest as [Hx Hrest].
    apply rest_ok_facts in Hx as [Hx _]. split; auto. }
  split; [split; assumption|].
  cbn [strlen]. rewrite Hnul. pose proof (strlen_nonneg seg). lia.
Qed.

(** X3: the names [dbus_check_name] accepts are closed under extension.
    To an accepted name that holds no [*], one may append a dot and [*],
    or a dot and one more well-formed segment: the result is accepted as
    long as it is no longer than 255 bytes. *)
Theorem dbus_check_name_extend (name : string) :
  c_string name ->
  dbus_check_name name = true ->
  no_star name = true ->
  (strlen name + 2 <= DBUS_MAX_NAME_LENGTH -> dbus_check_name (name ++ ".*") = true) /\
  (forall seg, valid_segment seg = true ->
     strlen name + 1 + strlen seg <= DBUS_MAX_NAME_LENGTH ->
     dbus_check_name (name ++ "." ++ seg) = true).
Proof.
  intros Hc H Hns.
  apply dbus_check_name_loop_of in H.
  destruct (loop_through name 1 false Hc Hns H) as (n' & Hn' & Hq).
  pose proof (strlen_nonneg name) as Hpos.
  split.
  - intros Hlen. unfold dbus_check_name.
    rewrite (strlen_app name ".*" Hc). change (strlen ".*") with 2.
    replace (strlen name + 2 =? 0) with false by (symmetry; apply Z.eqb_neq; lia).
    replace (DBUS_MAX_NAME_LENGTH <? strlen name + 2) with false
      by (symmetry; apply Z.ltb_ge; lia).
    cbn [orb]. rewrite Hq. reflexivity.
  - intros seg Hseg Hlen. unfold dbus_check_name.
    destruct (valid_segment_c_string seg Hseg) as [Hcs Hls].
    rewrite (strlen_app name _ Hc).
    change (strlen ("." ++ seg)) with (1 + strlen seg).
    replace (strlen name + (1 + strlen seg) =? 0) with false
      by (symmetry; apply Z.eqb_neq; lia).
    replace (DBUS_MAX_NAME_LENGTH <? strlen name + (1 + strlen seg)) with false
      by (symmetry; apply Z.ltb_ge; lia).
    cbn [orb]. rewrite Hq, loop_dot.
    rewrite <- (append_nil_r seg) at 1.
    rewrite (loop_skip_segment seg "" (n' + 1) Hseg).
    cbn. apply Z.leb_le. lia.
Qed.

Lemma dbus_check_name_extend_witness :
  (strlen "org.freedesktop" + 2 <= DBUS_MAX_NAME_LENGTH ->
   dbus_check_name ("org.freedesktop" ++ ".*") = true) /\
  (forall seg, valid_segment seg = true ->
     strlen "org.freedesktop" + 1 + strlen seg <= DBUS_MAX_NAME_LENGTH ->
     dbus_check_name ("org.freedesktop" ++ "." ++ seg) = true).
Proof.
  apply (dbus_check_name_extend "org.freedesktop"); [cbn; tauto | reflexivity..].
Defined.

(** ** Reasoning about every run of a program *)

Section EveryRun.

Context {A : Type}.

Lemma every_run_sound {St : Type} (h : handler St) (p : prog A) :
  forall (Q : list event -> outcome A -> Prop) (s : St),
    every_run p Q -> Q (events (interp h p s)) (result (interp h p s)).
Proof.
  induction p as [a|x|R c k IH]; intros Q s H.
  - exact H.
  - exact H.
  - rewrite events_Call, result_Call.
    exact (IH (fst (h R c s)) (fun t o => Q (Ev c (fst (h R c s)) :: t) o)
              (snd (h R c s)) (H (fst (h R c s)))).
Qed.

Lemma every_run_weaken (p : prog A) :
  forall (Q Q' : list event -> outcome A -> Prop),
    (forall t o, Q t o -> Q' t o) -> every_run p Q -> every_run p Q'.
Proof.
  induction p as [a|x|R c k IH]; intros Q Q' HQ H; cbn in *.
  - now apply HQ.
  - now apply HQ.
  - intros r. apply (IH r (fun t o => Q (Ev c r :: t) o)); [|apply H].
    intros t o. apply HQ.
Qed.

Lemma every_run_bind {B : Type} (p : prog A) (f : A -> prog B) :
  forall (Q : list event -> outcome B -> Prop),
    every_run p (fun t o =>
      match o with
      | Done a => every_run (f a) (fun t' o' => Q (t ++ t')%list o')
      | Halted x => Q t (Halted x)
      end) ->
    every_run (bind p f) Q.
Proof.
  induction p as [a|x|R c k IH]; intros Q H; cbn in *.
  - exact H.
  - exact H.
  - intros r. apply IH. apply H.
Qed.

(** A program that makes calls of one class only. *)
Lemma every_run_only_calls (P : call_class) (p : prog A) :
  only_calls P p ->
  forall (Q : list event -> outcome A -> Prop),
    (forall t o, forallb (event_class P) t = true -> Q t o) -> every_run p Q.
Proof.
  induction p as [a|x|R c k IH]; intros Hp Q HQ; cbn in *.
  - now apply HQ.
  - now apply HQ.
  - destruct Hp as [Hc Hk]. intros r. apply (IH r (Hk r)).
    intros t o Ht. apply HQ. cbn. now rewrite Hc, Ht.
Qed.

Lemma every_run_trivial (p : prog A) :
  forall (Q : list event -> outcome A -> Prop),
    (forall t o, Q t o) -> every_run p Q.
Proof.
  induction p as [a|x|R c k IH]; intros Q HQ; cbn.
  - apply HQ.
  - apply HQ.
  - intros r. apply IH. intros t o. apply HQ.
Qed.

Lemma every_run_and (p : prog A) :
  forall (Q1 Q2 : list event -> outcome A -> Prop),
    every_run p Q1 -> every_run p Q2 -> every_run p (fun t o => Q1 t o /\ Q2 t o).
Proof.
  induction p as [a|x|R c k IH]; intros Q1 Q2 H1 H2; cbn in *.
  - now split.
  - now split.
  - intros r.
    exact (IH r (fun t o => Q1 (Ev c r :: t) o) (fun t o => Q2 (Ev c r :: t) o)
              (H1 r) (H2 r)).
Qed.

End EveryRun.

Lemma silent_on_class {X : Type} (P : call_class) (f : event -> list X) :
  silent_on P f ->
  forall t, forallb (event_class P) t = true -> flat_map f t = [].
Proof.
  intros Hs. induction t as [|[R c r] t IH]; intros Ht; [reflexivity|].
  cbn in Ht. apply andb_true_iff in Ht as [Hc Ht].
  cbn [flat_map]. now rewrite (Hs R c r Hc), (IH Ht).
Qed.

(** One step of the walk through a program: a call answered, a test
    decided. *)
Ltac run_step :=
  match goal with
  | |- forall r, every_run _ _ => intro
  | |- every_run (Ret _) _ => cbn [every_run]
  | |- every_run (Halt _) _ => cbn [every_run]
  | |- every_run (Call _ _) _ => cbn [every_run]; intro
  | |- every_run _ _ => progress cbn [bind call]
  | |- every_run _ _ => progress unfold errExit, when, call
  | |- every_run ?p _ =>
      match p with
      | context [if ?b then _ else _] => destruct b eqn:?
      | context [match ?x with _ => _ end] => destruct x eqn:?
      end
  end.

Ltac run_all := repeat run_step.

(** The test on which the program waits: the innermost one of the
    condition at its head. *)
Ltac decide_test b :=
  first
    [ match b with context [match ?x with _ => _ end] => decide_test x end
    | match b with context [if ?c then _ else _] => decide_test c end
    | lazymatch b with
      | vasprintf _ _ => fail
      | negb ?c => decide_test c
      | _ => destruct b eqn:?
      end ].

Ltac decide_head p :=
  lazymatch p with
  | bind ?q _ => decide_head q
  | (if ?b then _ else _) => decide_test b
  | (match ?x with _ => _ end) => decide_test x
  end.

(** The walk to the end of every run, for a statement marked [at_end]. *)
Ltac run_to_end_step :=
  match goal with
  | |- at_end _ => fail 1
  | |- forall _, _ => intro
  | |- every_run (Ret _) _ => cbn [every_run]
  | |- every_run (Halt _) _ => cbn [every_run]
  | |- every_run (Call _ _) _ => cbn [every_run]
  | |- every_run _ _ => progress cbn [bind call]
  | |- every_run _ _ => progress unfold errExit, when, call
  | |- every_run _ _ =>
      progress cbn [dbus_proxy_pid dbus_proxy_status_fd dbus_user_proxy_socket
                    dbus_system_proxy_socket set_pid set_status_fd set_user_socket
                    set_system_socket after_free is_null negb]
  | |- every_run ?p _ => decide_head p
  end.

(** The walk up to the answer of the next call. *)
Ltac run_call :=
  repeat first [progress cbn [bind call] | progress unfold call];
  match goal with
  | |- every_run (Call _ _) _ => cbn [every_run]; intro
  | |- forall r, every_run _ _ => intro
  end.

(** A run that does not return says nothing where the statement is about
    runs that do. *)
Ltac not_returned := try (intros; discriminate).

(** The message of a [printf] with a format known in full. *)
Ltac run_format :=
  match goal with
  | |- context [vasprintf ?f ?a] => progress simpl (vasprintf f a); cbv beta match
  end.

Lemma vasprintf_percent_d (a b : string) (z : Z) :
  no_percent a = true -> no_percent b = true ->
  vasprintf (a ++ "%d" ++ b) [ArgInt z] = Some (a ++ decimal z ++ b).
Proof.
  intros Ha Hb. rewrite (vasprintf_app a _ _ Ha).
  cbn [String.append vasprintf Ascii.eqb Bool.eqb negb].
  rewrite (vasprintf_plain b [] Hb). reflexivity.
Qed.

Lemma vasprintf_percent_d_end (a : string) (z : Z) :
  no_percent a = true ->
  vasprintf (a ++ "%d") [ArgInt z] = Some (a ++ decimal z).
Proof.
  intros Ha. rewrite <- (append_nil_r (decimal z)).
  exact (vasprintf_percent_d a "" z Ha eq_refl).
Qed.

Lemma vasprintf_percent_s (a b x : string) :
  no_percent a = true -> no_percent b = true ->
  vasprintf (a ++ "%s" ++ b) [ArgStr x] = Some (a ++ c_str x ++ b).
Proof.
  intros Ha Hb. rewrite (vasprintf_app a _ _ Ha).
  cbn [String.append vasprintf Ascii.eqb Bool.eqb negb].
  rewrite (vasprintf_plain b [] Hb). reflexivity.
Qed.

Lemma vasprintf_proc_fd (fd : Z) :
  vasprintf "/proc/self/fd/%d" [ArgInt fd] = Some ("/proc/self/fd/" ++ decimal fd).
Proof. exact (vasprintf_percent_d_end "/proc/self/fd/" fd eq_refl). Qed.

(** ** SocketOverlay: a run that returns *)

(** X12: a run of [socket_overlay] that returns has made exactly these
    five calls: it opened the proxy path without following a link, found
    a socket behind the descriptor it got, bound the proxy path over the
    target, and closed that same descriptor, whose result it ignores. *)
Theorem socket_overlay_returns
    (St : Type) (h : handler St) (s : St) (socket_path proxy_path : string) :
  let r := interp h (socket_overlay socket_path proxy_path) s in
  result r = Done tt ->
  exists fd st m c,
    fd <> -1 /\ S_ISSOCK (st_mode st) = true /\ m <> -1 /\
    events r =
      [Ev (safe_fd proxy_path (Z.lor (Z.lor O_PATH O_NOFOLLOW) O_CLOEXEC)) fd;
       Ev (fstat fd) (Some st);
       Ev (allocate ("/proc/self/fd/" ++ decimal fd)) true;
       Ev (mount proxy_path socket_path (Z.lor MS_BIND MS_REC)) m;
       Ev (close fd) c].
Proof.
  cbn zeta.
  apply (every_run_sound h (socket_overlay socket_path proxy_path)
           (fun t o => o = Done tt -> exists fd st m c,
              fd <> -1 /\ S_ISSOCK (st_mode st) = true /\ m <> -1 /\
              t = [Ev (safe_fd proxy_path (Z.lor (Z.lor O_PATH O_NOFOLLOW) O_CLOEXEC)) fd;
                   Ev (fstat fd) (Some st);
                   Ev (allocate ("/proc/self/fd/" ++ decimal fd)) true;
                   Ev (mount proxy_path socket_path (Z.lor MS_BIND MS_REC)) m;
                   Ev (close fd) c])).
  unfold socket_overlay, asprintf.
  repeat (rewrite vasprintf_proc_fd || run_step); try (intros; discriminate).
  intros _.
  match goal with
  | H1 : (?fd =? -1) = false, H2 : negb (S_ISSOCK (st_mode ?st)) = false,
    H3 : (?m =? -1) = false |- context [Ev (close _) ?c] =>
      exists fd, st, m, c
  end.
  repeat split; try (now apply Z.eqb_neq).
  now apply negb_false_iff.
Qed.

(** ** [write_arg] and the directory set-up, in every environment *)

(** X5: [write_arg] writes at most once, its formatted argument with the
    NUL after it, all to the given descriptor.  It returns exactly when
    that [write] reported the whole length; any other count, a short write
    included, is fatal, and the write is not tried again.  When no room is
    found for the argument nothing is written. *)
Theorem write_arg_single_write
    (St : Type) (h : handler St) (s : St) (fd : Z) (format : string)
    (ap : list printf_arg) (arg : string) :
  vasprintf format ap = Some arg ->
  let r := interp h (write_arg fd format ap) s in
  (written (events r) = [] /\ result r = Halted (ErrExit "vasprintf")) \/
  (exists n,
      written (events r) = [(fd, arg ++ String NUL EmptyString, n)] /\
      result r = if n =? strlen arg + 1 then Done tt else Halted (ErrExit "write")).
Proof.
  intros Hv. cbn zeta.
  apply (every_run_sound h (write_arg fd format ap)
           (fun t o =>
              (written t = [] /\ o = Halted (ErrExit "vasprintf")) \/
              (exists n,
                  written t = [(fd, arg ++ String NUL EmptyString, n)] /\
                  o = if n =? strlen arg + 1 then Done tt
                      else Halted (ErrExit "write")))).
  unfold write_arg, printf. rewrite Hv.
  repeat (run_format || run_step).
  all: try (left; split; reflexivity).
  all: right; eexists; split; [reflexivity|].
  all: match goal with H : (_ =? _) = _ |- _ => now rewrite H end.
Qed.

(** X6: a run of [dbus_create_user_dir] that returns went one of two
    ways.  Either [stat] found something at the path of the staging
    directory, and then nothing was created, changed or checked; or it
    found nothing, and then [mkdir] was called with mode 0700 and did not
    fail, unless with [EEXIST], [set_perms] gave the path to the invoking
    user and group with mode 0700, and the check that followed found that
    owner, group and mode. *)
Theorem dbus_create_user_dir_returns (St : Type) (h : handler St) (s : St) :
  no_percent RUN_FIREJAIL_DBUS_DIR = true ->
  let d := interp h dbus_create_user_dir s in
  result d = Done tt ->
  (exists found,
      stats (events d) = [(staging_directory, Some found)] /\
      mkdirs (events d) = [] /\ perms_set (events d) = []) \/
  (exists made checked,
      stats (events d) = [(staging_directory, None); (staging_directory, Some checked)] /\
      mkdirs (events d) = [(staging_directory, 0x1C0, made)] /\
      (fst made <> -1 \/ snd made = EEXIST) /\
      perms_set (events d) = [(staging_directory, getuid cfg, getgid cfg, 0x1C0)] /\
      st_uid checked = getuid cfg /\ st_gid checked = getgid cfg /\
      Z.land (st_mode checked) 0xFFF = 0x1C0).
Proof.
  intros Hdir. cbn zeta.
  apply (every_run_sound h dbus_create_user_dir
           (fun t o => o = Done tt ->
              (exists found,
                  stats t = [(staging_directory, Some found)] /\
                  mkdirs t = [] /\ perms_set t = []) \/
              (exists made checked,
                  stats t = [(staging_directory, None);
                             (staging_directory, Some checked)] /\
                  mkdirs t = [(staging_directory, 0x1C0, made)] /\
                  (fst made <> -1 \/ snd made = EEXIST) /\
                  perms_set t = [(staging_directory, getuid cfg, getgid cfg, 0x1C0)] /\
                  st_uid checked = getuid cfg /\ st_gid checked = getgid cfg /\
                  Z.land (st_mode checked) 0xFFF = 0x1C0))).
  unfold dbus_create_user_dir, asprintf, ASSERT_PERMS, printf.
  rewrite (vasprintf_user_dir Hdir).
  repeat (run_format || run_step); not_returned.
  all: intros _.
  all: try (left; eexists; repeat split; reflexivity).
  all: right.
  all: match goal with
       | Hm : (_ && negb (snd ?made =? EEXIST)) = false,
         Hc : (_ && _ && _) = true |- context [Ev (stat _) (Some ?checked)] =>
           exists made, checked;
           apply andb_true_iff in Hc as [Hc Hmode];
           apply andb_true_iff in Hc as [Huid Hgid];
           apply Z.eqb_eq in Hmode, Huid, Hgid;
           apply andb_false_iff in Hm as [Hm|Hm];
           [apply Z.eqb_neq in Hm | apply negb_false_iff, Z.eqb_eq in Hm];
           repeat split; auto
       end.
Qed.

(** ** RuleExtractor: [dbus_check_profile] *)

Lemma existsb_find {X : Type} (f : X -> bool) (l : list X) :
  existsb f l = match find f l with Some _ => true | None => false end.
Proof.
  induction l as [|x l IH]; [reflexivity|].
  cbn. destruct (f x); [reflexivity | exact IH].
Qed.

Lemma find_strncmp (prefix : string) (lines : list string) :
  c_string prefix ->
  find (fun data => strncmp_eq0 prefix data (Z.to_nat (strlen prefix))) lines
  = find (String.prefix prefix) lines.
Proof.
  intros Hp. induction lines as [|data lines IH]; [reflexivity|].
  cbn [find]. now rewrite (strncmp_eq0_prefix prefix data Hp), IH.
Qed.

(** What [dbus_check_bus_profile] does, by the first line that starts
    with the prefix and by the policy. *)
Lemma check_bus_profile_every_run (prefix : string) (policy : DbusPolicy) :
  c_string prefix ->
  forall lines,
    every_run (dbus_check_bus_profile_from lines prefix policy) (fun t o =>
      match find (String.prefix prefix) lines, policy with
      | Some data, DBUS_POLICY_ALLOW =>
          t = [Ev (out_stderr (allow_error_message prefix)) tt] /\
          o = Halted (Exit 1)
      | Some data, DBUS_POLICY_BLOCK =>
          t = [Ev (out_warning (blocked_message prefix)) tt;
               Ev (out_warning (ignoring_message (c_str data) prefix)) tt] /\
          o = Done tt
      | _, _ => t = [] /\ o = Done tt
      end).
Proof.
  intros Hp. induction lines as [|data lines IH].
  { cbn. now destruct policy. }
  cbn [dbus_check_bus_profile_from find].
  rewrite (strncmp_eq0_prefix prefix data Hp).
  destruct (String.prefix prefix data); [|exact IH].
  destruct policy; unfold fprintf_stderr, fwarning.
  - run_format. rewrite (c_str_id prefix Hp). run_all. now destruct r.
  - cbn. auto.
  - run_format. run_step. run_step. run_format.
    rewrite (c_str_id prefix Hp). run_all. now destruct r, r0.
Qed.

(** X4: [dbus_check_profile] examines the user bus and then the system
    bus.  It exits with status 1 exactly when a bus that is allowed has a
    filter rule in the profile, and returns otherwise.  When it is the
    user bus that makes it exit, its error is all that is put out: the
    system bus is not examined.  Each blocked bus with a rule adds two
    warnings; a profile with no rule for either bus, and two filtered
    buses, put out nothing.  The function makes no call but to put out
    its messages. *)
Theorem dbus_check_profile_outcome (St : Type) (h : handler St) (s : St) :
  let r := interp h dbus_check_profile s in
  let user_aborts := has_rule "dbus-user" && is_allow (arg_dbus_user cfg) in
  let system_aborts := has_rule "dbus-system" && is_allow (arg_dbus_system cfg) in
  result r = (if user_aborts || system_aborts then Halted (Exit 1) else Done tt) /\
  (user_aborts = true ->
   events r = [Ev (out_stderr (allow_error_message "dbus-user")) tt]) /\
  List.length (warnings (events r)) =
    ((if has_rule "dbus-user" && is_block (arg_dbus_user cfg) then 2 else 0) +
     (if negb user_aborts && has_rule "dbus-system" && is_block (arg_dbus_system cfg)
      then 2 else 0))%nat /\
  ((has_rule "dbus-user" = false \/ is_filter (arg_dbus_user cfg) = true) /\
   (has_rule "dbus-system" = false \/ is_filter (arg_dbus_system cfg) = true) ->
   events r = []) /\
  forallb (event_class message_call) (events r) = true.
Proof.
  cbn zeta.
  apply (every_run_sound h dbus_check_profile (fun t o =>
    o = (if has_rule "dbus-user" && is_allow (arg_dbus_user cfg)
            || has_rule "dbus-system" && is_allow (arg_dbus_system cfg)
         then Halted (Exit 1) else Done tt) /\
    (has_rule "dbus-user" && is_allow (arg_dbus_user cfg) = true ->
     t = [Ev (out_stderr (allow_error_message "dbus-user")) tt]) /\
    List.length (warnings t) =
      ((if has_rule "dbus-user" && is_block (arg_dbus_user cfg) then 2 else 0) +
       (if negb (has_rule "dbus-user" && is_allow (arg_dbus_user cfg))
           && has_rule "dbus-system" && is_block (arg_dbus_system cfg)
        then 2 else 0))%nat /\
    ((has_rule "dbus-user" = false \/ is_filter (arg_dbus_user cfg) = true) /\
     (has_rule "dbus-system" = false \/ is_filter (arg_dbus_system cfg) = true) ->
     t = []) /\
    forallb (event_class message_call) t = true)).
  unfold dbus_check_profile, dbus_check_bus_profile, has_rule.
  rewrite !existsb_find.
  assert (Hu : c_string "dbus-user") by (cbn; tauto).
  assert (Hy : c_string "dbus-system") by (cbn; tauto).
  apply every_run_bind.
  eapply every_run_weaken;
    [|exact (check_bus_profile_every_run "dbus-user" (arg_dbus_user cfg) Hu
               (cfg_profile cfg))].
  intros t o H.
  destruct (find (String.prefix "dbus-user") (cfg_profile cfg)) as [du|],
    (arg_dbus_user cfg); destruct H as [-> ->].
  all: try (eapply every_run_weaken;
              [|exact (check_bus_profile_every_run "dbus-system" (arg_dbus_system cfg)
                         Hy (cfg_profile cfg))];
            intros t o H;
            destruct (find (String.prefix "dbus-system") (cfg_profile cfg)) as [dy|],
              (arg_dbus_system cfg); destruct H as [-> ->]).
  all: cbn.
  all: repeat split; try reflexivity; try discriminate.
  all: try (intros [[H|H] [H'|H']]; discriminate).
  all: try (intros [[H|H] _]; discriminate).
  all: try (intros [_ [H|H]]; discriminate).
  all: try now destruct (find _ _), (arg_dbus_system _).
Qed.

(** ** ProxyProcess: the child *)

Lemma child_call_write : silent_on child_call write_of. Proof. silent. Qed.
Lemma child_call_getenv : silent_on child_call getenv_of. Proof. silent. Qed.

(** The child's loop closes the descriptors of its range, in order, the
    two it keeps apart, and does nothing else. *)
Lemma close_open_files_every_run (keep1 keep2 : Z) (n : nat) : forall i,
  every_run (close_open_files n i keep1 keep2) (fun t o =>
    o = Done tt /\
    map fst (closes t) =
      filter (fun fd => negb (fd =? keep1) && negb (fd =? keep2)) (descriptors_from n i) /\
    forallb (event_class child_call) t = true).
Proof.
  induction n as [|n IH]; intros i.
  { cbn. auto. }
  cbn [close_open_files descriptors_from filter].
  apply every_run_bind.
  destruct (negb (i =? keep1) && negb (i =? keep2)); cbn [when].
  - run_all.
    eapply every_run_weaken; [|exact (IH (i + 1))].
    intros t o (-> & Hc & Hk). repeat split.
    + change (closes ([Ev (close i) r] ++ t)) with ((i, r) :: closes t).
      cbn [map fst]. now rewrite Hc.
    + exact Hk.
  - run_all.
    eapply every_run_weaken; [|exact (IH (i + 1))].
    intros t o (-> & Hc & Hk). repeat split; assumption.
Qed.

(** The descriptors of the child's loop are those from [i] on, [n] of
    them. *)
Lemma In_descriptors_from (n : nat) : forall i fd,
  In fd (descriptors_from n i) <-> i <= fd < i + Z.of_nat n.
Proof.
  induction n as [|n IH]; intros i fd; cbn [descriptors_from In].
  - lia.
  - rewrite IH. lia.
Qed.

(** The run of the child, with the descriptors it closes as a list. *)
Lemma child_run
    (St : Type) (h : handler St) (s : St) (hd : ProxyHandle) :
  let r := interp h (dbus_proxy_start hd) s in
  forks (events r) = [0] ->
  exists status_r status_w args_r args_w,
    pipes (events r) = [(status_r, status_w); (args_r, args_w)] /\
    map fst (closes (events r)) =
      filter (fun fd => negb (fd =? Z.of_N status_w) && negb (fd =? Z.of_N args_r))
        (descriptors_from (Z.to_nat (FIREJAIL_MAX_FD - 3)) 3) /\
    writes (events r) = [] /\ reads (events r) = [] /\
    (result r =
       Halted (Exec ["SBOX_USER"; "SBOX_SECCOMP"; "SBOX_CAPS_NONE"; "SBOX_KEEP_FDS"]
                 ["/usr/bin/xdg-dbus-proxy";
                  "--fd=" ++ decimal (Z.of_N status_w);
                  "--args=" ++ decimal (Z.of_N args_r)]) \/
     result r = Halted (ErrExit "asprintf")).
Proof.
  cbn zeta.
  apply (every_run_sound h (dbus_proxy_start hd) (fun t o =>
    forks t = [0] ->
    exists status_r status_w args_r args_w,
      pipes t = [(status_r, status_w); (args_r, args_w)] /\
      map fst (closes t) =
        filter (fun fd => negb (fd =? Z.of_N status_w) && negb (fd =? Z.of_N args_r))
          (descriptors_from (Z.to_nat (FIREJAIL_MAX_FD - 3)) 3) /\
      writes t = [] /\ reads t = [] /\
      (o = Halted (Exec ["SBOX_USER"; "SBOX_SECCOMP"; "SBOX_CAPS_NONE"; "SBOX_KEEP_FDS"]
                     ["/usr/bin/xdg-dbus-proxy";
                      "--fd=" ++ decimal (Z.of_N status_w);
                      "--args=" ++ decimal (Z.of_N args_r)]) \/
       o = Halted (ErrExit "asprintf")))).
  unfold dbus_proxy_start.
  apply every_run_bind.
  apply (every_run_only_calls dir_call _ only_calls_create_user_dir).
  intros td o Hd.
  pose proof (silent_on_class dir_call fork_of dir_call_fork td Hd) as Hdf.
  pose proof (silent_on_class dir_call pipe_of dir_call_pipe td Hd) as Hdp.
  pose proof (silent_on_class dir_call close_of dir_call_close td Hd) as Hdc.
  pose proof (silent_on_class dir_call write_of dir_call_write td Hd) as Hdw.
  pose proof (silent_on_class dir_call read_of dir_call_read td Hd) as Hdr.
  destruct o as [[]|x].
  2:{ unfold forks. rewrite Hdf. discriminate. }
  run_call. destruct r as [[sr sw]|].
  2:{ run_all. unfold forks. rewrite flat_map_app, Hdf. discriminate. }
  run_call. destruct r as [[ar aw]|].
  2:{ run_all. unfold forks. rewrite flat_map_app, Hdf. discriminate. }
  run_call. rename r into pid.
  destruct (pid =? -1) eqn:E1.
  { apply Z.eqb_eq in E1. subst pid. run_all.
    unfold forks. rewrite flat_map_app, Hdf. discriminate. }
  destruct (pid =? 0) eqn:E0.
  2:{ apply every_run_trivial. intros t o.
      unfold forks. rewrite flat_map_app, Hdf. cbn.
      intros H. injection H as H _. apply Z.eqb_neq in E0. contradiction. }
  apply Z.eqb_eq in E0. subst pid. cbv beta match.
  unfold dbus_proxy_start_child, sbox_exec_v, asprintf, printf.
  apply every_run_bind.
  eapply every_run_weaken;
    [|exact (close_open_files_every_run (Z.of_N sw) (Z.of_N ar)
               (Z.to_nat (FIREJAIL_MAX_FD - 3)) 3)].
  intros tc o (-> & Hcc & Hck).
  pose proof (silent_on_class child_call fork_of child_call_fork tc Hck) as Hcf.
  pose proof (silent_on_class child_call pipe_of child_call_pipe tc Hck) as Hcp.
  pose proof (silent_on_class child_call write_of child_call_write tc Hck) as Hcw.
  pose proof (silent_on_class child_call read_of child_call_read tc Hck) as Hcr.
  rewrite !(vasprintf_percent_d_end "--fd=" _ eq_refl).
  rewrite !(vasprintf_percent_d_end "--args=" _ eq_refl).
  repeat (run_format || run_step).
  all: intros _; exists sr, sw, ar, aw.
  all: unfold pipes, closes, writes, reads.
  all: rewrite !flat_map_app; cbn [flat_map List.app pipe_of close_of write_of read_of].
  all: rewrite ?flat_map_app; cbn [flat_map List.app pipe_of close_of write_of read_of].
  all: rewrite ?Hdp, ?Hdc, ?Hdw, ?Hdr, ?Hcp, ?Hcw, ?Hcr, ?app_nil_r; cbn [List.app].
  all: fold (closes tc); rewrite Hcc.
  all: repeat split; auto.
Qed.

(** X7: when [fork] returns 0 in [dbus_proxy_start], the process is the
    child.  It closes the descriptors from 3 up to [FIREJAIL_MAX_FD] - 1,
    in order, except the write end of the status pipe and the read end
    of the arguments pipe, which are the two the proxy needs, and it
    closes no other: a descriptor is closed exactly when its number lies
    in that range and is not one of the two.  So the child's copy of one
    of the parent's ends of the pipes is closed only if its number is
    below [FIREJAIL_MAX_FD]; one numbered [FIREJAIL_MAX_FD] or more stays
    open.  The child writes and reads nothing, and it ends by executing
    [/usr/bin/xdg-dbus-proxy] with [--fd=] and [--args=] naming the two
    descriptors it kept, unless no room is found for these arguments. *)
Theorem dbus_proxy_start_child_run
    (St : Type) (h : handler St) (s : St) (hd : ProxyHandle) :
  let r := interp h (dbus_proxy_start hd) s in
  forks (events r) = [0] ->
  exists status_r status_w args_r args_w,
    pipes (events r) = [(status_r, status_w); (args_r, args_w)] /\
    map fst (closes (events r)) =
      filter (fun fd => negb (fd =? Z.of_N status_w) && negb (fd =? Z.of_N args_r))
        (descriptors_from (Z.to_nat (FIREJAIL_MAX_FD - 3)) 3) /\
    (forall fd, In fd (map fst (closes (events r))) <->
                3 <= fd < FIREJAIL_MAX_FD /\
                fd <> Z.of_N status_w /\ fd <> Z.of_N args_r) /\
    (FIREJAIL_MAX_FD <= Z.of_N status_r ->
     ~ In (Z.of_N status_r) (map fst (closes (events r)))) /\
    (FIREJAIL_MAX_FD <= Z.of_N args_w ->
     ~ In (Z.of_N args_w) (map fst (closes (events r)))) /\
    writes (events r) = [] /\ reads (events r) = [] /\
    (result r =
       Halted (Exec ["SBOX_USER"; "SBOX_SECCOMP"; "SBOX_CAPS_NONE"; "SBOX_KEEP_FDS"]
                 ["/usr/bin/xdg-dbus-proxy";
                  "--fd=" ++ decimal (Z.of_N status_w);
                  "--args=" ++ decimal (Z.of_N args_r)]) \/
     result r = Halted (ErrExit "asprintf")).
Proof.
  cbn zeta. intros Hfork.
  destruct (child_run St h s hd Hfork)
    as (status_r & status_w & args_r & args_w & Hpipes & Hcloses & Hw & Hr & Hend).
  exists status_r, status_w, args_r, args_w.
  assert (Hin : forall fd,
             In fd (map fst (closes (events (interp h (dbus_proxy_start hd) s)))) <->
             3 <= fd < FIREJAIL_MAX_FD /\
             fd <> Z.of_N status_w /\ fd <> Z.of_N args_r).
  { intros fd. rewrite Hcloses, filter_In, In_descriptors_from, andb_true_iff,
      !negb_true_iff, !Z.eqb_neq. lia. }
  split; [exact Hpipes|]. split; [exact Hcloses|]. split; [exact Hin|].
  split; [intros Hhigh Hc; apply Hin in Hc; lia|].
  split; [intros Hhigh Hc; apply Hin in Hc; lia|].
  auto.
Qed.

(** ** ProxyProcess: the session-bus address as a format *)

(** A format that asks for an argument cannot be printed with none. *)
Lemma asks_for_argument_undefined (n : nat) : forall format,
  (String.length format <= n)%nat ->
  asks_for_argument format = true -> vasprintf format [] = None.
Proof.
  induction n as [|n IH]; intros format Hlen H.
  { destruct format; [discriminate H | cbn in Hlen; lia]. }
  destruct format as [|c rest]; [discriminate H|].
  cbn [String.length] in Hlen. cbn [asks_for_argument] in H. cbn [vasprintf].
  destruct (negb (Ascii.eqb c "%")).
  { rewrite (IH rest); [reflexivity | lia | exact H]. }
  destruct rest as [|c1 rest1]; [discriminate H|].
  cbn [String.length] in Hlen.
  destruct (Ascii.eqb c1 "%").
  { rewrite (IH rest1); [reflexivity | lia | exact H]. }
  destruct (Ascii.eqb c1 "d"); [reflexivity|].
  destruct (Ascii.eqb c1 "s"); [reflexivity | discriminate H].
Qed.

(** X11: [dbus_proxy_start] hands the session-bus address of the
    environment to [write_arg] as its format, with no argument.  With the
    user bus filtered, an address in which a [%d] or a [%s] comes before
    any other conversion makes the behaviour of the parent undefined at
    that point, before anything is written to the arguments pipe. *)
Theorem dbus_proxy_start_address_format
    (St : Type) (h : handler St) (s : St) (hd : ProxyHandle) (address : string) :
  let r := interp h (dbus_proxy_start hd) s in
  arg_dbus_user cfg = DBUS_POLICY_FILTER ->
  session_address (events r) = Some address ->
  asks_for_argument address = true ->
  result r = Halted Undefined /\ writes (events r) = [].
Proof.
  cbn zeta. intros Hfilter Haddress Hasks.
  pose proof (asks_for_argument_undefined _ address (le_n _) Hasks) as Hundef.
  clear Hasks. revert Haddress Hundef.
  apply (every_run_sound h (dbus_proxy_start hd) (fun t o =>
    session_address t = Some address -> vasprintf address [] = None ->
    o = Halted Undefined /\ writes t = [])).
  unfold dbus_proxy_start.
  apply every_run_bind.
  apply (every_run_only_calls dir_call _ only_calls_create_user_dir).
  intros td o Hd.
  pose proof (silent_on_class dir_call getenv_of dir_call_getenv td Hd) as Hdg.
  pose proof (silent_on_class dir_call write_of dir_call_write td Hd) as Hdw.
  assert (Hhead : forall t, session_address (td ++ t) = session_address t).
  { intros t. unfold session_address, getenvs. now rewrite flat_map_app, Hdg. }
  destruct o as [[]|x].
  2:{ unfold session_address, getenvs. rewrite Hdg. discriminate. }
  run_call. destruct r as [[sr sw]|].
  2:{ run_all. rewrite Hhead. discriminate. }
  run_call. destruct r as [[ar aw]|].
  2:{ run_all. rewrite Hhead. discriminate. }
  run_call. rename r into pid.
  destruct (pid =? -1).
  { run_all. rewrite Hhead. discriminate. }
  destruct (pid =? 0).
  { apply (every_run_only_calls child_call _
             (only_calls_child ProxyHandle (Z.of_N sw) (Z.of_N ar))).
    intros tc o Hc. rewrite Hhead.
    unfold session_address, getenvs. cbn [flat_map getenv_of List.app].
    now rewrite (silent_on_class child_call getenv_of child_call_getenv tc Hc). }
  unfold dbus_proxy_start_configure, dbus_proxy_start_user.
  rewrite Hfilter. cbn [policy_eqb].
  run_call. destruct (r =? -1).
  { run_all. rewrite Hhead. discriminate. }
  run_call. destruct (r0 =? -1).
  { run_all. rewrite Hhead. discriminate. }
  run_call. destruct r1 as [env|].
  2:{ apply every_run_trivial. intros t o. rewrite Hhead. discriminate. }
  unfold write_arg at 1.
  destruct (vasprintf env []) as [arg|] eqn:Eenv.
  { apply every_run_trivial. intros t o. rewrite Hhead.
    intros H. injection H as ->. congruence. }
  run_all. intros _ _. split; [reflexivity|].
  unfold writes. rewrite flat_map_app. fold (writes td). unfold writes at 1.
  now rewrite Hdw.
Qed.

(** ** ProxyProcess: the parent *)

Lemma every_run_bind_any {A B : Type} (p : prog A) (f : A -> prog B)
    (R : outcome B -> Prop) :
  (forall x, R (Halted x)) ->
  (forall a, every_run (f a) (fun _ o => R o)) ->
  every_run (bind p f) (fun _ o => R o).
Proof.
  intros Hx Hf. apply every_run_bind. apply every_run_trivial.
  intros t [a|x]; [apply Hf | apply Hx].
Qed.

(** The configuration of a bus makes calls of its class only and leaves
    the process id and the status descriptor of the handle alone. *)
Lemma start_user_every_run hd args_w :
  every_run (dbus_proxy_start_user hd args_w) (fun t o =>
    forallb (event_class config_call) t = true /\
    forall hd1, o = Done hd1 ->
      dbus_proxy_pid hd1 = dbus_proxy_pid hd /\
      dbus_proxy_status_fd hd1 = dbus_proxy_status_fd hd).
Proof.
  apply every_run_and.
  - apply (every_run_only_calls config_call _ (only_calls_start_user hd args_w)). auto.
  - unfold dbus_proxy_start_user.
    destruct (policy_eqb (arg_dbus_user cfg) DBUS_POLICY_FILTER).
    2:{ cbn. intros hd1 H. injection H as <-. auto. }
    repeat (apply every_run_bind_any; [intros ? ? H; discriminate H | intros ?]).
    cbn. intros hd1 H. injection H as <-. auto.
Qed.

Lemma start_system_every_run hd args_w :
  every_run (dbus_proxy_start_system hd args_w) (fun t o =>
    forallb (event_class config_call) t = true /\
    forall hd1, o = Done hd1 ->
      dbus_proxy_pid hd1 = dbus_proxy_pid hd /\
      dbus_proxy_status_fd hd1 = dbus_proxy_status_fd hd).
Proof.
  apply every_run_and.
  - apply (every_run_only_calls config_call _ (only_calls_start_system hd args_w)). auto.
  - unfold dbus_proxy_start_system.
    destruct (policy_eqb (arg_dbus_system cfg) DBUS_POLICY_FILTER).
    2:{ cbn. intros hd1 H. injection H as <-. auto. }
    repeat (apply every_run_bind_any; [intros ? ? H; discriminate H | intros ?]).
    cbn. intros hd1 H. injection H as <-. auto.
Qed.

(** The child does not return. *)
Lemma child_every_run (A : Type) status_w args_r :
  every_run (@dbus_proxy_start_child A status_w args_r)
    (fun _ o => forall a, o <> Done a).
Proof.
  unfold dbus_proxy_start_child, sbox_exec_v.
  repeat (apply every_run_bind_any; [intros ? ? H; discriminate H | intros ?]).
  cbn. intros ? H. discriminate H.
Qed.

(** The calls of a run of [dbus_proxy_start] that returns: the directory
    set-up, the two pipes, the fork, the closing of the child's ends, the
    configuration of the two buses, the closing of the arguments pipe,
    the one read of the status pipe, and what is printed after it. *)
Lemma start_returns {St : Type} (h : handler St) (s : St) (hd hd' : ProxyHandle) :
  let r := interp h (dbus_proxy_start hd) s in
  result r = Done hd' ->
  exists sr sw ar aw pid c1 c2 c3 td tu ty tw,
    events r =
      (td ++ Ev pipe (Some (sr, sw)) :: Ev pipe (Some (ar, aw)) :: Ev fork pid
          :: Ev (close (Z.of_N sw)) c1 :: Ev (close (Z.of_N ar)) c2
          :: tu ++ ty ++ Ev (close (Z.of_N aw)) c3 :: Ev (read (Z.of_N sr) 1) 1 :: tw)%list /\
    forallb (event_class dir_call) td = true /\
    forallb (event_class config_call) tu = true /\
    forallb (event_class config_call) ty = true /\
    forallb (event_class message_call) tw = true /\
    pid <> 0 /\ pid <> -1 /\ c1 <> -1 /\ c2 <> -1 /\ c3 <> -1 /\
    dbus_proxy_pid hd' = pid /\ dbus_proxy_status_fd hd' = Z.of_N sr.
Proof.
  cbn zeta.
  apply (every_run_sound h (dbus_proxy_start hd) (fun t o =>
    o = Done hd' ->
    exists sr sw ar aw pid c1 c2 c3 td tu ty tw,
      t = (td ++ Ev pipe (Some (sr, sw)) :: Ev pipe (Some (ar, aw)) :: Ev fork pid
              :: Ev (close (Z.of_N sw)) c1 :: Ev (close (Z.of_N ar)) c2
              :: tu ++ ty ++ Ev (close (Z.of_N aw)) c3
              :: Ev (read (Z.of_N sr) 1) 1 :: tw)%list /\
      forallb (event_class dir_call) td = true /\
      forallb (event_class config_call) tu = true /\
      forallb (event_class config_call) ty = true /\
      forallb (event_class message_call) tw = true /\
      pid <> 0 /\ pid <> -1 /\ c1 <> -1 /\ c2 <> -1 /\ c3 <> -1 /\
      dbus_proxy_pid hd' = pid /\ dbus_proxy_status_fd hd' = Z.of_N sr)).
  unfold dbus_proxy_start.
  apply every_run_bind.
  apply (every_run_only_calls dir_call _ only_calls_create_user_dir).
  intros td o Hd. destruct o as [[]|x]; [|discriminate].
  run_call. destruct r as [[sr sw]|]; [|run_all; discriminate].
  run_call. destruct r as [[ar aw]|]; [|run_all; discriminate].
  run_call. rename r into pid.
  destruct (pid =? -1) eqn:E1; [run_all; discriminate|].
  destruct (pid =? 0) eqn:E0.
  { eapply every_run_weaken; [|exact (child_every_run ProxyHandle _ _)].
    intros t o H Ho. now elim (H hd'). }
  apply Z.eqb_neq in E1, E0.
  unfold dbus_proxy_start_configure, dbus_proxy_start_wait.
  run_call. rename r into c1. destruct (c1 =? -1) eqn:Ec1; [run_all; discriminate|].
  run_call. rename r into c2. destruct (c2 =? -1) eqn:Ec2; [run_all; discriminate|].
  apply Z.eqb_neq in Ec1, Ec2. cbv beta match.
  apply every_run_bind. apply every_run_bind.
  eapply every_run_weaken; [|exact (start_user_every_run _ (Z.of_N aw))].
  intros tu o [Hu Hhu]. destruct o as [hd1|x]; [|discriminate].
  destruct (Hhu hd1 eq_refl) as [Hp1 Hf1].
  apply every_run_bind.
  eapply every_run_weaken; [|exact (start_system_every_run hd1 (Z.of_N aw))].
  intros ty o [Hy Hhy]. destruct o as [hd2|x]; [|discriminate].
  destruct (Hhy hd2 eq_refl) as [Hp2 Hf2].
  run_call. rename r into c3. destruct (c3 =? -1) eqn:Ec3; [run_all; discriminate|].
  apply Z.eqb_neq in Ec3.
  unfold fprintf_stderr, printf.
  repeat (run_format || run_step); not_returned.
  all: intros H; injection H as <-.
  all: match goal with E : (?n =? 1) = true |- _ => apply Z.eqb_eq in E; subst n end.
  all: exists sr, sw, ar, aw, pid, c1, c2, c3, td, tu, ty.
  all: eexists; split;
    [rewrite <- ?app_assoc; cbn [List.app]; rewrite <- ?app_assoc; reflexivity|].
  all: rewrite Hp2, Hp1, Hf2, Hf1; cbn; repeat split; auto.
Qed.

Ltac silent_class :=
  let R := fresh "R" in
  let c := fresh "c" in
  let r := fresh "r" in
  intros R c r; destruct c; cbn; intros; (reflexivity || discriminate).

(** A projection of the calls of a run of [dbus_proxy_start] that
    returned, from what it shows of the calls outside the blocks. *)
Ltac project_start f Hd Hu Hy Hw :=
  rewrite !flat_map_app; cbn [flat_map List.app f];
  rewrite ?flat_map_app; cbn [flat_map List.app f];
  rewrite ?(silent_on_class dir_call f ltac:(silent_class) _ Hd),
          ?(silent_on_class config_call f ltac:(silent_class) _ Hu),
          ?(silent_on_class config_call f ltac:(silent_class) _ Hy),
          ?(silent_on_class message_call f ltac:(silent_class) _ Hw);
  cbn [List.app].

(** X8: a run of [dbus_proxy_start] that returns made two pipes and
    forked once, and it is the parent.  It closed exactly three
    descriptors, in this order: the write end of the status pipe, the
    read end of the arguments pipe, and the write end of the arguments
    pipe; it read the status pipe once, for one byte, and got one.  The
    read end of the status pipe stays open, and the handle records it
    together with the process id of the child. *)
Theorem dbus_proxy_start_descriptors
    (St : Type) (h : handler St) (s : St) (hd hd' : ProxyHandle) :
  let r := interp h (dbus_proxy_start hd) s in
  result r = Done hd' ->
  exists status_r status_w args_r args_w pid,
    pipes (events r) = [(status_r, status_w); (args_r, args_w)] /\
    forks (events r) = [pid] /\ pid <> 0 /\ pid <> -1 /\
    map fst (closes (events r)) = [Z.of_N status_w; Z.of_N args_r; Z.of_N args_w] /\
    reads (events r) = [(Z.of_N status_r, 1, 1)] /\
    dbus_proxy_pid hd' = pid /\
    dbus_proxy_status_fd hd' = Z.of_N status_r.
Proof.
  cbn zeta. intros H.
  destruct (start_returns h s hd hd' H)
    as (sr & sw & ar & aw & pid & c1 & c2 & c3 & td & tu & ty & tw & Ht
        & Hd & Hu & Hy & Hw & Hp0 & Hp1 & _ & _ & _ & Hpid & Hfd).
  exists sr, sw, ar, aw, pid. rewrite Ht.
  unfold pipes, forks, closes, reads.
  repeat split; try assumption.
  - project_start pipe_of Hd Hu Hy Hw. reflexivity.
  - project_start fork_of Hd Hu Hy Hw. reflexivity.
  - project_start close_of Hd Hu Hy Hw. reflexivity.
  - project_start read_of Hd Hu Hy Hw. reflexivity.
Qed.

(** The calls of a [dbus_proxy_stop] that returns for a proxy that was
    started: the status descriptor is closed, then the proxy is waited
    for, and the handle is the initial one again. *)
Lemma stop_every_run hd1 :
  every_run (dbus_proxy_stop hd1) (fun t o =>
    forall hd2, o = Done hd2 -> dbus_proxy_pid hd1 <> 0 ->
      exists c w,
        t = [Ev (close (dbus_proxy_status_fd hd1)) c;
             Ev (waitpid (dbus_proxy_pid hd1)) w] /\
        c <> -1 /\ hd2 = initial_handle).
Proof.
  unfold dbus_proxy_stop, fwarning, free.
  destruct (dbus_proxy_pid hd1 =? 0) eqn:Ep.
  { apply Z.eqb_eq in Ep. cbn. intros hd2 _ Hn. contradiction. }
  destruct hd1 as [pid fd [|u|] [|y|]];
    cbn [dbus_proxy_pid dbus_proxy_status_fd dbus_user_proxy_socket
         dbus_system_proxy_socket set_pid set_status_fd set_user_socket
         set_system_socket is_null negb].
  all: repeat (run_format || run_step); not_returned.
  all: intros hd2 H _; injection H as <-.
  all: match goal with
       | |- context [[Ev (close _) ?c; Ev (waitpid _) ?w]] =>
           exists c, w;
           match goal with E : (c =? -1) = false |- _ => apply Z.eqb_neq in E end
       end.
  all: repeat split; auto.
Qed.

(** X9: [dbus_proxy_start] followed by [dbus_proxy_stop], when both
    return, leaves none of the four pipe descriptors open: the three that
    [start] closes and then the read end of the status pipe, each closed
    once.  The process [stop] waits for is the child that [start] forked,
    and it waits after closing the status pipe.  The handle is the
    initial one again. *)
Theorem dbus_proxy_start_then_stop
    (St : Type) (h : handler St) (s : St) (hd hd' : ProxyHandle) :
  let r := interp h (perform_all [op_start; op_stop] hd) s in
  result r = Done hd' ->
  exists status_r status_w args_r args_w pid,
    pipes (events r) = [(status_r, status_w); (args_r, args_w)] /\
    forks (events r) = [pid] /\
    map fst (closes (events r)) =
      [Z.of_N status_w; Z.of_N args_r; Z.of_N args_w; Z.of_N status_r] /\
    waitpids (events r) = [pid] /\
    (exists before c w,
        events r = (before ++ [Ev (close (Z.of_N status_r)) c; Ev (waitpid pid) w])%list) /\
    hd' = initial_handle.
Proof.
  cbn zeta. cbn [perform_all perform]. intros H.
  apply bind_done in H as (hd1 & Hstart & H & _ & _).
  rewrite (events_bind_done h _ _ s hd1 Hstart).
  destruct (start_returns h s hd hd1 Hstart)
    as (sr & sw & ar & aw & pid & c1 & c2 & c3 & td & tu & ty & tw & Ht
        & Hd & Hu & Hy & Hw & Hp0 & Hp1 & _ & _ & _ & Hpid & Hfd).
  set (s1 := final (interp h (dbus_proxy_start hd) s)) in *.
  apply bind_done in H as (hd2 & Hstop & H & _ & _).
  cbn in H. injection H as <-.
  rewrite (events_bind_done h _ _ s1 hd2 Hstop).
  change (events (interp h (Ret hd2) _)) with (@nil event). rewrite app_nil_r.
  pose proof (every_run_sound h (dbus_proxy_stop hd1) _ s1 (stop_every_run hd1)
                hd2 Hstop) as Hs.
  cbv beta in Hs. rewrite Hpid, Hfd in Hs.
  destruct (Hs Hp0) as (c & w & Hts & Hc & ->).
  exists sr, sw, ar, aw, pid. rewrite Ht, Hts.
  unfold pipes, forks, closes, waitpids.
  repeat split.
  - project_start pipe_of Hd Hu Hy Hw. reflexivity.
  - project_start fork_of Hd Hu Hy Hw. reflexivity.
  - project_start close_of Hd Hu Hy Hw. reflexivity.
  - project_start waitpid_of Hd Hu Hy Hw. reflexivity.
  - eexists; exists c, w. reflexivity.
Qed.

(** X10: once [dbus_proxy_stop] has returned, stopping again does
    nothing: any number of further calls of [dbus_proxy_stop] make no
    call to the environment and leave the handle as it is. *)
Theorem dbus_proxy_stop_idempotent
    (St : Type) (h : handler St) (s : St) (hd hd1 : ProxyHandle) :
  result (interp h (dbus_proxy_stop hd) s) = Done hd1 ->
  forall (n : nat) (s' : St),
    let r := interp h (perform_all (repeat op_stop n) hd1) s' in
    events r = [] /\ result r = Done hd1 /\ final r = s'.
Proof.
  intros H.
  assert (Hp : dbus_proxy_pid hd1 = 0).
  { destruct (stop_handle h hd s hd1 H) as [[Hp ->]|[_ ->]]; [exact Hp | reflexivity]. }
  assert (Hret : dbus_proxy_stop hd1 = Ret hd1).
  { unfold dbus_proxy_stop. now rewrite Hp. }
  induction n as [|n IH]; intros s'; cbn zeta.
  - cbn. auto.
  - cbn [repeat perform_all perform]. rewrite Hret. cbn [bind].
    apply IH.
Qed.

(** ** PolicyOrchestrator: [dbus_apply_policy] *)

Lemma vasprintf_user_address :
  vasprintf DBUS_USER_SOCKET_PATH_FORMAT [ArgInt (getuid cfg)] = Some sandbox_user_address.
Proof.
  exact (vasprintf_percent_d "unix:path=/run/user/" "/bus" (getuid cfg) eq_refl eq_refl).
Qed.

Lemma vasprintf_dbus_launch (home : string) :
  vasprintf "%s/.dbus" [ArgStr home] = Some (c_str home ++ "/.dbus").
Proof. exact (vasprintf_percent_s "" "/.dbus" home eq_refl eq_refl). Qed.

Lemma sandbox_user_socket_advance :
  advance (Z.to_nat (strlen DBUS_SOCKET_PATH_PREFIX)) sandbox_user_address
  = sandbox_user_socket.
Proof. reflexivity. Qed.

(** What the statements about [dbus_apply_policy] read off the calls,
    brought up to date with each call and each test of the walk. *)
Ltac observe :=
  cbn [mounts hidden setenvs warnings checkcfgs getenvs stats bridges
       mount_of disable_of setenv_of warning_of checkcfg_of getenv_of stat_of bridge_of
       flat_map List.app existsb orb andb negb snd map path_of
       handling_disabled staging_found bridge_found session_address
       outside_user_socket after_first_stat is_stat].

(** The walk through [dbus_apply_policy], to the end of every run, for
    each policy of the two buses. *)
Ltac apply_walk :=
  unfold dbus_apply_policy, disable_socket_dir, socket_overlay_ptr, socket_overlay,
    asprintf, free, fwarning, fprintf_stderr;
  unfold enforced;
  unfold both_allowed, is_filter, is_block, is_allow, protocol_without_unix;
  rewrite vasprintf_user_address, vasprintf_dbus_launch;
  change ("D-Bus handling is disabled in Firejail configuration file" ++ nl)
    with disabled_warning;
  rewrite (vasprintf_plain disabled_warning [] eq_refl),
          (vasprintf_plain abstract_socket_warning [] eq_refl);
  destruct (arg_dbus_user cfg), (arg_dbus_system cfg);
  cbn [policy_eqb andb negb];
  repeat (first [ match goal with
                  | |- context [advance _ sandbox_user_address] =>
                      rewrite sandbox_user_socket_advance
                  end
                | run_to_end_step
                | rewrite vasprintf_proc_fd
                | run_format ];
          observe).

(** At the end of a run that returned: the handle it returned. *)
Ltac returned_at_end :=
  unfold at_end;
  try (intros; discriminate);
  let hd' := fresh "hd'" in
  let H := fresh "H" in
  intros hd' H; injection H as <-.

(** X13: a [dbus_apply_policy] that returns has bound, for each filtered
    bus, the proxy socket the handle holds over the socket of that bus:
    over [/run/user/<uid>/bus] for the user bus, then over
    [/run/dbus/system_bus_socket] for the system bus.  It mounts nothing
    else, and nothing at all when both buses are allowed or when D-Bus
    handling is switched off in the configuration file, whatever the
    policies say. *)
Theorem dbus_apply_policy_mounts
    (St : Type) (h : handler St) (s : St) (hd hd' : ProxyHandle) :
  let r := interp h (dbus_apply_policy hd) s in
  result r = Done hd' ->
  mounts (events r) =
    if enforced (events r) then
      ((if is_filter (arg_dbus_user cfg)
        then map (fun path => (path, sandbox_user_socket))
               (path_of (dbus_user_proxy_socket hd))
        else []) ++
       (if is_filter (arg_dbus_system cfg)
        then map (fun path => (path, DBUS_SYSTEM_SOCKET))
               (path_of (dbus_system_proxy_socket hd))
        else []))%list
    else [].
Proof.
  cbn zeta. revert hd'.
  apply (every_run_sound h (dbus_apply_policy hd) (fun t o => at_end (
    forall hd', o = Done hd' ->
    mounts t =
      if enforced t then
        ((if is_filter (arg_dbus_user cfg)
          then map (fun path => (path, sandbox_user_socket))
                 (path_of (dbus_user_proxy_socket hd))
          else []) ++
         (if is_filter (arg_dbus_system cfg)
          then map (fun path => (path, DBUS_SYSTEM_SOCKET))
                 (path_of (dbus_system_proxy_socket hd))
          else []))%list
      else []))).
  apply_walk.
  all: returned_at_end.
  all: reflexivity.
Qed.

(** X14: the paths a [dbus_apply_policy] that returns has hidden with
    [disable_file_or_dir], in order.  When it enforces the policy: for a
    user bus that is not allowed, the socket [/run/user/<uid>/bus] if the
    bus is blocked; then, if the session-bus address of the environment
    starts with [unix:path=], all that follows that prefix in the
    address, options after the path included, if [strcmp] finds it
    another string than [/run/user/<uid>/bus] (so for an address with
    options it is not the path of the socket that is hidden); then
    [.dbus] in the home directory; for a blocked system bus, its socket.
    Last, and in every case (both buses allowed and handling switched off
    included), the directory of the proxy sockets if [stat] found it. *)
Theorem dbus_apply_policy_hidden
    (St : Type) (h : handler St) (s : St) (hd hd' : ProxyHandle) :
  let r := interp h (dbus_apply_policy hd) s in
  result r = Done hd' ->
  hidden (events r) =
    ((if enforced (events r)
      then user_hidden (session_address (events r)) ++ system_hidden
      else []) ++
     (if staging_found (events r) then [RUN_FIREJAIL_DBUS_DIR] else []))%list /\
  (forall rest, outside_user_socket (Some (DBUS_SOCKET_PATH_PREFIX ++ rest)) = rest).
Proof.
  cbn zeta. intros Hdone. split; [|intros rest; reflexivity].
  revert hd' Hdone.
  apply (every_run_sound h (dbus_apply_policy hd) (fun t o => at_end (
    forall hd', o = Done hd' ->
    hidden t =
      ((if enforced t then user_hidden (session_address t) ++ system_hidden else []) ++
       (if staging_found t then [RUN_FIREJAIL_DBUS_DIR] else []))%list))).
  unfold user_hidden, system_hidden, dbus_launch_directory.
  apply_walk.
  all: returned_at_end.
  all: reflexivity.
Qed.

(** X15: a [dbus_apply_policy] that returns has set the session-bus
    address of the environment exactly when it enforces a policy for a
    user bus that is not allowed, and then once, to
    [unix:path=/run/user/<uid>/bus], overwriting what was there; with the
    user bus allowed, or handling switched off, the environment is left
    as it is. *)
Theorem dbus_apply_policy_environment
    (St : Type) (h : handler St) (s : St) (hd hd' : ProxyHandle) :
  let r := interp h (dbus_apply_policy hd) s in
  result r = Done hd' ->
  setenvs (events r) =
    if enforced (events r) && negb (is_allow (arg_dbus_user cfg))
    then [(DBUS_SESSION_BUS_ADDRESS_ENV, sandbox_user_address, 1)]
    else [].
Proof.
  cbn zeta. revert hd'.
  apply (every_run_sound h (dbus_apply_policy hd) (fun t o => at_end (
    forall hd', o = Done hd' ->
    setenvs t =
      if enforced t && negb (is_allow (arg_dbus_user cfg))
      then [(DBUS_SESSION_BUS_ADDRESS_ENV, sandbox_user_address, 1)]
      else []))).
  apply_walk.
  all: returned_at_end.
  all: reflexivity.
Qed.

(** X16: the warnings of a [dbus_apply_policy] that returns.  With both
    buses allowed there is none.  With handling switched off in the
    configuration file there is the one that says so.  Otherwise there is
    the warning about an abstract socket of the session bus, unless the
    sandbox has no network, a bridge is configured, or the protocol
    filter is compiled in and set to a list without [unix]; with no
    network the bridges are not even asked for. *)
Theorem dbus_apply_policy_warnings
    (St : Type) (h : handler St) (s : St) (hd hd' : ProxyHandle) :
  let r := interp h (dbus_apply_policy hd) s in
  result r = Done hd' ->
  warnings (events r) =
    (if both_allowed then []
     else if handling_disabled (events r) then [disabled_warning]
     else if arg_nonetwork cfg || bridge_found (events r) || protocol_without_unix
     then [] else [abstract_socket_warning]) /\
  (arg_nonetwork cfg = true -> bridges (events r) = []).
Proof.
  cbn zeta. revert hd'.
  apply (every_run_sound h (dbus_apply_policy hd) (fun t o => at_end (
    forall hd', o = Done hd' ->
    warnings t =
      (if both_allowed then []
       else if handling_disabled t then [disabled_warning]
       else if arg_nonetwork cfg || bridge_found t || protocol_without_unix
       then [] else [abstract_socket_warning]) /\
    (arg_nonetwork cfg = true -> bridges t = [])))).
  apply_walk.
  all: returned_at_end.
  all: split; [|try reflexivity; intros; discriminate].
  all: try reflexivity.
  all: destruct HAVE_SECCOMP; try reflexivity; discriminate.
Qed.

(** X17: a [dbus_apply_policy] that returns has looked for the directory
    of the proxy sockets exactly once, and only after its mounts: from
    that [stat] on it mounts nothing and hides nothing but that directory,
    which it hides exactly when the [stat] found it.  The sockets are
    bound over the buses before the directory they live in is hidden. *)
Theorem dbus_apply_policy_staging_last
    (St : Type) (h : handler St) (s : St) (hd hd' : ProxyHandle) :
  let r := interp h (dbus_apply_policy hd) s in
  result r = Done hd' ->
  map fst (stats (events r)) = [RUN_FIREJAIL_DBUS_DIR] /\
  mounts (after_first_stat (events r)) = [] /\
  hidden (after_first_stat (events r)) =
    (if staging_found (events r) then [RUN_FIREJAIL_DBUS_DIR] else []).
Proof.
  cbn zeta. revert hd'.
  apply (every_run_sound h (dbus_apply_policy hd) (fun t o => at_end (
    forall hd', o = Done hd' ->
    map fst (stats t) = [RUN_FIREJAIL_DBUS_DIR] /\
    mounts (after_first_stat t) = [] /\
    hidden (after_first_stat t) =
      (if staging_found t then [RUN_FIREJAIL_DBUS_DIR] else [])))).
  apply_walk.
  all: returned_at_end.
  all: repeat split; reflexivity.
Qed.

(** X18: [dbus_apply_policy] needs the proxy to have been started.  When
    it enforces the policy and a filtered bus has no proxy socket in the
    handle (no [dbus_proxy_start] before, or a [dbus_proxy_stop] since),
    it does not return; when that bus is the user bus, it stops before it
    has mounted, hidden or set anything. *)
Theorem dbus_apply_policy_needs_start
    (St : Type) (h : handler St) (s : St) (hd : ProxyHandle) :
  let r := interp h (dbus_apply_policy hd) s in
  handling_disabled (events r) = false ->
  (arg_dbus_user cfg = DBUS_POLICY_FILTER /\ dbus_user_proxy_socket hd = NULL) \/
  (arg_dbus_system cfg = DBUS_POLICY_FILTER /\ dbus_system_proxy_socket hd = NULL) ->
  (forall hd', result r <> Done hd') /\
  (arg_dbus_user cfg = DBUS_POLICY_FILTER -> dbus_user_proxy_socket hd = NULL ->
   mounts (events r) = [] /\ hidden (events r) = [] /\ setenvs (events r) = []).
Proof.
  cbn zeta.
  apply (every_run_sound h (dbus_apply_policy hd) (fun t o => at_end (
    handling_disabled t = false ->
    (arg_dbus_user cfg = DBUS_POLICY_FILTER /\ dbus_user_proxy_socket hd = NULL) \/
    (arg_dbus_system cfg = DBUS_POLICY_FILTER /\ dbus_system_proxy_socket hd = NULL) ->
    (forall hd', o <> Done hd') /\
    (arg_dbus_user cfg = DBUS_POLICY_FILTER -> dbus_user_proxy_socket hd = NULL ->
     mounts t = [] /\ hidden t = [] /\ setenvs t = [])))).
  apply_walk.
  all: unfold at_end; intros Hon [[Hp Hn]|[Hp Hn]]; try discriminate.
  all: split; [intros hd' Hd; discriminate Hd|].
  all: intros Hp' Hn'; try discriminate.
  all: repeat split; reflexivity.
Qed.

End Dbus.

(** * The properties on a sample machine *)

Import Sample.

Lemma profile_c_strings : Forall c_string (cfg_profile cfg).
Proof. repeat constructor. Qed.

(** A sequence that runs to its end: [start] then [stop] gives back the
    initial handle. *)
Lemma proxy_handle_lifecycle_sample :
  handle_invariant initial_handle /\
  dbus_proxy_pid initial_handle = 0 /\
  dbus_proxy_status_fd initial_handle = -1 /\
  dbus_user_proxy_socket initial_handle = NULL /\
  dbus_system_proxy_socket initial_handle = NULL.
Proof.
  assert (H : result (interp os_handler
                (perform_all RUN_FIREJAIL_DBUS_DIR FIREJAIL_MAX_FD HAVE_SECCOMP cfg
                   [op_start; op_stop] initial_handle) os) = Done initial_handle)
    by (vm_compute; reflexivity).
  destruct (proxy_handle_lifecycle _ _ _ _ _ _ _ _ _ H) as (Hinv & _ & Hstop).
  split; [exact Hinv|]. exact (Hstop [op_start] eq_refl).
Defined.

(** C1: the handle is not cleared by every [stop].  With a Filter policy
    on the user bus, a [stop] that follows [start] and [apply] in one
    process frees a second time the socket path that [apply] freed and
    left in the pointer; and a [stop] after a proxy that exited with a
    status other than zero hands that status, an [int], to the [%s] of its
    warning, before it has cleared anything.  Both are undefined
    behaviour: the program does not reach a state with the process id at
    zero and both paths cleared. *)
Theorem dbus_proxy_stop_undefined :
  result (interp os_handler
            (perform_all RUN_FIREJAIL_DBUS_DIR FIREJAIL_MAX_FD HAVE_SECCOMP cfg
               [op_start; op_apply; op_stop] initial_handle) os_proxied)
  = Halted Undefined /\
  result (interp os_handler
            (perform_all RUN_FIREJAIL_DBUS_DIR FIREJAIL_MAX_FD HAVE_SECCOMP cfg
               [op_start; op_stop] initial_handle) os_failing)
  = Halted Undefined.
Proof. split; vm_compute; reflexivity. Qed.

(** C4, as stated, does not hold: with a session-bus variable in the
    environment that holds no well-formed address, the parent returns
    having written what the variable holds, not the default address. *)
Lemma dbus_proxy_start_writes_any_address :
  (exists hd,
      result (interp os_handler
                (dbus_proxy_start RUN_FIREJAIL_DBUS_DIR FIREJAIL_MAX_FD cfg
                   initial_handle) os_malformed) = Done hd) /\
  writes (events (interp os_handler
                    (dbus_proxy_start RUN_FIREJAIL_DBUS_DIR FIREJAIL_MAX_FD cfg
                       initial_handle) os_malformed)) <>
  map (fun a => (6, nul_terminated a))
    (claimed_start_arguments RUN_FIREJAIL_DBUS_DIR cfg (Some malformed_address)) /\
  writes (events (interp os_handler
                    (dbus_proxy_start RUN_FIREJAIL_DBUS_DIR FIREJAIL_MAX_FD cfg
                       initial_handle) os_malformed)) =
  map (fun a => (6, nul_terminated a))
    (start_arguments RUN_FIREJAIL_DBUS_DIR cfg (Some malformed_address)).
Proof.
  split; [eexists; vm_compute; reflexivity|].
  split; [vm_compute; discriminate | vm_compute; reflexivity].
Qed.

(** C4 (amended) on the sample machine, with no session-bus address in
    the environment. *)
Lemma dbus_proxy_start_arguments_witness :
  exists pre args_w c tail,
    events (interp os_handler
              (dbus_proxy_start RUN_FIREJAIL_DBUS_DIR FIREJAIL_MAX_FD cfg
                 initial_handle) os)
    = (pre ++ Ev (close (Z.of_N args_w)) c :: tail)%list /\
    (exists status_r status_w args_r,
        pipes pre = [(status_r, status_w); (args_r, args_w)]) /\
    c <> -1 /\
    writes pre =
      map (fun a => (Z.of_N args_w, nul_terminated a))
        (start_arguments RUN_FIREJAIL_DBUS_DIR cfg
           (session_address
              (events (interp os_handler
                         (dbus_proxy_start RUN_FIREJAIL_DBUS_DIR FIREJAIL_MAX_FD cfg
                            initial_handle) os)))) /\
    writes tail = [].
Proof.
  eapply (dbus_proxy_start_arguments RUN_FIREJAIL_DBUS_DIR FIREJAIL_MAX_FD cfg
            OS os_handler os initial_handle).
  - reflexivity.
  - exact profile_c_strings.
  - vm_compute. reflexivity.
  - intros address Hin. vm_compute in Hin. destruct Hin as [E | []]. discriminate.
Defined.

(** C5 on the sample machine: the proxy reports ready. *)
Lemma dbus_proxy_start_status_read_witness :
  reads (firstn 20 (events (interp os_handler
                              (dbus_proxy_start RUN_FIREJAIL_DBUS_DIR
                                 FIREJAIL_MAX_FD cfg initial_handle) os))) = [] /\
  exists n tail,
    skipn 21 (events (interp os_handler
                        (dbus_proxy_start RUN_FIREJAIL_DBUS_DIR
                           FIREJAIL_MAX_FD cfg initial_handle) os))
    = Ev (read (Z.of_N 3) 1) n :: tail /\
    reads tail = [] /\
    n = 1.
Proof.
  destruct (dbus_proxy_start_status_read RUN_FIREJAIL_DBUS_DIR FIREJAIL_MAX_FD cfg
              OS os_handler os initial_handle
              (firstn 20 (events (interp os_handler
                                    (dbus_proxy_start RUN_FIREJAIL_DBUS_DIR
                                       FIREJAIL_MAX_FD cfg initial_handle) os)))
              3%N 6%N 4243 0
              (skipn 21 (events (interp os_handler
                                   (dbus_proxy_start RUN_FIREJAIL_DBUS_DIR
                                      FIREJAIL_MAX_FD cfg initial_handle) os))))
    as (Hpre & n & tail & Hrest & Htail & Hcases).
  - unfold parent_closed_arguments_pipe. split; [vm_compute; reflexivity|].
    split; [exists 4%N, 5%N; vm_compute; reflexivity|].
    split; [vm_compute; reflexivity|].
    repeat split; try discriminate; vm_compute; reflexivity.
  - split; [exact Hpre|]. exists n, tail. split; [exact Hrest|].
    split; [exact Htail|].
    assert (Hdone : exists hd,
               result (interp os_handler
                         (dbus_proxy_start RUN_FIREJAIL_DBUS_DIR FIREJAIL_MAX_FD cfg
                            initial_handle) os) = Done hd)
      by (eexists; vm_compute; reflexivity).
    destruct Hdone as [hd Hdone].
    destruct Hcases as [[Hn _] | [(_ & Hr & _) | [(_ & Hr & _) | (_ & Hr & _)]]];
      [exact Hn | | |]; rewrite Hdone in Hr; discriminate.
Defined.

(** C8, as stated, does not hold: with the user bus blocked and rules
    for it in the profile, [dbus_check_bus_profile] emits two warnings,
    not exactly one. *)
Lemma dbus_check_bus_profile_two_warnings :
  result (interp os_handler
            (dbus_check_bus_profile cfg "dbus-user" DBUS_POLICY_BLOCK) os) = Done tt /\
  List.length
    (warnings (events (interp os_handler
                         (dbus_check_bus_profile cfg "dbus-user" DBUS_POLICY_BLOCK) os)))
  = 2%nat /\
  List.length
    (warnings (events (interp os_handler
                         (dbus_check_bus_profile cfg "dbus-user" DBUS_POLICY_BLOCK) os)))
  <> 1%nat.
Proof.
  split; [vm_compute; reflexivity|].
  split; [vm_compute; reflexivity | vm_compute; discriminate].
Qed.

(** C8 (amended) on the sample machine: the user bus blocked, with two
    rules for it in the profile. *)
Lemma dbus_check_bus_profile_first_match_witness :
  let r := interp os_handler
             (dbus_check_bus_profile cfg "dbus-user" DBUS_POLICY_BLOCK) os in
  result r = Done tt /\
  warnings (events r)
  = [blocked_message "dbus-user";
     ignoring_message "dbus-user.talk org.foo" "dbus-user"] /\
  names_rule "dbus-user.talk org.foo" (blocked_message "dbus-user") = false /\
  names_rule "dbus-user.talk org.foo"
    (ignoring_message "dbus-user.talk org.foo" "dbus-user") = true.
Proof.
  assert (Hp : c_string "dbus-user") by (cbn; repeat split; reflexivity).
  destruct (dbus_check_bus_profile_first_match cfg OS os_handler os "dbus-user"
              DBUS_POLICY_BLOCK Hp eq_refl profile_c_strings)
    as (_ & Hdone & Hwarn & Hfirst & Hsecond).
  repeat split; assumption.
Defined.

(** C9 on the sample machine, whose profile is the three lines of the
    example: [write_profile] returns, having written the one argument. *)
Lemma write_profile_collect_arguments_witness :
  let r := interp os_handler (write_profile cfg 6 "dbus-user.") os in
  result r = Done tt /\
  diagnostics (events r) = [] /\
  writes (events r) =
    map (fun a => (6, nul_terminated a)) (collect_arguments "dbus-user" (cfg_profile cfg)) /\
  writes (events r) = [(6, nul_terminated "--talk=org.foo")].
Proof.
  assert (Hp : c_string "dbus-user") by (cbn; repeat split; reflexivity).
  assert (Hdone : result (interp os_handler (write_profile cfg 6 "dbus-user.") os)
                  = Done tt) by (vm_compute; reflexivity).
  destruct (write_profile_collect_arguments cfg OS os_handler os 6 "dbus-user"
              Hp profile_c_strings) as (Hquiet & Hwrites & Hexample).
  split; [exact Hdone|]. split; [exact Hquiet|].
  split; [exact (Hwrites Hdone) | exact (Hexample Hdone eq_refl eq_refl)].
Defined.

(** C7: on a machine where another process replaces the file at the
    proxy path between the check and the mount, [socket_overlay] returns
    having examined the socket and bound the other file, which is no
    socket, over the target: the mount names the path again, not the
    descriptor that was examined. *)
Theorem socket_overlay_mounts_by_path :
  let r := interp os_handler (socket_overlay session_bus user_proxy_socket) os_racy in
  result r = Done tt /\
  fstats (events r) = [Some (i_stat regular_socket)] /\
  verified_socket (events r) = true /\
  mounts (events r) = [(user_proxy_socket, session_bus)] /\
  os_mounts (final r) = [(session_bus, rival_file)] /\
  is_socket (Some (i_stat rival_file)) = false.
Proof. vm_compute. repeat split; reflexivity. Qed.

(** The model of the operating system keeps a file system. *)
Lemma os_keeps_files : keeps_files os_handler os_fs.
Proof.
  split.
  - reflexivity.
  - intros path mode s Hmode Hnone. right. cbn [os_handler]. rewrite Hnone.
    exists (new_directory s mode). cbn [snd os_with_fs os_fs]. unfold update.
    rewrite String.eqb_refl. split; [reflexivity|].
    unfold S_ISDIR. cbn [new_directory i_stat st_mode].
    rewrite Z.land_lor_distr_l, Hmode. reflexivity.
  - intros path uid gid mode s i Hmode Hsome _. exists (with_perms i uid gid mode).
    cbn [os_handler]. rewrite Hsome. cbn [snd os_with_fs os_fs]. unfold update.
    rewrite String.eqb_refl. split; [reflexivity|].
    unfold S_ISDIR. cbn [with_perms i_stat st_mode].
    now rewrite Z.land_lor_distr_l, Hmode, Z.lor_0_r, <- Z.land_assoc, Z.land_diag.
  - intros R c s path Hc. destruct c; try discriminate Hc; reflexivity.
Qed.

(** C10, as stated, does not hold: where the staging path exists already
    with mode 0755 and root as owner, [dbus_proxy_start] forks the child
    and the directory is not private at that point; and where a regular
    file is at the path, it forks with no directory there at all. *)
Lemma staging_directory_not_private_at_fork :
  forks (events (interp os_handler
                   (dbus_proxy_start RUN_FIREJAIL_DBUS_DIR FIREJAIL_MAX_FD cfg
                      initial_handle) os_public)) = [4243] /\
  forks_with_private_directory RUN_FIREJAIL_DBUS_DIR cfg os_fs
    (trace (interp os_handler
              (dbus_proxy_start RUN_FIREJAIL_DBUS_DIR FIREJAIL_MAX_FD cfg
                 initial_handle) os_public))
  = false /\
  forks (events (interp os_handler
                   (dbus_proxy_start RUN_FIREJAIL_DBUS_DIR FIREJAIL_MAX_FD cfg
                      initial_handle) Machines.os_occupied)) = [4243] /\
  map (fun se => os_fs (fst se) staging)
    (filter (fun se => is_fork (snd se))
       (trace (interp os_handler
                 (dbus_proxy_start RUN_FIREJAIL_DBUS_DIR FIREJAIL_MAX_FD cfg
                    initial_handle) Machines.os_occupied)))
  = [Some Machines.private_file] /\
  S_ISDIR (st_mode (i_stat Machines.private_file)) = false.
Proof. vm_compute. repeat split; reflexivity. Qed.

(** C10 (amended) on the sample machine.  With the directory of the
    proxy sockets empty before the start, there is a private staging
    directory at the fork; with a staging directory of mode 0755 already
    there, the set-up returns without a [mkdir] and the fork finds the
    directory as it was. *)
Lemma staging_directory_at_fork_witness :
  forks (events (interp os_handler
                   (dbus_proxy_start RUN_FIREJAIL_DBUS_DIR FIREJAIL_MAX_FD cfg
                      initial_handle) os_booted)) = [4243] /\
  forks_with_private_directory RUN_FIREJAIL_DBUS_DIR cfg os_fs
    (trace (interp os_handler
              (dbus_proxy_start RUN_FIREJAIL_DBUS_DIR FIREJAIL_MAX_FD cfg
                 initial_handle) os_booted))
  = true /\
  mkdirs (events (interp os_handler
                    (dbus_create_user_dir RUN_FIREJAIL_DBUS_DIR cfg) os_public)) = [] /\
  result (interp os_handler
            (dbus_create_user_dir RUN_FIREJAIL_DBUS_DIR cfg) os_public) = Done tt /\
  (forall s1 e,
      In (s1, e) (trace (interp os_handler
                           (dbus_proxy_start RUN_FIREJAIL_DBUS_DIR FIREJAIL_MAX_FD cfg
                              initial_handle) os_public)) ->
      is_fork e = true -> os_fs s1 staging = Some public_directory).
Proof.
  split; [vm_compute; reflexivity|].
  destruct (staging_directory_at_fork RUN_FIREJAIL_DBUS_DIR FIREJAIL_MAX_FD cfg
              OS os_handler os_fs os_booted initial_handle os_keeps_files eq_refl)
    as (_ & _ & Hprivate).
  destruct (staging_directory_at_fork RUN_FIREJAIL_DBUS_DIR FIREJAIL_MAX_FD cfg
              OS os_handler os_fs os_public initial_handle os_keeps_files eq_refl)
    as (Hfork & Hthere & _).
  split; [apply Hprivate; left; reflexivity|].
  destruct Hthere as (Hmk & _ & Hres); [vm_compute; discriminate|].
  split; [exact Hmk|]. split; [exact Hres|].
  intros s1 e Hin Hf. exact (Hfork s1 e Hin Hf).
Defined.

(** * More properties on the sample machines *)

Import Machines.

Lemma write_arg_single_write_witness :
  let r := interp os_handler (write_arg cfg 6 "--filter" []) os in
  (written (events r) = [] /\ result r = Halted (ErrExit "vasprintf")) \/
  (exists n,
      written (events r) = [(6, "--filter" ++ String NUL EmptyString, n)] /\
      result r = if n =? strlen "--filter" + 1 then Done tt else Halted (ErrExit "write")).
Proof.
  exact (write_arg_single_write cfg OS os_handler os 6 "--filter" [] "--filter" eq_refl).
Defined.

Lemma dbus_create_user_dir_returns_witness :
  let d := interp os_handler (dbus_create_user_dir RUN_FIREJAIL_DBUS_DIR cfg) os in
  (exists found,
      stats (events d) = [(staging, Some found)] /\
      mkdirs (events d) = [] /\ perms_set (events d) = []) \/
  (exists made checked,
      stats (events d) = [(staging, None); (staging, Some checked)] /\
      mkdirs (events d) = [(staging, 0x1C0, made)] /\
      (fst made <> -1 \/ snd made = EEXIST) /\
      perms_set (events d) = [(staging, 1000, 1000, 0x1C0)] /\
      st_uid checked = 1000 /\ st_gid checked = 1000 /\
      Z.land (st_mode checked) 0xFFF = 0x1C0).
Proof.
  apply (dbus_create_user_dir_returns RUN_FIREJAIL_DBUS_DIR cfg OS os_handler os);
    vm_compute; reflexivity.
Defined.

Lemma dbus_proxy_start_child_run_witness :
  let r := interp os_handler
             (dbus_proxy_start RUN_FIREJAIL_DBUS_DIR FIREJAIL_MAX_FD cfg initial_handle)
             os_in_child in
  exists status_r status_w args_r args_w,
    pipes (events r) = [(status_r, status_w); (args_r, args_w)] /\
    map fst (closes (events r)) =
      filter (fun fd => negb (fd =? Z.of_N status_w) && negb (fd =? Z.of_N args_r))
        (descriptors_from (Z.to_nat (FIREJAIL_MAX_FD - 3)) 3) /\
    (forall fd, In fd (map fst (closes (events r))) <->
                3 <= fd < FIREJAIL_MAX_FD /\
                fd <> Z.of_N status_w /\ fd <> Z.of_N args_r) /\
    (FIREJAIL_MAX_FD <= Z.of_N status_r ->
     ~ In (Z.of_N status_r) (map fst (closes (events r)))) /\
    (FIREJAIL_MAX_FD <= Z.of_N args_w ->
     ~ In (Z.of_N args_w) (map fst (closes (events r)))) /\
    writes (events r) = [] /\ reads (events r) = [] /\
    (result r =
       Halted (Exec ["SBOX_USER"; "SBOX_SECCOMP"; "SBOX_CAPS_NONE"; "SBOX_KEEP_FDS"]
                 ["/usr/bin/xdg-dbus-proxy";
                  "--fd=" ++ decimal (Z.of_N status_w);
                  "--args=" ++ decimal (Z.of_N args_r)]) \/
     result r = Halted (ErrExit "asprintf")).
Proof.
  apply (dbus_proxy_start_child_run RUN_FIREJAIL_DBUS_DIR FIREJAIL_MAX_FD cfg
           OS os_handler os_in_child initial_handle).
  vm_compute. reflexivity.
Defined.

Lemma dbus_proxy_start_descriptors_witness :
  let r := interp os_handler
             (dbus_proxy_start RUN_FIREJAIL_DBUS_DIR FIREJAIL_MAX_FD cfg initial_handle)
             os in
  exists status_r status_w args_r args_w pid,
    pipes (events r) = [(status_r, status_w); (args_r, args_w)] /\
    forks (events r) = [pid] /\ pid <> 0 /\ pid <> -1 /\
    map fst (closes (events r)) = [Z.of_N status_w; Z.of_N args_r; Z.of_N args_w] /\
    reads (events r) = [(Z.of_N status_r, 1, 1)] /\
    dbus_proxy_pid started_handle = pid /\
    dbus_proxy_status_fd started_handle = Z.of_N status_r.
Proof.
  apply (dbus_proxy_start_descriptors RUN_FIREJAIL_DBUS_DIR FIREJAIL_MAX_FD cfg
           OS os_handler os initial_handle started_handle).
  vm_compute. reflexivity.
Defined.

Lemma dbus_proxy_start_then_stop_witness :
  let r := interp os_handler
             (perform_all RUN_FIREJAIL_DBUS_DIR FIREJAIL_MAX_FD HAVE_SECCOMP cfg
                [op_start; op_stop] initial_handle) os in
  exists status_r status_w args_r args_w pid,
    pipes (events r) = [(status_r, status_w); (args_r, args_w)] /\
    forks (events r) = [pid] /\
    map fst (closes (events r)) =
      [Z.of_N status_w; Z.of_N args_r; Z.of_N args_w; Z.of_N status_r] /\
    waitpids (events r) = [pid] /\
    (exists before c w,
        events r = (before ++ [Ev (close (Z.of_N status_r)) c; Ev (waitpid pid) w])%list) /\
    initial_handle = initial_handle.
Proof.
  apply (dbus_proxy_start_then_stop RUN_FIREJAIL_DBUS_DIR FIREJAIL_MAX_FD HAVE_SECCOMP cfg
           OS os_handler os initial_handle initial_handle).
  vm_compute. reflexivity.
Defined.

Lemma dbus_proxy_stop_idempotent_witness :
  let r := interp os_handler
             (perform_all RUN_FIREJAIL_DBUS_DIR FIREJAIL_MAX_FD HAVE_SECCOMP cfg
                (repeat op_stop 2) initial_handle) os in
  events r = [] /\ result r = Done initial_handle /\ final r = os.
Proof.
  apply (dbus_proxy_stop_idempotent RUN_FIREJAIL_DBUS_DIR FIREJAIL_MAX_FD HAVE_SECCOMP cfg
           OS os_handler os started_handle initial_handle).
  vm_compute. reflexivity.
Defined.

Lemma dbus_proxy_start_address_format_witness :
  let r := interp os_handler
             (dbus_proxy_start RUN_FIREJAIL_DBUS_DIR FIREJAIL_MAX_FD cfg initial_handle)
             os_format in
  result r = Halted Undefined /\ writes (events r) = [].
Proof.
  apply (dbus_proxy_start_address_format RUN_FIREJAIL_DBUS_DIR FIREJAIL_MAX_FD cfg
           OS os_handler os_format initial_handle format_address);
    vm_compute; reflexivity.
Defined.

Lemma socket_overlay_returns_witness :
  let r := interp os_handler (socket_overlay session_bus user_proxy_socket) os_proxied in
  exists fd st m c,
    fd <> -1 /\ S_ISSOCK (st_mode st) = true /\ m <> -1 /\
    events r =
      [Ev (safe_fd user_proxy_socket (Z.lor (Z.lor O_PATH O_NOFOLLOW) O_CLOEXEC)) fd;
       Ev (fstat fd) (Some st);
       Ev (allocate ("/proc/self/fd/" ++ decimal fd)) true;
       Ev (mount user_proxy_socket session_bus (Z.lor MS_BIND MS_REC)) m;
       Ev (close fd) c].
Proof.
  apply (socket_overlay_returns OS os_handler os_proxied session_bus user_proxy_socket).
  vm_compute. reflexivity.
Defined.

(** [dbus_apply_policy] on the sample machine once the proxy runs: the
    user bus filtered, the system bus blocked. *)
Lemma apply_sample_returns :
  result (interp os_handler
            (dbus_apply_policy RUN_FIREJAIL_DBUS_DIR HAVE_SECCOMP cfg started_handle)
            os_proxied) = Done applied_handle.
Proof. vm_compute. reflexivity. Defined.

Lemma dbus_apply_policy_mounts_witness :
  mounts (events (interp os_handler
                    (dbus_apply_policy RUN_FIREJAIL_DBUS_DIR HAVE_SECCOMP cfg
                       started_handle) os_proxied))
  = [(user_proxy_socket, session_bus)].
Proof.
  rewrite (dbus_apply_policy_mounts RUN_FIREJAIL_DBUS_DIR HAVE_SECCOMP cfg
             OS os_handler os_proxied started_handle applied_handle apply_sample_returns).
  vm_compute. reflexivity.
Defined.

(** The same on the machine where the directories of the proxy socket
    are there and the session-bus address has an option after its path. *)
Lemma apply_running_returns :
  result (interp os_handler
            (dbus_apply_policy RUN_FIREJAIL_DBUS_DIR HAVE_SECCOMP cfg started_handle)
            os_running) = Done applied_handle.
Proof. vm_compute. reflexivity. Defined.

Lemma dbus_apply_policy_hidden_witness :
  hidden (events (interp os_handler
                    (dbus_apply_policy RUN_FIREJAIL_DBUS_DIR HAVE_SECCOMP cfg
                       started_handle) os_running))
  = ["/tmp/custom-bus,guid=abc"; "/home/user/.dbus"; DBUS_SYSTEM_SOCKET;
     RUN_FIREJAIL_DBUS_DIR].
Proof.
  rewrite (proj1 (dbus_apply_policy_hidden RUN_FIREJAIL_DBUS_DIR HAVE_SECCOMP cfg
                    OS os_handler os_running started_handle applied_handle
                    apply_running_returns)).
  vm_compute. reflexivity.
Defined.

Lemma dbus_apply_policy_environment_witness :
  setenvs (events (interp os_handler
                     (dbus_apply_policy RUN_FIREJAIL_DBUS_DIR HAVE_SECCOMP cfg
                        started_handle) os_proxied))
  = [(DBUS_SESSION_BUS_ADDRESS_ENV, "unix:path=/run/user/1000/bus", 1)].
Proof.
  rewrite (dbus_apply_policy_environment RUN_FIREJAIL_DBUS_DIR HAVE_SECCOMP cfg
             OS os_handler os_proxied started_handle applied_handle apply_sample_returns).
  vm_compute. reflexivity.
Defined.

Lemma dbus_apply_policy_warnings_witness :
  warnings (events (interp os_handler
                      (dbus_apply_policy RUN_FIREJAIL_DBUS_DIR HAVE_SECCOMP cfg
                         started_handle) os_proxied))
  = [abstract_socket_warning].
Proof.
  rewrite (proj1 (dbus_apply_policy_warnings RUN_FIREJAIL_DBUS_DIR HAVE_SECCOMP cfg
             OS os_handler os_proxied started_handle applied_handle apply_sample_returns)).
  vm_compute. reflexivity.
Defined.

Lemma dbus_apply_policy_staging_last_witness :
  let r := interp os_handler
             (dbus_apply_policy RUN_FIREJAIL_DBUS_DIR HAVE_SECCOMP cfg started_handle)
             os_proxied in
  map fst (stats (events r)) = [RUN_FIREJAIL_DBUS_DIR] /\
  mounts (after_first_stat (events r)) = [] /\
  hidden (after_first_stat (events r)) =
    (if staging_found (events r) then [RUN_FIREJAIL_DBUS_DIR] else []).
Proof.
  exact (dbus_apply_policy_staging_last RUN_FIREJAIL_DBUS_DIR HAVE_SECCOMP cfg
           OS os_handler os_proxied started_handle applied_handle apply_sample_returns).
Defined.

Lemma dbus_apply_policy_needs_start_witness :
  let r := interp os_handler
             (dbus_apply_policy RUN_FIREJAIL_DBUS_DIR HAVE_SECCOMP cfg initial_handle)
             os in
  (forall hd', result r <> Done hd') /\
  (arg_dbus_user cfg = DBUS_POLICY_FILTER -> dbus_user_proxy_socket initial_handle = NULL ->
   mounts (events r) = [] /\ hidden (events r) = [] /\ setenvs (events r) = []).
Proof.
  apply (dbus_apply_policy_needs_start RUN_FIREJAIL_DBUS_DIR HAVE_SECCOMP cfg
           OS os_handler os initial_handle).
  - vm_compute. reflexivity.
  - left. split; reflexivity.
Defined.
